(** * EdgeLink API clients: a shallow embedding and its contract

    The repository holds three near-identical Python clients for a
    link-shortening service:

    - [edgelink_api_client.py]            (module [ApiClient] below),
    - [edgelink_full_features_client.py]  (module [FullFeatures]),
    - [examples/python_api_client.py]     (module [Example]).

    Every method builds a request, hands it to the [requests] library and
    branches on the status code of the response.  The embedding keeps the
    client object, the remote service, the list of requests handed to the
    transport and the console as explicit state; an exception leaves the
    state as it was when it was raised, like in Python. *)

From stdpp Require Import gmap strings list fin_maps pretty.
From Stdlib Require Import ZArith SpecFloat Ascii.

Local Open Scope Z_scope.

(** ** Python objects

    The objects the clients handle are those [json.loads] produces, plus
    the strings and integers callers pass in. *)

#[warnings="-register-all"]
Inductive value : Type :=
  | VNone
  | VBool (b : bool)
  | VInt (n : Z)
  | VFloat (f : spec_float)
  | VStr (s : string)
  | VList (l : list value)
  | VDict (d : gmap string value).

(** Python's truth value testing: [None], [False], zero, and empty strings
    and containers are false. *)
Definition truthy (v : value) : bool :=
  match v with
  | VNone => false
  | VBool b => b
  | VInt n => negb (n =? 0)
  | VFloat (S754_zero _) => false
  | VFloat _ => true
  | VStr EmptyString => false
  | VStr _ => true
  | VList [] => false
  | VList _ => true
  | VDict d => match map_to_list d with [] => false | _ => true end
  end.

(** [a or b] returns [a] when it is true and [b] otherwise. *)
Definition py_or (a b : value) : value := if truthy a then a else b.

(** An argument declared [x: str = None]. *)
Definition of_opt (o : option string) : value :=
  match o with
  | Some s => VStr s
  | None => VNone
  end.

Definition opt_truthy (o : option string) : bool := truthy (of_opt o).

Definition opt_or (a b : option string) : option string :=
  if opt_truthy a then a else b.

(** The exceptions the clients can meet.  None of the three files has a
    [try] statement, so each of them reaches the caller. *)
Inductive exn : Type :=
  | KeyError (k : string)
  | TypeError
  | AttributeError
  | JSONDecodeError
  | RequestException (what : string).

Inductive outcome (A : Type) : Type :=
  | Ok (a : A)
  | Raise (e : exn).
Arguments Ok {A} a.
Arguments Raise {A} e.

(** ** The [requests] library, seen from the client *)

Inductive body : Type :=
  | NoBody
  | JsonBody (v : value)
  | DataBody (s : string).

Record Request : Type := mkRequest {
  method : string;
  url : string;
  headers : option (gmap string string);
  payload : body
}.

(** A response: [json] is [None] when [response.json()] raises because the
    body is not a JSON document. *)
Record Response : Type := mkResponse {
  status_code : Z;
  text : string;
  json : option value
}.

(** ** The client object *)

Record Client : Type := mkClient {
  base_url : string;
  api_key : option string;
  jwt_token : value;
  email : option string;
  password : option string
}.

Definition with_jwt_token (c : Client) (t : value) : Client :=
  {| base_url := base_url c; api_key := api_key c; jwt_token := t;
     email := email c; password := password c |}.

Definition with_email (c : Client) (e : option string) : Client :=
  {| base_url := base_url c; api_key := api_key c; jwt_token := jwt_token c;
     email := e; password := password c |}.

(** ** The console

    A printed line is kept as the parts of its f-string, embedded
    expressions not yet rendered. *)
Inductive frag : Type :=
  | T (s : string)
  | V (v : value)
  | I (n : Z)
  | Len (v : value).

Definition line : Type := list frag.

(** ** State and effects

    [net] is the state of everything behind [requests.request]: the
    network and the remote service.  [calls] lists the requests handed to
    the transport with the answer each one got, oldest first, and [stdout]
    the lines printed. *)
Definition answer : Type := (Response + string)%type.

Record World (S : Type) : Type := mkWorld {
  self : Client;
  net : S;
  calls : list (Request * answer);
  stdout : list line
}.
Arguments mkWorld {S} _ _ _ _.
Arguments self {S} _.
Arguments net {S} _.
Arguments calls {S} _.
Arguments stdout {S} _.

Definition sent {S} (w : World S) : list Request := (calls w).*1.

(** A method of the client: it runs in a world and leaves a result or an
    exception, and the world as it was at that point. *)
Definition M (S A : Type) : Type := World S -> outcome A * World S.

Definition ret {S A} (a : A) : M S A := fun w => (Ok a, w).

Definition raise {S A} (e : exn) : M S A := fun w => (Raise e, w).

Definition bind {S A B} (m : M S A) (k : A -> M S B) : M S B :=
  fun w =>
    match m w with
    | (Ok a, w') => k a w'
    | (Raise e, w') => (Raise e, w')
    end.

Declare Scope py_scope.
Delimit Scope py_scope with py.
Notation "x <- m ; k" := (bind m (fun x => k))
  (at level 100, m at next level, right associativity) : py_scope.
Notation "m ;; k" := (bind m (fun _ => k))
  (at level 100, right associativity) : py_scope.
Local Open Scope py_scope.

Definition get_self {S} : M S Client := fun w => (Ok (self w), w).

Definition set_jwt_token {S} (t : value) : M S unit :=
  fun w => (Ok tt, mkWorld (with_jwt_token (self w) t) (net w) (calls w) (stdout w)).

Definition set_email {S} (e : option string) : M S unit :=
  fun w => (Ok tt, mkWorld (with_email (self w) e) (net w) (calls w) (stdout w)).

Definition print_ {S} (l : line) : M S unit :=
  fun w => (Ok tt, mkWorld (self w) (net w) (calls w) (stdout w ++ [l])).

(** [response.json()] *)
Definition resp_json {S} (r : Response) : M S value :=
  match json r with
  | Some v => ret v
  | None => raise JSONDecodeError
  end.

(** [v[k]] for a string key [k] *)
Definition getitem {S} (v : value) (k : string) : M S value :=
  match v with
  | VDict d =>
      match d !! k with
      | Some x => ret x
      | None => raise (KeyError k)
      end
  | _ => raise TypeError
  end.

(** [v.get(k, dflt)] *)
Definition get_default {S} (v : value) (k : string) (dflt : value) : M S value :=
  match v with
  | VDict d => ret (default dflt (d !! k))
  | _ => raise AttributeError
  end.

(** [len(v)] is defined on strings, lists and dicts.  The console keeps
    [Len v] unrendered, so only the check is modelled. *)
Definition check_len {S} (v : value) : M S unit :=
  match v with
  | VStr _ | VList _ | VDict _ => ret tt
  | _ => raise TypeError
  end.

(** The items a [for] loop over [v] visits: the elements of a list, the
    keys of a dict (their order is not modelled) and the characters of a
    string.  The responses of the service put lists there; the body of
    every loop of the clients starts by subscripting the item with a
    string, which raises [TypeError] on a key or a character. *)
Definition iter_items {S} (v : value) : M S (list value) :=
  match v with
  | VList l => ret l
  | VDict d => ret (VStr <$> (map_to_list d).*1)
  | VStr s => ret ((fun a => VStr (String a EmptyString)) <$> String.list_ascii_of_string s)
  | _ => raise TypeError
  end.

Fixpoint for_each {S A} (l : list A) (f : A -> M S unit) : M S unit :=
  match l with
  | [] => ret tt
  | x :: l' => (f x ;; for_each l' f)
  end.

Section Runtime.
Context {S : Type}.

(** [requests.request]: the transport answers with a response or fails
    with an exception of [requests.exceptions] (connection errors,
    timeouts, invalid requests), named by a string. *)
Variable transport : S -> Request -> answer * S.

Definition requests_request (meth u : string)
    (h : option (gmap string string)) (b : body) : M S Response :=
  fun w =>
    let req := mkRequest meth u h b in
    let '(r, s') := transport (net w) req in
    let w' := mkWorld (self w) s' (calls w ++ [(req, r)]) (stdout w) in
    match r with
    | inl resp => (Ok resp, w')
    | inr what => (Raise (RequestException what), w')
    end.

(** [str()] of floats, lists and dicts is left to the interpreter. *)
Variable py_repr : value -> string.

Definition py_str (v : value) : string :=
  match v with
  | VStr s => s
  | VNone => "None"
  | VBool true => "True"
  | VBool false => "False"
  | VInt n => pretty n
  | _ => py_repr v
  end.

End Runtime.

(** ** [edgelink_api_client.py] *)
Module ApiClient.

Definition BASE_URL : string := "https://go.shortedbro.xyz".

(** The endpoint methods of the class, each with its arguments.  Every one
    of them makes at most one call to [_request].  ([bulk_create_links]
    loops over [shorten] and is treated apart, as are [bulk_import_csv],
    [bulk_import_from_list] and [generate_qr], which exchange CSV text and
    image bytes.) *)
Inductive operation : Type :=
  | Get_profile
  | Generate_api_key (name : string) (expires_in_days : Z)
  | List_api_keys
  | Revoke_api_key (key_id : string)
  | Shorten (u custom_slug group_id : value) (kwargs : gmap string value)
  | List_links (page limit : Z) (search : option string)
  | Get_link (slug : string)
  | Update_link (slug : string) (destination new_slug : option string)
  | Delete_link (slug : string)
  | Move_link_to_group (slug : string) (group_id : option string)
  | Export_links (format : string)
  | Bulk_move_to_group (slugs : list string) (group_id : option string)
  | List_groups
  | Create_group (name : string) (description : option string) (color : string)
  | Get_group (group_id : string) (page limit : Z)
  | Update_group (group_id : string) (name description color : option string)
  | Delete_group (group_id : string)
  | Add_links_to_group (group_id : string) (slugs : list string)
  | Remove_links_from_group (group_id : string) (slugs : list string)
  | Get_stats (slug : string)
  | Get_analytics (slug time_range : string)
  | Get_group_analytics (group_id time_range : string)
  | Get_overall_analytics (time_range : string)
  | Export_analytics (slug format time_range : string)
  | Get_routing (slug : string)
  | Set_device_routing (slug mobile desktop : string) (tablet : option string)
  | Set_geo_routing (slug : string) (routes : gmap string string)
  | Set_referrer_routing (slug : string) (routes : gmap string string)
  | Delete_routing (slug : string) (routing_type : option string)
  | List_domains
  | Add_domain (domain_name : string)
  | Verify_domain (domain_id : string)
  | Delete_domain (domain_id : string)
  | List_webhooks
  | Create_webhook (u : string) (events : list string) (secret : option string)
  | Delete_webhook (webhook_id : string).

(** The status each method compares [response.status_code] with. *)
Definition expected_status (op : operation) : Z :=
  match op with
  | Generate_api_key _ _ | Shorten _ _ _ _ | Create_group _ _ _
  | Add_domain _ | Create_webhook _ _ _ => 201
  | _ => 200
  end.


Section Methods.
Context {S : Type}.
Variable transport : S -> Request -> answer * S.
Variable py_repr : value -> string.

Definition _get_headers (c : Client) : gmap string string :=
  let token := py_or (of_opt (api_key c)) (jwt_token c) in
  let headers : gmap string string := {[ "Content-Type" := "application/json" ]} in
  if truthy token
  then <[ "Authorization" := "Bearer " +:+ py_str py_repr token ]> headers
  else headers.

(** [_request(method, endpoint, **kwargs)]: [h] is the [headers] keyword
    when the caller gives one, [b] the [json] or [data] keyword. *)
Definition _request (meth endpoint : string)
    (h : option (gmap string string)) (b : body) : M S Response :=
  c <- get_self;
  let u := base_url c +:+ endpoint in
  let hs := default (_get_headers c) h in
  requests_request transport meth u (Some hs) b.

Definition login (email_arg password_arg : option string) : M S value :=
  c <- get_self;
  let em := opt_or email_arg (email c) in
  let pw := opt_or password_arg (password c) in
  response <- _request "POST" "/auth/login"
    (Some {[ "Content-Type" := "application/json" ]})
    (JsonBody (VDict {[ "email" := of_opt em; "password" := of_opt pw ]}));
  if status_code response =? 200 then
    data <- resp_json response;
    tok <- getitem data "token";
    set_jwt_token tok;;
    set_email em;;
    u1 <- getitem data "user";
    e <- getitem u1 "email";
    u2 <- getitem data "user";
    p <- getitem u2 "plan";
    print_ [T "✅ Logged in as "; V e; T " (Plan: "; V p; T ")"];;
    ret data
  else
    print_ [T "❌ Login failed: "; I (status_code response)];;
    j <- resp_json response;
    print_ [V j];;
    ret VNone.

Definition signup (em pw plan : string) : M S value :=
  response <- _request "POST" "/auth/signup"
    (Some {[ "Content-Type" := "application/json" ]})
    (JsonBody (VDict {[ "email" := VStr em; "password" := VStr pw;
                        "plan" := VStr plan ]}));
  if status_code response =? 201 then
    data <- resp_json response;
    tok <- getitem data "token";
    set_jwt_token tok;;
    set_email (Some em);;
    u <- getitem data "user";
    i <- getitem u "user_id";
    print_ [T "✅ Account created! User ID: "; V i];;
    ret data
  else
    print_ [T "❌ Signup failed: "; I (status_code response)];;
    j <- resp_json response;
    print_ [V j];;
    ret VNone.

(** [__init__]: the new object replaces [self]; the login it may issue
    runs on the new object. *)
Definition new_client (key em pw : option string) : Client :=
  {| base_url := BASE_URL; api_key := key; jwt_token := VNone;
     email := em; password := pw |}.

Definition __init__ (key em pw : option string) : M S unit :=
  fun w =>
    let w0 := mkWorld (new_client key em pw) (net w) (calls w) (stdout w) in
    if opt_truthy em && opt_truthy pw && negb (opt_truthy key)
    then (login None None ;; ret tt) w0
    else (Ok tt, w0).

Definition get_profile : M S value :=
  response <- _request "GET" "/api/user/profile" None NoBody;
  if status_code response =? 200 then
    data <- resp_json response;
    e <- getitem data "email";
    p <- getitem data "plan";
    print_ [T "✅ Profile: "; V e; T " (Plan: "; V p; T ")"];;
    ret data
  else
    print_ [T "❌ Error: "; I (status_code response)];;
    ret VNone.

Definition generate_api_key (name : string) (expires_in_days : Z) : M S value :=
  c <- get_self;
  if negb (truthy (jwt_token c)) then
    print_ [T "❌ JWT token required. Login first."];;
    ret VNone
  else
    let hs : gmap string string :=
      {[ "Content-Type" := "application/json";
         "Authorization" := "Bearer " +:+ py_str py_repr (jwt_token c) ]} in
    response <- _request "POST" "/api/keys" (Some hs)
      (JsonBody (VDict {[ "name" := VStr name;
                          "expires_in_days" := VInt expires_in_days ]}));
    if status_code response =? 201 then
      data <- resp_json response;
      k <- getitem data "api_key";
      print_ [T "✅ API Key Generated: "; V k];;
      print_ [T "⚠️  SAVE THIS KEY NOW - YOU WON'T SEE IT AGAIN!"];;
      ret data
    else
      j <- resp_json response;
      print_ [T "❌ Failed: "; I (status_code response); T " - "; V j];;
      ret VNone.

Definition list_api_keys : M S value :=
  response <- _request "GET" "/api/keys" None NoBody;
  if status_code response =? 200 then
    data <- resp_json response;
    t <- getitem data "total";
    print_ [T "✅ Found "; V t; T " API key(s)"];;
    ks <- getitem data "keys";
    keys <- iter_items ks;
    for_each keys (fun key =>
      n <- getitem key "name";
      p <- getitem key "key_prefix";
      print_ [T "  🔑 "; V n; T " ("; V p; T ")"]);;
    ret data
  else
    print_ [T "❌ Error: "; I (status_code response)];;
    ret VNone.

Definition revoke_api_key (key_id : string) : M S value :=
  response <- _request "DELETE" ("/api/keys/" +:+ key_id) None NoBody;
  if status_code response =? 200 then
    print_ [T "✅ API key revoked"];;
    ret (VBool true)
  else
    print_ [T "❌ Error: "; I (status_code response)];;
    ret (VBool false).

(** [shorten] is called by [bulk_create_links] with whatever
    [link_data.get] returns, so its arguments are objects. *)
Definition shorten (u custom_slug group_id : value)
    (kwargs : gmap string value) : M S value :=
  let p0 : gmap string value := {[ "url" := u ]} in
  let p1 := if truthy custom_slug then <[ "custom_slug" := custom_slug ]> p0 else p0 in
  let p2 := if truthy group_id then <[ "group_id" := group_id ]> p1 else p1 in
  let p3 := kwargs ∪ p2 in
  response <- _request "POST" "/api/shorten" None (JsonBody (VDict p3));
  if status_code response =? 201 then
    data <- resp_json response;
    su <- getitem data "short_url";
    print_ [T "✅ Created: "; V su];;
    ret data
  else
    j <- resp_json response;
    print_ [T "❌ Error: "; I (status_code response); T " - "; V j];;
    ret VNone.

Definition list_links (page limit : Z) (search : option string) : M S value :=
  let params := "?page=" +:+ pretty page +:+ "&limit=" +:+ pretty limit in
  let params :=
    if opt_truthy search
    then params +:+ "&search=" +:+ default "" search
    else params in
  response <- _request "GET" ("/api/links" +:+ params) None NoBody;
  if status_code response =? 200 then
    data <- resp_json response;
    t <- getitem data "total";
    tp <- getitem data "totalPages";
    print_ [T "✅ Found "; V t; T " links (Page "; I page; T "/"; V tp; T ")"];;
    ret data
  else
    print_ [T "❌ Error: "; I (status_code response)];;
    ret VNone.

Definition get_link (slug : string) : M S value :=
  response <- _request "GET" ("/api/links/" +:+ slug) None NoBody;
  if status_code response =? 200 then
    resp_json response
  else
    print_ [T "❌ Error: "; I (status_code response)];;
    ret VNone.

Definition update_link (slug : string) (destination new_slug : option string)
    : M S value :=
  let p0 : gmap string value := ∅ in
  let p1 := if opt_truthy destination
            then <[ "destination" := of_opt destination ]> p0 else p0 in
  let p2 := if opt_truthy new_slug
            then <[ "slug" := of_opt new_slug ]> p1 else p1 in
  response <- _request "PUT" ("/api/links/" +:+ slug) None (JsonBody (VDict p2));
  if status_code response =? 200 then
    print_ [T "✅ Link updated"];;
    resp_json response
  else
    j <- resp_json response;
    print_ [T "❌ Error: "; I (status_code response); T " - "; V j];;
    ret VNone.

Definition delete_link (slug : string) : M S value :=
  response <- _request "DELETE" ("/api/links/" +:+ slug) None NoBody;
  if status_code response =? 200 then
    print_ [T "✅ Link deleted: "; T slug];;
    ret (VBool true)
  else
    print_ [T "❌ Error: "; I (status_code response)];;
    ret (VBool false).

Definition move_link_to_group (slug : string) (group_id : option string)
    : M S value :=
  response <- _request "PUT" ("/api/links/" +:+ slug +:+ "/group") None
    (JsonBody (VDict {[ "group_id" := of_opt group_id ]}));
  if status_code response =? 200 then
    print_ [T "✅ Link moved to ";
            T (if negb (opt_truthy group_id) then "ungrouped"
               else "group " +:+ default "" group_id)];;
    resp_json response
  else
    j <- resp_json response;
    print_ [T "❌ Error: "; I (status_code response); T " - "; V j];;
    ret VNone.

(** One turn of the loop of [bulk_create_links] on the [i]-th descriptor:
    [st] holds [results], [successful] and [failed].  The call
    [self.shorten(url, custom_slug, group_id, **kwargs)] is rejected with
    a [TypeError] when a keyword is named [self]. *)
Definition bulk_step (total i : Z) (link_data : gmap string value)
    (st : list value * Z * Z) : M S (list value * Z * Z) :=
  let '(results, successful, failed) := st in
  let u := default VNone (link_data !! "url") in
  let custom_slug := default VNone (link_data !! "custom_slug") in
  let group_id := default VNone (link_data !! "group_id") in
  let kwargs := filter (fun kv => kv.1 ∉ ["url"; "custom_slug"; "group_id"]) link_data in
  result <- (if decide ("self" ∈ dom kwargs) then raise TypeError
             else shorten u custom_slug group_id kwargs);
  st' <- (if truthy result then
            sl <- getitem result "slug";
            su <- getitem result "short_url";
            ret (results ++ [VDict {[ "success" := VBool true; "slug" := sl;
                                      "short_url" := su; "destination" := u ]}],
                 successful + 1, failed)
          else
            ret (results ++ [VDict {[ "success" := VBool false; "destination" := u;
                                      "error" := VStr "Failed to create" ]}],
                 successful, failed + 1));
  (if (i mod 10 =? 0) || (i =? total)
   then print_ [T "  Progress: "; I i; T "/"; I total]
   else ret tt);;
  ret st'.

Fixpoint bulk_loop (total i : Z) (links : list (gmap string value))
    (st : list value * Z * Z) : M S (list value * Z * Z) :=
  match links with
  | [] => ret st
  | link_data :: rest =>
      st' <- bulk_step total i link_data st;
      bulk_loop total (i + 1) rest st'
  end.

Definition bulk_create_links (links : list (gmap string value)) : M S value :=
  let total := Z.of_nat (length links) in
  print_ [T "📦 Creating "; I total; T " links..."];;
  st <- bulk_loop total 1 links ([], 0, 0);
  let '(results, successful, failed) := st in
  print_ [T "
✅ Bulk create complete: "; I successful; T " successful, "; I failed; T " failed"];;
  ret (VList results).

Definition export_links (format : string) : M S value :=
  response <- _request "GET" ("/api/export/links?format=" +:+ format) None NoBody;
  if status_code response =? 200 then
    if String.eqb format "json" then
      data <- resp_json response;
      n <- getitem data "total_links";
      print_ [T "✅ Exported "; V n; T " links"];;
      ret data
    else
      print_ [T "✅ Exported links as CSV"];;
      ret (VStr (text response))
  else
    print_ [T "❌ Export failed: "; I (status_code response)];;
    j <- resp_json response;
    print_ [V j];;
    ret VNone.

Definition bulk_move_to_group (slugs : list string) (group_id : option string)
    : M S value :=
  response <- _request "POST" "/api/links/bulk-group" None
    (JsonBody (VDict {[ "slugs" := VList (VStr <$> slugs);
                        "group_id" := of_opt group_id ]}));
  if status_code response =? 200 then
    data <- resp_json response;
    n <- getitem data "moved";
    print_ [T "✅ Moved "; V n; T " links"];;
    ret data
  else
    print_ [T "❌ Error: "; I (status_code response)];;
    ret VNone.

(** [error_data.get('code') == 'PRO_REQUIRED'] *)
Definition is_pro_required (code : value) : bool :=
  match code with
  | VStr s => String.eqb s "PRO_REQUIRED"
  | _ => false
  end.

Definition list_groups : M S value :=
  response <- _request "GET" "/api/groups" None NoBody;
  if status_code response =? 200 then
    data <- resp_json response;
    gs <- getitem data "groups";
    check_len gs;;
    uc <- getitem data "ungrouped_count";
    print_ [T "✅ Found "; Len gs; T " groups ("; V uc; T " ungrouped links)"];;
    gs' <- getitem data "groups";
    groups <- iter_items gs';
    for_each groups (fun group =>
      n <- getitem group "name";
      lc <- get_default group "link_count" (VInt 0);
      print_ [T "  📁 "; V n; T " ("; V lc; T " links)"]);;
    ret data
  else
    error_data <- resp_json response;
    code <- get_default error_data "code" VNone;
    (if is_pro_required code
     then print_ [T "❌ Groups are a Pro feature. Upgrade to use groups."]
     else print_ [T "❌ Error: "; I (status_code response)]);;
    ret VNone.

Definition create_group (name : string) (description : option string)
    (color : string) : M S value :=
  let p0 : gmap string value := {[ "name" := VStr name; "color" := VStr color ]} in
  let p1 := if opt_truthy description
            then <[ "description" := of_opt description ]> p0 else p0 in
  response <- _request "POST" "/api/groups" None (JsonBody (VDict p1));
  if status_code response =? 201 then
    data <- resp_json response;
    g1 <- getitem data "group";
    n <- getitem g1 "name";
    g2 <- getitem data "group";
    i <- getitem g2 "group_id";
    print_ [T "✅ Group created: "; V n; T " ("; V i; T ")"];;
    ret data
  else
    j <- resp_json response;
    print_ [T "❌ Error: "; I (status_code response); T " - "; V j];;
    ret VNone.

Definition get_group (group_id : string) (page limit : Z) : M S value :=
  response <- _request "GET"
    ("/api/groups/" +:+ group_id +:+ "?page=" +:+ pretty page
       +:+ "&limit=" +:+ pretty limit) None NoBody;
  if status_code response =? 200 then
    data <- resp_json response;
    g <- getitem data "group";
    n <- getitem g "name";
    t <- getitem data "total";
    print_ [T "✅ Group: "; V n; T " ("; V t; T " links)"];;
    ret data
  else
    print_ [T "❌ Error: "; I (status_code response)];;
    ret VNone.

Definition update_group (group_id : string) (name description color : option string)
    : M S value :=
  let p0 : gmap string value := ∅ in
  let p1 := if opt_truthy name then <[ "name" := of_opt name ]> p0 else p0 in
  let p2 := match description with
            | Some d => <[ "description" := VStr d ]> p1
            | None => p1
            end in
  let p3 := if opt_truthy color then <[ "color" := of_opt color ]> p2 else p2 in
  response <- _request "PUT" ("/api/groups/" +:+ group_id) None (JsonBody (VDict p3));
  if status_code response =? 200 then
    print_ [T "✅ Group updated"];;
    resp_json response
  else
    print_ [T "❌ Error: "; I (status_code response)];;
    ret VNone.

Definition delete_group (group_id : string) : M S value :=
  response <- _request "DELETE" ("/api/groups/" +:+ group_id) None NoBody;
  if status_code response =? 200 then
    data <- resp_json response;
    n <- getitem data "links_moved";
    print_ [T "✅ Group deleted ("; V n; T " links moved to ungrouped)"];;
    ret (VBool true)
  else
    print_ [T "❌ Error: "; I (status_code response)];;
    ret (VBool false).

Definition add_links_to_group (group_id : string) (slugs : list string)
    : M S value :=
  response <- _request "POST" ("/api/groups/" +:+ group_id +:+ "/links") None
    (JsonBody (VDict {[ "slugs" := VList (VStr <$> slugs) ]}));
  if status_code response =? 200 then
    data <- resp_json response;
    n <- getitem data "added";
    print_ [T "✅ Added "; V n; T " links to group"];;
    ret data
  else
    print_ [T "❌ Error: "; I (status_code response)];;
    ret VNone.

Definition remove_links_from_group (group_id : string) (slugs : list string)
    : M S value :=
  response <- _request "DELETE" ("/api/groups/" +:+ group_id +:+ "/links") None
    (JsonBody (VDict {[ "slugs" := VList (VStr <$> slugs) ]}));
  if status_code response =? 200 then
    data <- resp_json response;
    n <- getitem data "removed";
    print_ [T "✅ Removed "; V n; T " links from group"];;
    ret data
  else
    print_ [T "❌ Error: "; I (status_code response)];;
    ret VNone.

Definition get_stats (slug : string) : M S value :=
  response <- _request "GET" ("/api/stats/" +:+ slug) None NoBody;
  if status_code response =? 200 then
    data <- resp_json response;
    n <- getitem data "total_clicks";
    print_ [T "✅ Stats for "; T slug; T ": "; V n; T " clicks"];;
    ret data
  else
    print_ [T "❌ Error: "; I (status_code response)];;
    ret VNone.

Definition get_analytics (slug time_range : string) : M S value :=
  response <- _request "GET"
    ("/api/analytics/" +:+ slug +:+ "?range=" +:+ time_range) None NoBody;
  if status_code response =? 200 then
    data <- resp_json response;
    n <- get_default data "total_clicks" (VInt 0);
    print_ [T "✅ Analytics for "; T slug; T " ("; T time_range; T "): "; V n;
            T " clicks"];;
    ret data
  else
    print_ [T "❌ Error: "; I (status_code response)];;
    ret VNone.

Definition get_group_analytics (group_id time_range : string) : M S value :=
  response <- _request "GET"
    ("/api/groups/" +:+ group_id +:+ "/analytics?range=" +:+ time_range) None NoBody;
  if status_code response =? 200 then
    data <- resp_json response;
    n <- getitem data "total_clicks";
    print_ [T "✅ Group analytics ("; T time_range; T "): "; V n; T " clicks"];;
    ret data
  else
    print_ [T "❌ Error: "; I (status_code response)];;
    ret VNone.

Definition get_overall_analytics (time_range : string) : M S value :=
  response <- _request "GET" ("/api/analytics/overview?range=" +:+ time_range)
    None NoBody;
  if status_code response =? 200 then
    data <- resp_json response;
    n <- getitem data "total_clicks";
    l <- getitem data "total_links";
    print_ [T "✅ Overall analytics ("; T time_range; T "): "; V n;
            T " clicks across "; V l; T " links"];;
    ret data
  else
    error_data <- resp_json response;
    code <- get_default error_data "code" VNone;
    (if is_pro_required code
     then print_ [T "❌ Overall analytics is a Pro feature."]
     else print_ [T "❌ Error: "; I (status_code response)]);;
    ret VNone.

Definition export_analytics (slug format time_range : string) : M S value :=
  response <- _request "GET"
    ("/api/export/analytics/" +:+ slug +:+ "?format=" +:+ format
       +:+ "&range=" +:+ time_range) None NoBody;
  if status_code response =? 200 then
    if String.eqb format "json" then resp_json response
    else ret (VStr (text response))
  else
    print_ [T "❌ Export failed: "; I (status_code response)];;
    ret VNone.

Definition get_routing (slug : string) : M S value :=
  response <- _request "GET" ("/api/links/" +:+ slug +:+ "/routing") None NoBody;
  if status_code response =? 200 then
    resp_json response
  else
    print_ [T "❌ Error: "; I (status_code response)];;
    ret VNone.

Definition set_device_routing (slug mobile desktop : string) (tablet : option string)
    : M S value :=
  let p0 : gmap string value :=
    {[ "mobile" := VStr mobile; "desktop" := VStr desktop ]} in
  let p1 := if opt_truthy tablet then <[ "tablet" := of_opt tablet ]> p0 else p0 in
  response <- _request "POST" ("/api/links/" +:+ slug +:+ "/routing/device") None
    (JsonBody (VDict p1));
  if status_code response =? 200 then
    print_ [T "✅ Device routing configured"];;
    resp_json response
  else
    j <- resp_json response;
    print_ [T "❌ Error: "; I (status_code response); T " - "; V j];;
    ret VNone.

Definition set_geo_routing (slug : string) (routes : gmap string string)
    : M S value :=
  response <- _request "POST" ("/api/links/" +:+ slug +:+ "/routing/geo") None
    (JsonBody (VDict {[ "routes" := VDict (VStr <$> routes) ]}));
  if status_code response =? 200 then
    print_ [T "✅ Geographic routing configured"];;
    resp_json response
  else
    j <- resp_json response;
    print_ [T "❌ Error: "; I (status_code response); T " - "; V j];;
    ret VNone.

Definition set_referrer_routing (slug : string) (routes : gmap string string)
    : M S value :=
  response <- _request "POST" ("/api/links/" +:+ slug +:+ "/routing/referrer") None
    (JsonBody (VDict {[ "routes" := VDict (VStr <$> routes) ]}));
  if status_code response =? 200 then
    print_ [T "✅ Referrer routing configured"];;
    resp_json response
  else
    j <- resp_json response;
    print_ [T "❌ Error: "; I (status_code response); T " - "; V j];;
    ret VNone.

Definition delete_routing (slug : string) (routing_type : option string)
    : M S value :=
  let params := if opt_truthy routing_type
                then "?type=" +:+ default "" routing_type else "" in
  response <- _request "DELETE" ("/api/links/" +:+ slug +:+ "/routing" +:+ params)
    None NoBody;
  if status_code response =? 200 then
    print_ [T "✅ Routing deleted"];;
    ret (VBool true)
  else
    print_ [T "❌ Error: "; I (status_code response)];;
    ret (VBool false).

Definition list_domains : M S value :=
  response <- _request "GET" "/api/domains" None NoBody;
  if status_code response =? 200 then
    data <- resp_json response;
    ds <- getitem data "domains";
    check_len ds;;
    print_ [T "✅ Found "; Len ds; T " domains"];;
    ds' <- getitem data "domains";
    domains <- iter_items ds';
    for_each domains (fun domain =>
      v <- getitem domain "verified";
      let status := if truthy v then "✓ Verified" else "⏳ Pending" in
      n <- getitem domain "domain_name";
      print_ [T "  🌐 "; V n; T " ("; T status; T ")"]);;
    ret data
  else
    print_ [T "❌ Error: "; I (status_code response)];;
    ret VNone.

Definition add_domain (domain_name : string) : M S value :=
  response <- _request "POST" "/api/domains" None
    (JsonBody (VDict {[ "domain_name" := VStr domain_name ]}));
  if status_code response =? 201 then
    data <- resp_json response;
    print_ [T "✅ Domain added: "; T domain_name];;
    v <- getitem data "verification";
    r <- getitem v "record";
    x <- getitem r "value";
    print_ [T "   Add TXT record: _edgelink-verify = "; V x];;
    ret data
  else
    j <- resp_json response;
    print_ [T "❌ Error: "; I (status_code response); T " - "; V j];;
    ret VNone.

Definition verify_domain (domain_id : string) : M S value :=
  response <- _request "POST" ("/api/domains/" +:+ domain_id +:+ "/verify")
    None NoBody;
  if status_code response =? 200 then
    print_ [T "✅ Domain verified!"];;
    resp_json response
  else
    j <- resp_json response;
    print_ [T "❌ Verification failed: "; V j];;
    ret VNone.

Definition delete_domain (domain_id : string) : M S value :=
  response <- _request "DELETE" ("/api/domains/" +:+ domain_id) None NoBody;
  if status_code response =? 200 then
    print_ [T "✅ Domain deleted"];;
    ret (VBool true)
  else
    print_ [T "❌ Error: "; I (status_code response)];;
    ret (VBool false).

Definition list_webhooks : M S value :=
  response <- _request "GET" "/api/webhooks" None NoBody;
  if status_code response =? 200 then
    data <- resp_json response;
    ws <- getitem data "webhooks";
    check_len ws;;
    print_ [T "✅ Found "; Len ws; T " webhooks"];;
    ret data
  else
    print_ [T "❌ Error: "; I (status_code response)];;
    ret VNone.

Definition create_webhook (u : string) (events : list string)
    (secret : option string) : M S value :=
  let p0 : gmap string value :=
    {[ "url" := VStr u; "events" := VList (VStr <$> events) ]} in
  let p1 := if opt_truthy secret then <[ "secret" := of_opt secret ]> p0 else p0 in
  response <- _request "POST" "/api/webhooks" None (JsonBody (VDict p1));
  if status_code response =? 201 then
    data <- resp_json response;
    w <- getitem data "webhook";
    i <- getitem w "webhook_id";
    print_ [T "✅ Webhook created: "; V i];;
    ret data
  else
    print_ [T "❌ Error: "; I (status_code response)];;
    ret VNone.

Definition delete_webhook (webhook_id : string) : M S value :=
  response <- _request "DELETE" ("/api/webhooks/" +:+ webhook_id) None NoBody;
  if status_code response =? 200 then
    print_ [T "✅ Webhook deleted"];;
    ret (VBool true)
  else
    print_ [T "❌ Error: "; I (status_code response)];;
    ret (VBool false).

Definition run (op : operation) : M S value :=
  match op with
  | Get_profile => get_profile
  | Generate_api_key name d => generate_api_key name d
  | List_api_keys => list_api_keys
  | Revoke_api_key key_id => revoke_api_key key_id
  | Shorten u custom_slug group_id kwargs => shorten u custom_slug group_id kwargs
  | List_links page limit search => list_links page limit search
  | Get_link slug => get_link slug
  | Update_link slug destination new_slug => update_link slug destination new_slug
  | Delete_link slug => delete_link slug
  | Move_link_to_group slug group_id => move_link_to_group slug group_id
  | Export_links format => export_links format
  | Bulk_move_to_group slugs group_id => bulk_move_to_group slugs group_id
  | List_groups => list_groups
  | Create_group name description color => create_group name description color
  | Get_group group_id page limit => get_group group_id page limit
  | Update_group group_id name description color =>
      update_group group_id name description color
  | Delete_group group_id => delete_group group_id
  | Add_links_to_group group_id slugs => add_links_to_group group_id slugs
  | Remove_links_from_group group_id slugs => remove_links_from_group group_id slugs
  | Get_stats slug => get_stats slug
  | Get_analytics slug time_range => get_analytics slug time_range
  | Get_group_analytics group_id time_range => get_group_analytics group_id time_range
  | Get_overall_analytics time_range => get_overall_analytics time_range
  | Export_analytics slug format time_range => export_analytics slug format time_range
  | Get_routing slug => get_routing slug
  | Set_device_routing slug mobile desktop tablet =>
      set_device_routing slug mobile desktop tablet
  | Set_geo_routing slug routes => set_geo_routing slug routes
  | Set_referrer_routing slug routes => set_referrer_routing slug routes
  | Delete_routing slug routing_type => delete_routing slug routing_type
  | List_domains => list_domains
  | Add_domain domain_name => add_domain domain_name
  | Verify_domain domain_id => verify_domain domain_id
  | Delete_domain domain_id => delete_domain domain_id
  | List_webhooks => list_webhooks
  | Create_webhook u events secret => create_webhook u events secret
  | Delete_webhook webhook_id => delete_webhook webhook_id
  end.

(** *** The methods that exchange CSV text and image bytes *)

(** The exception of [d[:5]] on a dict [d]: a [TypeError] (the slice is
    not hashable) up to Python 3.11 and a [KeyError] from 3.12 on. *)
Variable dict_slice_exn : exn.

(** The items of [v[:n]], for the loop that visits them. *)
Definition slice_items (n : nat) (v : value) : M S (list value) :=
  match v with
  | VList l => ret (take n l)
  | VStr s =>
      ret (take n ((fun a => VStr (String a EmptyString))
                     <$> String.list_ascii_of_string s))
  | VDict _ => raise dict_slice_exn
  | _ => raise TypeError
  end.

Definition bulk_import_csv (csv_data : string) : M S value :=
  c <- get_self;
  let hs : gmap string string :=
    {[ "Content-Type" := "text/csv";
       "Authorization" :=
         "Bearer " +:+ py_str py_repr (py_or (of_opt (api_key c)) (jwt_token c)) ]} in
  response <- _request "POST" "/api/import/links" (Some hs) (DataBody csv_data);
  if status_code response =? 200 then
    data <- resp_json response;
    ok <- getitem data "successful";
    tot <- getitem data "total";
    print_ [T "✅ Import complete: "; V ok; T "/"; V tot; T " successful"];;
    errs <- getitem data "errors";
    (if truthy errs then
       errs1 <- getitem data "errors";
       check_len errs1;;
       print_ [T "⚠️  "; Len errs1; T " errors:"];;
       errs2 <- getitem data "errors";
       shown <- slice_items 5 errs2;
       for_each shown (fun err =>
         row <- getitem err "row";
         e <- getitem err "error";
         print_ [T "   Row "; V row; T ": "; V e])
     else ret tt);;
    ret data
  else
    print_ [T "❌ Import failed: "; I (status_code response)];;
    j <- resp_json response;
    print_ [V j];;
    ret VNone.

(** The CSV text [csv.DictWriter] writes for the rows, with the keys of the
    first row as field names ([writeheader], [writerows], [getvalue]); it
    raises when a row has a key that is no field name. *)
Variable csv_of_dicts : list (gmap string value) -> outcome string.

Definition bulk_import_from_list (links : list (gmap string value)) : M S value :=
  match links with
  | [] =>
      print_ [T "❌ No links provided"];;
      ret VNone
  | _ :: _ =>
      match csv_of_dicts links with
      | Ok csv_data => bulk_import_csv csv_data
      | Raise e => raise e
      end
  end.

(** [response.content], the bytes of the body. *)
Variable content_of : Response -> list Byte.byte.

Definition generate_qr (slug format : string) : M S (option (list Byte.byte)) :=
  response <- _request "GET" ("/api/links/" +:+ slug +:+ "/qr?format=" +:+ format)
    None NoBody;
  if status_code response =? 200 then
    print_ [T "✅ QR code generated"];;
    ret (Some (content_of response))
  else
    print_ [T "❌ Error: "; I (status_code response)];;
    ret None.

(** *** The quick functions of the module

    Each of them builds a client of its own with the key of the module. *)
Definition API_KEY : string := "elk_4qnSlEEu8B4fLtEXtCpgpHrssvt2jVhb".

Definition quick_client : M S unit := __init__ (Some API_KEY) None None.

Definition quick_create (u : string) (slug group : option string) : M S value :=
  quick_client;;
  shorten (VStr u) (of_opt slug) (of_opt group) ∅.

Definition quick_bulk_create (urls : list string) : M S value :=
  quick_client;;
  let links := (fun u : string => ({[ "url" := VStr u ]} : gmap string value)) <$> urls in
  bulk_create_links links.

Definition quick_groups : M S value :=
  quick_client;;
  list_groups.

Definition quick_links (limit : Z) : M S value :=
  quick_client;;
  list_links 1 limit None.

Definition quick_analytics (slug : string) : M S value :=
  quick_client;;
  get_analytics slug "7d".

(** *** The demos of the module

    Each demo takes the client.  The slug a demo reads from a response
    goes into the URLs of its later calls the way an f-string formats it.
    ([demo_group_operations] and [demo_analytics], which hand parts of a
    response on as group ids and index a list, are not modelled.) *)

(** ["=" * 70] *)
Definition rule70 : string := String.concat "" (replicate 70 "=").

Definition banner (title : string) : M S unit :=
  print_ [T ("
" +:+ rule70)];;
  print_ [T title];;
  print_ [T rule70].

Definition demo_basic_operations : M S unit :=
  banner "DEMO: Basic Link Operations";;
  link <- shorten (VStr "https://example.com/test-page") VNone VNone ∅;
  if truthy link then
    slug <- getitem link "slug";
    get_stats (py_str py_repr slug);;
    update_link (py_str py_repr slug) (Some "https://example.com/updated") None;;
    ret tt
  else ret tt.

(** [int(datetime.now().timestamp())], when [demo_bulk_operations] reads
    the clock. *)
Variable timestamp : Z.

Definition demo_bulk_operations : M S unit :=
  banner "DEMO: Bulk Link Operations";;
  let links_to_create : list (gmap string value) :=
    [ {[ "url" := VStr "https://example.com/page1" ]};
      {[ "url" := VStr "https://example.com/page2";
         "custom_slug" := VStr ("custom-" +:+ pretty timestamp) ]};
      {[ "url" := VStr "https://example.com/page3" ]} ] in
  bulk_create_links links_to_create;;
  ret tt.

Definition demo_routing : M S unit :=
  banner "DEMO: Smart Routing (Pro Only)";;
  link <- shorten (VStr "https://example.com/default") VNone VNone ∅;
  if negb (truthy link) then ret tt
  else
    slug <- getitem link "slug";
    set_device_routing (py_str py_repr slug) "https://m.example.com"
      "https://www.example.com" (Some "https://tablet.example.com");;
    set_geo_routing (py_str py_repr slug)
      {[ "US" := "https://example.com/us"; "GB" := "https://example.com/uk";
         "IN" := "https://example.com/in"; "default" := "https://example.com" ]};;
    set_referrer_routing (py_str py_repr slug)
      {[ "twitter.com" := "https://example.com/from-twitter";
         "linkedin.com" := "https://example.com/from-linkedin";
         "default" := "https://example.com" ]};;
    get_routing (py_str py_repr slug);;
    ret tt.

End Methods.
End ApiClient.

(** ** More of Python, for the two other clients *)

(** [needle in v] for a string [needle]: a key of a dict, an element of a
    list, a substring of a string. *)
Definition py_contains {S} (needle : string) (v : value) : M S bool :=
  match v with
  | VDict d => ret (match d !! needle with Some _ => true | None => false end)
  | VList l =>
      ret (existsb (fun x => match x with
                             | VStr s => String.eqb s needle
                             | _ => false
                             end) l)
  | VStr s => ret (match String.index 0 needle s with Some _ => true | None => false end)
  | _ => raise TypeError
  end.

(** [v.items()], for the loop that visits them; the order of the items is
    not modelled. *)
Definition items_of {S} (v : value) : M S (list (string * value)) :=
  match v with
  | VDict d => ret (map_to_list d)
  | _ => raise AttributeError
  end.

(** The result of a built-in, in the monad. *)
Definition lift_outcome {S A} (o : outcome A) : M S A :=
  match o with
  | Ok a => ret a
  | Raise e => raise e
  end.

(** ** [edgelink_full_features_client.py]

    This client calls [requests.post], [requests.get] and
    [requests.delete] itself, and prints [response.text] when a call
    fails. *)
Module FullFeatures.

Definition BASE_URL : string := "https://go.shortedbro.xyz".

Section Methods.
Context {S : Type}.
Variable transport : S -> Request -> answer * S.
Variable py_repr : value -> string.

Definition _get_headers (c : Client) : gmap string string :=
  let token := py_or (of_opt (api_key c)) (jwt_token c) in
  if negb (truthy token)
  then {[ "Content-Type" := "application/json" ]}
  else {[ "Content-Type" := "application/json";
          "Authorization" := "Bearer " +:+ py_str py_repr token ]}.

Definition login : M S value :=
  c <- get_self;
  response <- requests_request transport "POST" (base_url c +:+ "/auth/login") None
    (JsonBody (VDict {[ "email" := of_opt (email c);
                        "password" := of_opt (password c) ]}));
  if status_code response =? 200 then
    data <- resp_json response;
    tok <- getitem data "token";
    set_jwt_token tok;;
    u1 <- getitem data "user";
    e <- getitem u1 "email";
    print_ [T "✅ Logged in as "; V e];;
    u2 <- getitem data "user";
    p <- getitem u2 "plan";
    print_ [T "   Plan: "; V p];;
    ret data
  else
    print_ [T "❌ Login failed: "; I (status_code response)];;
    print_ [T (text response)];;
    ret VNone.

Definition signup (em pw plan : string) : M S value :=
  c <- get_self;
  response <- requests_request transport "POST" (base_url c +:+ "/auth/signup") None
    (JsonBody (VDict {[ "email" := VStr em; "password" := VStr pw;
                        "plan" := VStr plan ]}));
  if status_code response =? 201 then
    data <- resp_json response;
    tok <- getitem data "token";
    set_jwt_token tok;;
    set_email (Some em);;
    u <- getitem data "user";
    i <- getitem u "user_id";
    print_ [T "✅ Account created! User ID: "; V i];;
    ret data
  else
    print_ [T "❌ Signup failed: "; I (status_code response)];;
    print_ [T (text response)];;
    ret VNone.

Definition new_client (key em pw : option string) : Client :=
  {| base_url := BASE_URL; api_key := key; jwt_token := VNone;
     email := em; password := pw |}.

Definition __init__ (key em pw : option string) : M S unit :=
  fun w =>
    let w0 := mkWorld (new_client key em pw) (net w) (calls w) (stdout w) in
    if opt_truthy em && opt_truthy pw && negb (opt_truthy key)
    then (login ;; ret tt) w0
    else (Ok tt, w0).

Definition generate_api_key (name : string) (expires_in_days : Z) : M S value :=
  c <- get_self;
  if negb (truthy (jwt_token c)) then
    print_ [T "❌ JWT token required to generate API keys. Login first."];;
    ret VNone
  else
    let hs : gmap string string :=
      {[ "Content-Type" := "application/json";
         "Authorization" := "Bearer " +:+ py_str py_repr (jwt_token c) ]} in
    response <- requests_request transport "POST" (base_url c +:+ "/api/keys")
      (Some hs)
      (JsonBody (VDict {[ "name" := VStr name;
                          "expires_in_days" := VInt expires_in_days ]}));
    if status_code response =? 201 then
      data <- resp_json response;
      print_ [T "✅ API Key Generated!"];;
      k <- getitem data "api_key";
      print_ [T "   Key: "; V k];;
      n <- getitem data "name";
      print_ [T "   Name: "; V n];;
      x <- getitem data "expires_at";
      print_ [T "   Expires: "; V x];;
      print_ [T "
⚠️  SAVE THIS KEY NOW - YOU WON'T SEE IT AGAIN!"];;
      ret data
    else
      print_ [T "❌ Failed to generate API key: "; I (status_code response)];;
      print_ [T (text response)];;
      ret VNone.

Definition get_stats (slug : string) : M S value :=
  c <- get_self;
  response <- requests_request transport "GET" (base_url c +:+ "/api/stats/" +:+ slug)
    (Some (_get_headers c)) NoBody;
  if status_code response =? 200 then
    data <- resp_json response;
    print_ [T "✅ Stats for "; T slug; T ":"];;
    n <- getitem data "total_clicks";
    print_ [T "   Total clicks: "; V n];;
    x <- getitem data "created_at";
    print_ [T "   Created: "; V x];;
    ret data
  else
    print_ [T "❌ Error: "; I (status_code response)];;
    print_ [T (text response)];;
    ret VNone.

Definition delete_link (slug : string) : M S value :=
  c <- get_self;
  response <- requests_request transport "DELETE"
    (base_url c +:+ "/api/links/" +:+ slug) (Some (_get_headers c)) NoBody;
  if status_code response =? 200 then
    print_ [T "✅ Link deleted successfully!"];;
    resp_json response
  else
    print_ [T "❌ Error: "; I (status_code response)];;
    print_ [T (text response)];;
    ret VNone.

(** *** The other methods of the class

    The arguments that only go into the JSON body are objects; those that
    go into the URL are strings.  [export_analytics_csv] and
    [export_links_csv], which write a file, are not modelled. *)

(** [json.dumps(v, indent=2)] *)
Variable json_dumps : value -> string.

(** [s.capitalize()] *)
Variable py_capitalize : string -> string.

(** [sep.join(v)]; it raises when [v] is not an iterable of strings. *)
Variable py_join : string -> value -> outcome string.

Definition list_api_keys : M S value :=
  c <- get_self;
  response <- requests_request transport "GET" (base_url c +:+ "/api/keys")
    (Some (_get_headers c)) NoBody;
  if status_code response =? 200 then
    data <- resp_json response;
    t <- getitem data "total";
    print_ [T "✅ Found "; V t; T " API key(s):
"];;
    ks <- getitem data "keys";
    keys <- iter_items ks;
    for_each keys (fun key =>
      n <- getitem key "name";
      print_ [T "🔑 "; V n];;
      p <- getitem key "key_prefix";
      print_ [T "   Prefix: "; V p];;
      x <- getitem key "created_at";
      print_ [T "   Created: "; V x];;
      l <- get_default key "last_used_at" (VStr "Never");
      print_ [T "   Last used: "; V l];;
      print_ []);;
    ret data
  else
    print_ [T "❌ Error: "; I (status_code response)];;
    print_ [T (text response)];;
    ret VNone.

Definition shorten (u custom_slug : value) (kwargs : gmap string value) : M S value :=
  c <- get_self;
  let p0 : gmap string value := {[ "url" := u ]} in
  let p1 := if truthy custom_slug then <[ "custom_slug" := custom_slug ]> p0 else p0 in
  let p2 := kwargs ∪ p1 in
  response <- requests_request transport "POST" (base_url c +:+ "/api/shorten")
    (Some (_get_headers c)) (JsonBody (VDict p2));
  if status_code response =? 201 then
    data <- resp_json response;
    print_ [T "✅ Link created!"];;
    su <- getitem data "short_url";
    print_ [T "   Short URL: "; V su];;
    sl <- getitem data "slug";
    print_ [T "   Slug: "; V sl];;
    ret data
  else
    print_ [T "❌ Error: "; I (status_code response)];;
    print_ [T (text response)];;
    ret VNone.

Definition list_links (page limit : Z) (search : option string) : M S value :=
  c <- get_self;
  let params := "?page=" +:+ pretty page +:+ "&limit=" +:+ pretty limit in
  let params :=
    if opt_truthy search
    then params +:+ "&search=" +:+ default "" search
    else params in
  response <- requests_request transport "GET" (base_url c +:+ "/api/links" +:+ params)
    (Some (_get_headers c)) NoBody;
  if status_code response =? 200 then
    data <- resp_json response;
    t <- getitem data "total";
    tp <- getitem data "totalPages";
    print_ [T "✅ Found "; V t; T " total links (Page "; I page; T "/"; V tp; T "):
"];;
    ls <- getitem data "links";
    links <- iter_items ls;
    for_each links (fun link =>
      sl <- getitem link "slug";
      print_ [T "🔗 "; V sl];;
      d <- getitem link "destination";
      print_ [T "   Destination: "; V d];;
      n <- getitem link "click_count";
      print_ [T "   Clicks: "; V n];;
      x <- getitem link "created_at";
      print_ [T "   Created: "; V x];;
      print_ []);;
    ret data
  else
    print_ [T "❌ Error: "; I (status_code response)];;
    print_ [T (text response)];;
    ret VNone.

(** One of the two breakdowns [get_analytics] prints: [title] and the
    items of [data['breakdown'][kind]], when both keys are there. *)
Definition print_breakdown (data : value) (kind title : string) : M S unit :=
  has <- py_contains "breakdown" data;
  has_kind <- (if has : bool then
                 b <- getitem data "breakdown";
                 py_contains kind b
               else ret false);
  if has_kind : bool then
    print_ [T title];;
    b <- getitem data "breakdown";
    k <- getitem b kind;
    items <- items_of k;
    for_each items (fun kv => print_ [T "   "; T kv.1; T ": "; V kv.2])
  else ret tt.

Definition get_analytics (slug time_range : string) : M S value :=
  c <- get_self;
  response <- requests_request transport "GET"
    (base_url c +:+ "/api/analytics/" +:+ slug +:+ "?range=" +:+ time_range)
    (Some (_get_headers c)) NoBody;
  if status_code response =? 200 then
    data <- resp_json response;
    print_ [T "✅ Analytics for "; T slug; T " ("; T time_range; T "):"];;
    n <- get_default data "total_clicks" (VInt 0);
    print_ [T "   Total Clicks: "; V n];;
    u <- get_default data "unique_visitors" (VInt 0);
    print_ [T "   Unique Visitors: "; V u];;
    print_breakdown data "devices" "
📱 Device Breakdown:";;
    print_breakdown data "countries" "
🌍 Top Countries:";;
    ret data
  else
    print_ [T "❌ Error: "; I (status_code response)];;
    print_ [T (text response)];;
    ret VNone.

Definition update_link (slug : string) (destination : value) : M S value :=
  c <- get_self;
  response <- requests_request transport "PUT" (base_url c +:+ "/api/links/" +:+ slug)
    (Some (_get_headers c)) (JsonBody (VDict {[ "destination" := destination ]}));
  if status_code response =? 200 then
    print_ [T "✅ Link updated successfully!"];;
    resp_json response
  else
    print_ [T "❌ Error: "; I (status_code response)];;
    print_ [T (text response)];;
    ret VNone.

Definition set_device_routing (slug : string) (mobile desktop tablet : value)
    : M S value :=
  c <- get_self;
  let p0 : gmap string value := {[ "mobile" := mobile; "desktop" := desktop ]} in
  let p1 := if truthy tablet then <[ "tablet" := tablet ]> p0 else p0 in
  response <- requests_request transport "POST"
    (base_url c +:+ "/api/links/" +:+ slug +:+ "/routing/device")
    (Some (_get_headers c)) (JsonBody (VDict p1));
  if status_code response =? 200 then
    print_ [T "✅ Device routing configured!"];;
    resp_json response
  else
    print_ [T "❌ Error: "; I (status_code response)];;
    print_ [T (text response)];;
    ret VNone.

Definition set_geo_routing (slug : string) (routes : value) : M S value :=
  c <- get_self;
  response <- requests_request transport "POST"
    (base_url c +:+ "/api/links/" +:+ slug +:+ "/routing/geo")
    (Some (_get_headers c)) (JsonBody (VDict {[ "routes" := routes ]}));
  if status_code response =? 200 then
    print_ [T "✅ Geographic routing configured!"];;
    resp_json response
  else
    print_ [T "❌ Error: "; I (status_code response)];;
    print_ [T (text response)];;
    ret VNone.

Definition set_referrer_routing (slug : string) (routes : value) : M S value :=
  c <- get_self;
  response <- requests_request transport "POST"
    (base_url c +:+ "/api/links/" +:+ slug +:+ "/routing/referrer")
    (Some (_get_headers c)) (JsonBody (VDict {[ "routes" := routes ]}));
  if status_code response =? 200 then
    print_ [T "✅ Referrer routing configured!"];;
    resp_json response
  else
    print_ [T "❌ Error: "; I (status_code response)];;
    print_ [T (text response)];;
    ret VNone.

Definition set_time_routing (slug : string) (rules : value) : M S value :=
  c <- get_self;
  response <- requests_request transport "POST"
    (base_url c +:+ "/api/links/" +:+ slug +:+ "/routing/time")
    (Some (_get_headers c)) (JsonBody (VDict {[ "rules" := rules ]}));
  if status_code response =? 200 then
    print_ [T "✅ Time-based routing configured!"];;
    resp_json response
  else
    print_ [T "❌ Error: "; I (status_code response)];;
    print_ [T (text response)];;
    ret VNone.

Definition get_routing (slug : string) : M S value :=
  c <- get_self;
  response <- requests_request transport "GET"
    (base_url c +:+ "/api/links/" +:+ slug +:+ "/routing")
    (Some (_get_headers c)) NoBody;
  if status_code response =? 200 then
    print_ [T "✅ Routing configuration:"];;
    j <- resp_json response;
    print_ [T (json_dumps j)];;
    resp_json response
  else
    print_ [T "❌ Error: "; I (status_code response)];;
    print_ [T (text response)];;
    ret VNone.

Definition delete_routing (slug routing_type : string) : M S value :=
  c <- get_self;
  response <- requests_request transport "DELETE"
    (base_url c +:+ "/api/links/" +:+ slug +:+ "/routing/" +:+ routing_type)
    (Some (_get_headers c)) NoBody;
  if status_code response =? 200 then
    print_ [T "✅ "; T (py_capitalize routing_type); T " routing deleted!"];;
    resp_json response
  else
    print_ [T "❌ Error: "; I (status_code response)];;
    print_ [T (text response)];;
    ret VNone.

Definition create_ab_test (slug : string) (variant_a variant_b : value) (split : Z)
    : M S value :=
  c <- get_self;
  response <- requests_request transport "POST"
    (base_url c +:+ "/api/links/" +:+ slug +:+ "/ab-test")
    (Some (_get_headers c))
    (JsonBody (VDict {[ "variant_a" := variant_a; "variant_b" := variant_b;
                        "split" := VInt split ]}));
  if status_code response =? 200 then
    print_ [T "✅ A/B test created! Split: "; I split; T "% / "; I (100 - split); T "%"];;
    resp_json response
  else
    print_ [T "❌ Error: "; I (status_code response)];;
    print_ [T (text response)];;
    ret VNone.

Definition get_ab_results (slug : string) : M S value :=
  c <- get_self;
  response <- requests_request transport "GET"
    (base_url c +:+ "/api/links/" +:+ slug +:+ "/ab-test")
    (Some (_get_headers c)) NoBody;
  if status_code response =? 200 then
    data <- resp_json response;
    print_ [T "✅ A/B Test Results:"];;
    a <- get_default data "variant_a_clicks" (VInt 0);
    print_ [T "   Variant A: "; V a; T " clicks"];;
    b <- get_default data "variant_b_clicks" (VInt 0);
    print_ [T "   Variant B: "; V b; T " clicks"];;
    ret data
  else
    print_ [T "❌ Error: "; I (status_code response)];;
    print_ [T (text response)];;
    ret VNone.

Definition delete_ab_test (slug : string) : M S value :=
  c <- get_self;
  response <- requests_request transport "DELETE"
    (base_url c +:+ "/api/links/" +:+ slug +:+ "/ab-test")
    (Some (_get_headers c)) NoBody;
  if status_code response =? 200 then
    print_ [T "✅ A/B test deleted!"];;
    resp_json response
  else
    print_ [T "❌ Error: "; I (status_code response)];;
    print_ [T (text response)];;
    ret VNone.

Definition bulk_import (links_data : value) : M S value :=
  c <- get_self;
  response <- requests_request transport "POST" (base_url c +:+ "/api/import/links")
    (Some (_get_headers c)) (JsonBody (VDict {[ "links" := links_data ]}));
  if status_code response =? 200 then
    data <- resp_json response;
    print_ [T "✅ Bulk import completed!"];;
    i <- get_default data "imported" (VInt 0);
    print_ [T "   Imported: "; V i];;
    f <- get_default data "failed" (VInt 0);
    print_ [T "   Failed: "; V f];;
    ret data
  else
    print_ [T "❌ Error: "; I (status_code response)];;
    print_ [T (text response)];;
    ret VNone.

Definition create_webhook (u events name slug : value) : M S value :=
  c <- get_self;
  response <- requests_request transport "POST" (base_url c +:+ "/api/webhooks")
    (Some (_get_headers c))
    (JsonBody (VDict {[ "url" := u; "events" := events; "name" := name;
                        "slug" := slug ]}));
  if status_code response =? 201 then
    data <- resp_json response;
    print_ [T "✅ Webhook created!"];;
    i <- getitem data "webhook_id";
    print_ [T "   ID: "; V i];;
    s <- getitem data "secret";
    print_ [T "   Secret: "; V s];;
    ret data
  else
    print_ [T "❌ Error: "; I (status_code response)];;
    print_ [T (text response)];;
    ret VNone.

Definition list_webhooks : M S value :=
  c <- get_self;
  response <- requests_request transport "GET" (base_url c +:+ "/api/webhooks")
    (Some (_get_headers c)) NoBody;
  if status_code response =? 200 then
    data <- resp_json response;
    ws <- get_default data "webhooks" (VList []);
    check_len ws;;
    print_ [T "✅ Found "; Len ws; T " webhook(s)"];;
    ws' <- get_default data "webhooks" (VList []);
    whs <- iter_items ws';
    for_each whs (fun wh =>
      n <- getitem wh "name";
      print_ [T "   🪝 "; V n];;
      u <- getitem wh "url";
      print_ [T "      URL: "; V u];;
      ev <- getitem wh "events";
      joined <- lift_outcome (py_join ", " ev);
      print_ [T "      Events: "; T joined]);;
    ret data
  else
    print_ [T "❌ Error: "; I (status_code response)];;
    ret VNone.

Definition delete_webhook (webhook_id : string) : M S value :=
  c <- get_self;
  response <- requests_request transport "DELETE"
    (base_url c +:+ "/api/webhooks/" +:+ webhook_id)
    (Some (_get_headers c)) NoBody;
  if status_code response =? 200 then
    print_ [T "✅ Webhook deleted!"];;
    resp_json response
  else
    print_ [T "❌ Error: "; I (status_code response)];;
    ret VNone.

Definition get_usage : M S value :=
  c <- get_self;
  response <- requests_request transport "GET" (base_url c +:+ "/api/usage")
    (Some (_get_headers c)) NoBody;
  if status_code response =? 200 then
    data <- resp_json response;
    print_ [T "✅ Account Usage:"];;
    lu <- get_default data "links_used" (VInt 0);
    ll <- get_default data "links_limit" (VInt 0);
    print_ [T "   Links: "; V lu; T " / "; V ll];;
    cu <- get_default data "clicks_used" (VInt 0);
    cl <- get_default data "clicks_limit" (VInt 0);
    print_ [T "   Clicks this month: "; V cu; T " / "; V cl];;
    au <- get_default data "api_calls_used" (VInt 0);
    al <- get_default data "api_calls_limit" (VInt 0);
    print_ [T "   API calls today: "; V au; T " / "; V al];;
    ret data
  else
    print_ [T "❌ Error: "; I (status_code response)];;
    ret VNone.

(** *** The quick functions of the module *)

(** [int(time.time())], when a quick function reads the clock; the time
    [time.sleep] takes is not modelled. *)
Variable unix_time : Z.

(** [s[-n:]] *)
Definition last_chars (n : nat) (s : string) : string :=
  String.substring (String.length s - n) n s.

(** [f"{n:02d}"] for [n] from 0 on *)
Definition pad2 (n : Z) : string :=
  if n <? 10 then "0" +:+ pretty n else pretty n.

Definition short_id : string := last_chars 6 (pretty unix_time).

Definition quick_create_test_links (key : option string) (count : Z) : M S unit :=
  __init__ key None None;;
  print_ [T "Creating "; I count; T " test links..."];;
  for_each (seqZ 0 count) (fun i =>
    shorten (VStr ("https://example.com/test-" +:+ pretty i))
            (VStr ("quick" +:+ pretty i +:+ "-" +:+ short_id)) ∅;;
    ret tt).

(** The loop of [quick_test_limits], from [created] links on.  [fuel]
    bounds the turns; [60 - created] turns are enough, since every turn
    that goes on adds one to [created]. *)
Fixpoint limit_loop (fuel : nat) (created : Z) : M S Z :=
  if created <? 60 then
    match fuel with
    | O => ret created
    | Datatypes.S fuel' =>
        result <- shorten
          (VStr ("https://example.com/limit-test-" +:+ pretty created))
          (VStr ("lim" +:+ pad2 created +:+ "-" +:+ short_id)) ∅;
        if negb (truthy result) then
          print_ [T "
❌ Link limit reached at "; I created; T " links"];;
          ret created
        else
          print_ [T "✅ Created link "; I (created + 1)];;
          limit_loop fuel' (created + 1)
    end
  else ret created.

Definition quick_test_limits (key : option string) : M S unit :=
  __init__ key None None;;
  print_ [T "📊 Testing Limits..."];;
  print_ [T (String.concat "" (replicate 80 "-"))];;
  get_usage;;
  print_ [T "
🔗 Testing Link Creation Limit:"];;
  created <- limit_loop 60 0;
  print_ [T "
📊 Final count: "; I created; T " links created"].

End Methods.

(** The endpoint methods of the class that make one call, [login] and
    [signup] apart. *)
Inductive operation : Type :=
  | Generate_api_key (name : string) (expires_in_days : Z)
  | List_api_keys
  | Shorten (u custom_slug : value) (kwargs : gmap string value)
  | List_links (page limit : Z) (search : option string)
  | Get_stats (slug : string)
  | Get_analytics (slug time_range : string)
  | Update_link (slug : string) (destination : value)
  | Delete_link (slug : string)
  | Set_device_routing (slug : string) (mobile desktop tablet : value)
  | Set_geo_routing (slug : string) (routes : value)
  | Set_referrer_routing (slug : string) (routes : value)
  | Set_time_routing (slug : string) (rules : value)
  | Get_routing (slug : string)
  | Delete_routing (slug routing_type : string)
  | Create_ab_test (slug : string) (variant_a variant_b : value) (split : Z)
  | Get_ab_results (slug : string)
  | Delete_ab_test (slug : string)
  | Bulk_import (links_data : value)
  | Create_webhook (u events name slug : value)
  | List_webhooks
  | Delete_webhook (webhook_id : string)
  | Get_usage.

Definition expected_status (op : operation) : Z :=
  match op with
  | Generate_api_key _ _ | Shorten _ _ _ | Create_webhook _ _ _ _ => 201
  | _ => 200
  end.


Section Dispatch.
Context {S : Type}.
Variable transport : S -> Request -> answer * S.
Variable py_repr : value -> string.
Variable json_dumps : value -> string.
Variable py_capitalize : string -> string.
Variable py_join : string -> value -> outcome string.

Definition run (op : operation) : M S value :=
  match op with
  | Generate_api_key name d => generate_api_key transport py_repr name d
  | List_api_keys => list_api_keys transport py_repr
  | Shorten u custom_slug kwargs => shorten transport py_repr u custom_slug kwargs
  | List_links page limit search => list_links transport py_repr page limit search
  | Get_stats slug => get_stats transport py_repr slug
  | Get_analytics slug time_range => get_analytics transport py_repr slug time_range
  | Update_link slug destination => update_link transport py_repr slug destination
  | Delete_link slug => delete_link transport py_repr slug
  | Set_device_routing slug mobile desktop tablet =>
      set_device_routing transport py_repr slug mobile desktop tablet
  | Set_geo_routing slug routes => set_geo_routing transport py_repr slug routes
  | Set_referrer_routing slug routes => set_referrer_routing transport py_repr slug routes
  | Set_time_routing slug rules => set_time_routing transport py_repr slug rules
  | Get_routing slug => get_routing transport py_repr json_dumps slug
  | Delete_routing slug routing_type =>
      delete_routing transport py_repr py_capitalize slug routing_type
  | Create_ab_test slug variant_a variant_b split =>
      create_ab_test transport py_repr slug variant_a variant_b split
  | Get_ab_results slug => get_ab_results transport py_repr slug
  | Delete_ab_test slug => delete_ab_test transport py_repr slug
  | Bulk_import links_data => bulk_import transport py_repr links_data
  | Create_webhook u events name slug => create_webhook transport py_repr u events name slug
  | List_webhooks => list_webhooks transport py_repr py_join
  | Delete_webhook webhook_id => delete_webhook transport py_repr webhook_id
  | Get_usage => get_usage transport py_repr
  end.

End Dispatch.
End FullFeatures.

(** ** [examples/python_api_client.py]

    The same client as [FullFeatures], except that a failed call prints
    [response.json()]. *)
Module Example.

Definition BASE_URL : string := "https://edgelink-production.quoteviral.workers.dev".

Section Methods.
Context {S : Type}.
Variable transport : S -> Request -> answer * S.
Variable py_repr : value -> string.

Definition _get_headers (c : Client) : gmap string string :=
  let token := py_or (of_opt (api_key c)) (jwt_token c) in
  if negb (truthy token)
  then {[ "Content-Type" := "application/json" ]}
  else {[ "Content-Type" := "application/json";
          "Authorization" := "Bearer " +:+ py_str py_repr token ]}.

Definition login : M S value :=
  c <- get_self;
  response <- requests_request transport "POST" (base_url c +:+ "/auth/login") None
    (JsonBody (VDict {[ "email" := of_opt (email c);
                        "password" := of_opt (password c) ]}));
  if status_code response =? 200 then
    data <- resp_json response;
    tok <- getitem data "token";
    set_jwt_token tok;;
    u1 <- getitem data "user";
    e <- getitem u1 "email";
    print_ [T "✅ Logged in as "; V e];;
    u2 <- getitem data "user";
    p <- getitem u2 "plan";
    print_ [T "   Plan: "; V p];;
    ret data
  else
    print_ [T "❌ Login failed: "; I (status_code response)];;
    j <- resp_json response;
    print_ [V j];;
    ret VNone.

Definition signup (em pw plan : string) : M S value :=
  c <- get_self;
  response <- requests_request transport "POST" (base_url c +:+ "/auth/signup") None
    (JsonBody (VDict {[ "email" := VStr em; "password" := VStr pw;
                        "plan" := VStr plan ]}));
  if status_code response =? 201 then
    data <- resp_json response;
    tok <- getitem data "token";
    set_jwt_token tok;;
    set_email (Some em);;
    u <- getitem data "user";
    i <- getitem u "user_id";
    print_ [T "✅ Account created! User ID: "; V i];;
    ret data
  else
    print_ [T "❌ Signup failed: "; I (status_code response)];;
    j <- resp_json response;
    print_ [V j];;
    ret VNone.

Definition new_client (key em pw : option string) : Client :=
  {| base_url := BASE_URL; api_key := key; jwt_token := VNone;
     email := em; password := pw |}.

Definition __init__ (key em pw : option string) : M S unit :=
  fun w =>
    let w0 := mkWorld (new_client key em pw) (net w) (calls w) (stdout w) in
    if opt_truthy em && opt_truthy pw && negb (opt_truthy key)
    then (login ;; ret tt) w0
    else (Ok tt, w0).

Definition generate_api_key (name : string) (expires_in_days : Z) : M S value :=
  c <- get_self;
  if negb (truthy (jwt_token c)) then
    print_ [T "❌ JWT token required to generate API keys. Login first."];;
    ret VNone
  else
    let hs : gmap string string :=
      {[ "Content-Type" := "application/json";
         "Authorization" := "Bearer " +:+ py_str py_repr (jwt_token c) ]} in
    response <- requests_request transport "POST" (base_url c +:+ "/api/keys")
      (Some hs)
      (JsonBody (VDict {[ "name" := VStr name;
                          "expires_in_days" := VInt expires_in_days ]}));
    if status_code response =? 201 then
      data <- resp_json response;
      print_ [T "✅ API Key Generated!"];;
      k <- getitem data "api_key";
      print_ [T "   Key: "; V k];;
      n <- getitem data "name";
      print_ [T "   Name: "; V n];;
      x <- getitem data "expires_at";
      print_ [T "   Expires: "; V x];;
      print_ [T "
⚠️  SAVE THIS KEY NOW - YOU WON'T SEE IT AGAIN!"];;
      ret data
    else
      print_ [T "❌ Failed to generate API key: "; I (status_code response)];;
      j <- resp_json response;
      print_ [V j];;
      ret VNone.

Definition get_stats (slug : string) : M S value :=
  c <- get_self;
  response <- requests_request transport "GET" (base_url c +:+ "/api/stats/" +:+ slug)
    (Some (_get_headers c)) NoBody;
  if status_code response =? 200 then
    data <- resp_json response;
    print_ [T "✅ Stats for "; T slug; T ":"];;
    n <- getitem data "total_clicks";
    print_ [T "   Total clicks: "; V n];;
    x <- getitem data "created_at";
    print_ [T "   Created: "; V x];;
    ret data
  else
    print_ [T "❌ Error: "; I (status_code response)];;
    j <- resp_json response;
    print_ [V j];;
    ret VNone.

Definition delete_link (slug : string) : M S value :=
  c <- get_self;
  response <- requests_request transport "DELETE"
    (base_url c +:+ "/api/links/" +:+ slug) (Some (_get_headers c)) NoBody;
  if status_code response =? 200 then
    print_ [T "✅ Link deleted successfully!"];;
    resp_json response
  else
    print_ [T "❌ Error: "; I (status_code response)];;
    j <- resp_json response;
    print_ [V j];;
    ret VNone.

(** *** The other methods of the class *)

(** [json.dumps(v, indent=2)] *)
Variable json_dumps : value -> string.

Definition list_api_keys : M S value :=
  c <- get_self;
  response <- requests_request transport "GET" (base_url c +:+ "/api/keys")
    (Some (_get_headers c)) NoBody;
  if status_code response =? 200 then
    data <- resp_json response;
    t <- getitem data "total";
    print_ [T "✅ Found "; V t; T " API key(s):
"];;
    ks <- getitem data "keys";
    keys <- iter_items ks;
    for_each keys (fun key =>
      n <- getitem key "name";
      print_ [T "🔑 "; V n];;
      p <- getitem key "key_prefix";
      print_ [T "   Prefix: "; V p];;
      x <- getitem key "created_at";
      print_ [T "   Created: "; V x];;
      l <- get_default key "last_used_at" (VStr "Never");
      print_ [T "   Last used: "; V l];;
      print_ []);;
    ret data
  else
    print_ [T "❌ Error: "; I (status_code response)];;
    j <- resp_json response;
    print_ [V j];;
    ret VNone.

Definition shorten (u custom_slug : value) (kwargs : gmap string value) : M S value :=
  c <- get_self;
  let p0 : gmap string value := {[ "url" := u ]} in
  let p1 := if truthy custom_slug then <[ "custom_slug" := custom_slug ]> p0 else p0 in
  let p2 := kwargs ∪ p1 in
  response <- requests_request transport "POST" (base_url c +:+ "/api/shorten")
    (Some (_get_headers c)) (JsonBody (VDict p2));
  if status_code response =? 201 then
    data <- resp_json response;
    print_ [T "✅ Link created!"];;
    su <- getitem data "short_url";
    print_ [T "   Short URL: "; V su];;
    sl <- getitem data "slug";
    print_ [T "   Slug: "; V sl];;
    ret data
  else
    print_ [T "❌ Error: "; I (status_code response)];;
    j <- resp_json response;
    print_ [V j];;
    ret VNone.

Definition list_links (page limit : Z) (search : option string) : M S value :=
  c <- get_self;
  let params := "?page=" +:+ pretty page +:+ "&limit=" +:+ pretty limit in
  let params :=
    if opt_truthy search
    then params +:+ "&search=" +:+ default "" search
    else params in
  response <- requests_request transport "GET" (base_url c +:+ "/api/links" +:+ params)
    (Some (_get_headers c)) NoBody;
  if status_code response =? 200 then
    data <- resp_json response;
    t <- getitem data "total";
    tp <- getitem data "totalPages";
    print_ [T "✅ Found "; V t; T " total links (Page "; I page; T "/"; V tp; T "):
"];;
    ls <- getitem data "links";
    links <- iter_items ls;
    for_each links (fun link =>
      sl <- getitem link "slug";
      print_ [T "🔗 "; V sl];;
      d <- getitem link "destination";
      print_ [T "   Destination: "; V d];;
      n <- getitem link "click_count";
      print_ [T "   Clicks: "; V n];;
      x <- getitem link "created_at";
      print_ [T "   Created: "; V x];;
      print_ []);;
    ret data
  else
    print_ [T "❌ Error: "; I (status_code response)];;
    j <- resp_json response;
    print_ [V j];;
    ret VNone.

(** One of the two breakdowns [get_analytics] prints: [title] and the
    items of [data['breakdown'][kind]], when both keys are there. *)
Definition print_breakdown (data : value) (kind title : string) : M S unit :=
  has <- py_contains "breakdown" data;
  has_kind <- (if has : bool then
                 b <- getitem data "breakdown";
                 py_contains kind b
               else ret false);
  if has_kind : bool then
    print_ [T title];;
    b <- getitem data "breakdown";
    k <- getitem b kind;
    items <- items_of k;
    for_each items (fun kv => print_ [T "   "; T kv.1; T ": "; V kv.2])
  else ret tt.

Definition get_analytics (slug time_range : string) : M S value :=
  c <- get_self;
  response <- requests_request transport "GET"
    (base_url c +:+ "/api/analytics/" +:+ slug +:+ "?range=" +:+ time_range)
    (Some (_get_headers c)) NoBody;
  if status_code response =? 200 then
    data <- resp_json response;
    print_ [T "✅ Analytics for "; T slug; T " ("; T time_range; T "):"];;
    n <- get_default data "total_clicks" (VInt 0);
    print_ [T "   Total Clicks: "; V n];;
    u <- get_default data "unique_visitors" (VInt 0);
    print_ [T "   Unique Visitors: "; V u];;
    print_breakdown data "devices" "
📱 Device Breakdown:";;
    print_breakdown data "countries" "
🌍 Top Countries:";;
    ret data
  else
    print_ [T "❌ Error: "; I (status_code response)];;
    j <- resp_json response;
    print_ [V j];;
    ret VNone.

Definition update_link (slug : string) (destination : value) : M S value :=
  c <- get_self;
  response <- requests_request transport "PUT" (base_url c +:+ "/api/links/" +:+ slug)
    (Some (_get_headers c)) (JsonBody (VDict {[ "destination" := destination ]}));
  if status_code response =? 200 then
    print_ [T "✅ Link updated successfully!"];;
    resp_json response
  else
    print_ [T "❌ Error: "; I (status_code response)];;
    j <- resp_json response;
    print_ [V j];;
    ret VNone.

Definition set_device_routing (slug : string) (mobile desktop tablet : value)
    : M S value :=
  c <- get_self;
  let p0 : gmap string value := {[ "mobile" := mobile; "desktop" := desktop ]} in
  let p1 := if truthy tablet then <[ "tablet" := tablet ]> p0 else p0 in
  response <- requests_request transport "POST"
    (base_url c +:+ "/api/links/" +:+ slug +:+ "/routing/device")
    (Some (_get_headers c)) (JsonBody (VDict p1));
  if status_code response =? 200 then
    print_ [T "✅ Device routing configured!"];;
    resp_json response
  else
    print_ [T "❌ Error: "; I (status_code response)];;
    j <- resp_json response;
    print_ [V j];;
    ret VNone.

Definition set_geo_routing (slug : string) (routes : value) : M S value :=
  c <- get_self;
  response <- requests_request transport "POST"
    (base_url c +:+ "/api/links/" +:+ slug +:+ "/routing/geo")
    (Some (_get_headers c)) (JsonBody (VDict {[ "routes" := routes ]}));
  if status_code response =? 200 then
    print_ [T "✅ Geographic routing configured!"];;
    resp_json response
  else
    print_ [T "❌ Error: "; I (status_code response)];;
    j <- resp_json response;
    print_ [V j];;
    ret VNone.

Definition set_referrer_routing (slug : string) (routes : value) : M S value :=
  c <- get_self;
  response <- requests_request transport "POST"
    (base_url c +:+ "/api/links/" +:+ slug +:+ "/routing/referrer")
    (Some (_get_headers c)) (JsonBody (VDict {[ "routes" := routes ]}));
  if status_code response =? 200 then
    print_ [T "✅ Referrer routing configured!"];;
    resp_json response
  else
    print_ [T "❌ Error: "; I (status_code response)];;
    j <- resp_json response;
    print_ [V j];;
    ret VNone.

Definition get_routing (slug : string) : M S value :=
  c <- get_self;
  response <- requests_request transport "GET"
    (base_url c +:+ "/api/links/" +:+ slug +:+ "/routing")
    (Some (_get_headers c)) NoBody;
  if status_code response =? 200 then
    print_ [T "✅ Routing configuration:"];;
    j <- resp_json response;
    print_ [T (json_dumps j)];;
    resp_json response
  else
    print_ [T "❌ Error: "; I (status_code response)];;
    j <- resp_json response;
    print_ [V j];;
    ret VNone.

(** *** The script at the end of the file *)

Definition rule (c : string) (n : nat) : string := String.concat "" (replicate n c).

Definition main : M S unit :=
  print_ [T (rule "=" 70)];;
  print_ [T "EdgeLink API Client - Python Example"];;
  print_ [T (rule "=" 70)];;
  print_ [];;
  print_ [T "
📌 Example 1: Authentication with API Key"];;
  print_ [T (rule "-" 70)];;
  __init__ (Some "elk_98z7n3wCDv36mmyvuTpmqxRXaERJHulr") None None;;
  print_ [T "
Testing API key authentication..."];;
  list_links 1 5 None;;
  print_ [T ("
" +:+ rule "=" 70)];;
  print_ [T "
📌 Example 2: Authentication with Email/Password"];;
  print_ [T (rule "-" 70)];;
  print_ [T ("
" +:+ rule "=" 70)];;
  print_ [T "
📌 Example 3: Common Operations"];;
  print_ [T (rule "-" 70)];;
  print_ [T "
1. Creating a short link..."];;
  link <- shorten (VStr "https://example.com/very-long-url") (VStr "my-link") ∅;
  (if truthy link then
     sl <- getitem link "slug";
     print_ [T "
2. Getting stats for "; V sl; T "..."];;
     sl' <- getitem link "slug";
     get_stats (py_str py_repr sl');;
     ret tt
   else ret tt);;
  print_ [T "
3. Listing all links..."];;
  list_links 1 10 None;;
  print_ [T ("
" +:+ rule "=" 70)];;
  print_ [T "✅ Examples completed!"].

End Methods.

(** The endpoint methods of the class, [login] and [signup] apart. *)
Inductive operation : Type :=
  | Generate_api_key (name : string) (expires_in_days : Z)
  | List_api_keys
  | Shorten (u custom_slug : value) (kwargs : gmap string value)
  | List_links (page limit : Z) (search : option string)
  | Get_stats (slug : string)
  | Get_analytics (slug time_range : string)
  | Update_link (slug : string) (destination : value)
  | Delete_link (slug : string)
  | Set_device_routing (slug : string) (mobile desktop tablet : value)
  | Set_geo_routing (slug : string) (routes : value)
  | Set_referrer_routing (slug : string) (routes : value)
  | Get_routing (slug : string).

Definition expected_status (op : operation) : Z :=
  match op with
  | Generate_api_key _ _ | Shorten _ _ _ => 201
  | _ => 200
  end.

(** The method of [edgelink_full_features_client.py] with the same name. *)
Definition twin (op : operation) : FullFeatures.operation :=
  match op with
  | Generate_api_key name d => FullFeatures.Generate_api_key name d
  | List_api_keys => FullFeatures.List_api_keys
  | Shorten u custom_slug kwargs => FullFeatures.Shorten u custom_slug kwargs
  | List_links page limit search => FullFeatures.List_links page limit search
  | Get_stats slug => FullFeatures.Get_stats slug
  | Get_analytics slug time_range => FullFeatures.Get_analytics slug time_range
  | Update_link slug destination => FullFeatures.Update_link slug destination
  | Delete_link slug => FullFeatures.Delete_link slug
  | Set_device_routing slug mobile desktop tablet =>
      FullFeatures.Set_device_routing slug mobile desktop tablet
  | Set_geo_routing slug routes => FullFeatures.Set_geo_routing slug routes
  | Set_referrer_routing slug routes => FullFeatures.Set_referrer_routing slug routes
  | Get_routing slug => FullFeatures.Get_routing slug
  end.

Section Dispatch.
Context {S : Type}.
Variable transport : S -> Request -> answer * S.
Variable py_repr : value -> string.
Variable json_dumps : value -> string.

Definition run (op : operation) : M S value :=
  match op with
  | Generate_api_key name d => generate_api_key transport py_repr name d
  | List_api_keys => list_api_keys transport py_repr
  | Shorten u custom_slug kwargs => shorten transport py_repr u custom_slug kwargs
  | List_links page limit search => list_links transport py_repr page limit search
  | Get_stats slug => get_stats transport py_repr slug
  | Get_analytics slug time_range => get_analytics transport py_repr slug time_range
  | Update_link slug destination => update_link transport py_repr slug destination
  | Delete_link slug => delete_link transport py_repr slug
  | Set_device_routing slug mobile desktop tablet =>
      set_device_routing transport py_repr slug mobile desktop tablet
  | Set_geo_routing slug routes => set_geo_routing transport py_repr slug routes
  | Set_referrer_routing slug routes => set_referrer_routing transport py_repr slug routes
  | Get_routing slug => get_routing transport py_repr json_dumps slug
  end.

End Dispatch.
End Example.

(** * Contract *)

(** ** Vocabulary of the specification *)

(** A credential field is set when Python takes it as true, which is the
    test [__init__], [_get_headers] and [generate_api_key] apply to it:
    neither [None] nor the empty string. *)
Definition is_set (v : value) : Prop := truthy v = true.

(** The specification's [resolve_token]: the API key if set, else the
    session token if set, else absent. *)
Definition resolve_token (c : Client) : option value :=
  if truthy (of_opt (api_key c)) then Some (of_opt (api_key c))
  else if truthy (jwt_token c) then Some (jwt_token c)
  else None.

(** What the specification asks of the mapping [h] built for client [c]. *)
Definition headers_contract (fmt : value -> string) (c : Client)
    (h : gmap string string) : Prop :=
  h !! "Content-Type" = Some "application/json" ∧
  (is_Some (h !! "Authorization") ↔ is_set (of_opt (api_key c)) ∨ is_set (jwt_token c)) ∧
  (∀ k, api_key c = Some k → is_set (VStr k) →
        h !! "Authorization" = Some ("Bearer " +:+ k)) ∧
  (¬ is_set (of_opt (api_key c)) → is_set (jwt_token c) →
        h !! "Authorization" = Some ("Bearer " +:+ fmt (jwt_token c))) ∧
  h !! "Authorization" = (fun t => "Bearer " +:+ fmt t) <$> resolve_token c ∧
  (∀ k, k ≠ "Content-Type" → k ≠ "Authorization" → h !! k = None).

(** A method touches the console only when it leaves the client, the
    service and the list of calls as they were. *)
Definition console_only {S A} (m : M S A) : Prop :=
  ∀ w, self (m w).2 = self w ∧ net (m w).2 = net w ∧ calls (m w).2 = calls w.

(** A method is offline when it leaves the service and the list of calls
    as they were. *)
Definition offline {S A} (m : M S A) : Prop :=
  ∀ w, net (m w).2 = net w ∧ calls (m w).2 = calls w.

(** A method keeps the part [f] of the client when [f self] is the same
    after it as before, whatever it returns or raises. *)
Definition keeps {S A X} (f : Client -> X) (m : M S A) : Prop :=
  ∀ w, f (self (m w).2) = f (self w).


(** The world once the transport has taken [req]. *)
Definition deliver {S} (transport : S -> Request -> answer * S)
    (w : World S) (req : Request) : World S :=
  mkWorld (self w) (transport (net w) req).2
          (calls w ++ [(req, (transport (net w) req).1)]) (stdout w).





(** The gate of [generate_api_key]: without a session token nothing is
    sent; with one, the request carries it as the bearer token. *)
Definition session_token_gate {S} (fmt : value -> string) (w : World S)
    (r : outcome value * World S) : Prop :=
  (¬ is_set (jwt_token (self w)) →
     r.1 = Ok VNone ∧ calls r.2 = calls w ∧ net r.2 = net w ∧ self r.2 = self w) ∧
  (is_set (jwt_token (self w)) →
     ∃ req a h, calls r.2 = calls w ++ [(req, a)] ∧
                method req = "POST" ∧
                url req = base_url (self w) +:+ "/api/keys" ∧
                headers req = Some h ∧
                h !! "Authorization" = Some ("Bearer " +:+ fmt (jwt_token (self w)))).

(** A request that carries no [Authorization] header. *)
Definition no_authorization (req : Request) : Prop :=
  ∀ h, headers req = Some h → h !! "Authorization" = None.

(** What [login] and [signup] do, as the code has it.  The method sends
    one [POST] to [path] with the JSON body [b] and no [Authorization]
    header.  When the response has the [expected] status and its body is a
    JSON object with a [token] and a [user] object holding [user_keys], the
    token is stored in [jwt_token] (and [new_email] in [email]) and the
    parsed body is returned.  With any other status the client is
    unchanged, the status is printed after [fail_msg] and then the body,
    and [None] is returned; a client that prints [response.json()] there
    ([json_on_failure]) raises when the body is not JSON. *)
Definition auth_contract {S} (transport : S -> Request -> answer * S)
    (path : string) (b : body) (expected : Z) (user_keys : list string)
    (new_email : option string) (fail_msg : string) (json_on_failure : bool)
    (w : World S) (r : outcome value * World S) : Prop :=
  ∃ req, calls r.2 = calls w ++ [(req, (transport (net w) req).1)] ∧
         net r.2 = (transport (net w) req).2 ∧
         method req = "POST" ∧
         url req = base_url (self w) +:+ path ∧
         payload req = b ∧
         no_authorization req ∧
         match (transport (net w) req).1 with
         | inr e =>
             r.1 = Raise (RequestException e) ∧ self r.2 = self w ∧ stdout r.2 = stdout w
         | inl resp =>
             (status_code resp = expected →
              ∀ d tok u,
                json resp = Some (VDict d) →
                d !! "token" = Some tok →
                d !! "user" = Some (VDict u) →
                Forall (fun k => is_Some (u !! k)) user_keys →
                r.1 = Ok (VDict d) ∧
                self r.2 = with_email (with_jwt_token (self w) tok) new_email) ∧
             (status_code resp ≠ expected →
              self r.2 = self w ∧
              if json_on_failure then
                match json resp with
                | Some j =>
                    r.1 = Ok VNone ∧
                    stdout r.2 = stdout w ++ [[T fail_msg; I (status_code resp)]; [V j]]
                | None =>
                    r.1 = Raise JSONDecodeError ∧
                    stdout r.2 = stdout w ++ [[T fail_msg; I (status_code resp)]]
                end
              else
                r.1 = Ok VNone ∧
                stdout r.2 = stdout w ++ [[T fail_msg; I (status_code resp)];
                                          [T (text resp)]])
         end.

Definition login_body (em pw : option string) : body :=
  JsonBody (VDict {[ "email" := of_opt em; "password" := of_opt pw ]}).

Definition signup_body (em pw plan : string) : body :=
  JsonBody (VDict {[ "email" := VStr em; "password" := VStr pw; "plan" := VStr plan ]}).

(** One call of [delete_link] on [slug].  The client of
    [edgelink_api_client.py] ([bools]) answers [True] or [False] and never
    reads the body; the client of [examples/python_api_client.py] returns
    or prints [response.json()], which raises when the body is not JSON. *)
Definition delete_attempt {S} (transport : S -> Request -> answer * S)
    (slug : string) (bools : bool) (w : World S) (r : outcome value * World S) : Prop :=
  ∃ req, calls r.2 = calls w ++ [(req, (transport (net w) req).1)] ∧
         net r.2 = (transport (net w) req).2 ∧
         self r.2 = self w ∧
         method req = "DELETE" ∧
         url req = base_url (self w) +:+ "/api/links/" +:+ slug ∧
         match (transport (net w) req).1 with
         | inr e => r.1 = Raise (RequestException e)
         | inl resp =>
             if status_code resp =? 200 then
               if bools then r.1 = Ok (VBool true)
               else match json resp with
                    | Some j => r.1 = Ok j
                    | None => r.1 = Raise JSONDecodeError
                    end
             else
               if bools then
                 r.1 = Ok (VBool false) ∧
                 stdout r.2 = stdout w ++ [[T "❌ Error: "; I (status_code resp)]]
               else match json resp with
                    | Some j =>
                        r.1 = Ok VNone ∧
                        stdout r.2 = stdout w ++ [[T "❌ Error: "; I (status_code resp)];
                                                  [V j]]
                    | None => r.1 = Raise JSONDecodeError
                    end
         end.




(** Whether the call answered by [a] created a link. *)
Definition succeeded (a : answer) : bool :=
  match a with
  | inl resp => status_code resp =? 201
  | inr _ => false
  end.


Definition count_calls (p : answer -> bool) (xs : list (Request * answer)) : Z :=
  Z.of_nat (length (filter (fun x => p x.2 = true) xs)).


(** ** Sample services and clients, for the examples *)

(** A service that gives every request the same answer. *)
Definition always (a : answer) : unit -> Request -> answer * unit :=
  fun s _ => (a, s).

(** A service that plays a script, one answer per request, and is
    unreachable once the script is over. *)
Definition scripted (s : list answer) (_ : Request) : answer * list answer :=
  match s with
  | a :: s' => (a, s')
  | [] => (inr "ConnectionError", [])
  end.

Definition sample_repr (v : value) : string := "<object>".

Definition world0 {S} (c : Client) (s : S) : World S := mkWorld c s [] [].

Definition anonymous : Client :=
  ApiClient.new_client None None None.

Definition with_key : Client :=
  ApiClient.new_client (Some "elk_4qnSlEEu8B4fLtEXtCpgpHrssvt2jVhb") None None.

Definition logged_in : Client :=
  with_jwt_token (ApiClient.new_client None (Some "ann@example.com") (Some "hunter2"))
                 (VStr "jwt-1").


Definition server_error : Response :=
  mkResponse 500 "[]" (Some (VList [])).

Definition bad_gateway : Response :=
  mkResponse 502 "<html>502 Bad Gateway</html>" None.

Definition unauthorized : Response :=
  mkResponse 401 "null" (Some VNone).

(** The double quote, to write JSON text. *)
Definition dq : string := String "034"%char "".

Definition quoted (s : string) : string := dq +:+ s +:+ dq.

Definition forbidden : Response :=
  mkResponse 403 "[]" (Some (VList [])).

Definition not_found_page : Response :=
  mkResponse 404 "Not Found" None.

(** A [200] or [201] whose body has a token and no user. *)
Definition token_only (status : Z) : Response :=
  mkResponse status ("{" +:+ quoted "token" +:+ ": " +:+ quoted "jwt-2" +:+ "}")
             (Some (VDict {[ "token" := VStr "jwt-2" ]})).

(** The body the service documents for a login or a signup. *)
Definition session_body : gmap string value :=
  {[ "token" := VStr "jwt-2";
     "user" := VDict {[ "email" := VStr "ann@example.com"; "plan" := VStr "free";
                        "user_id" := VStr "usr_1" ]} ]}.

Definition session_granted (status : Z) : Response :=
  mkResponse status
    ("{" +:+ quoted "token" +:+ ": " +:+ quoted "jwt-2" +:+ ", " +:+ quoted "user"
       +:+ ": {" +:+ quoted "email" +:+ ": " +:+ quoted "ann@example.com" +:+ ", "
       +:+ quoted "plan" +:+ ": " +:+ quoted "free" +:+ ", "
       +:+ quoted "user_id" +:+ ": " +:+ quoted "usr_1" +:+ "}}")
    (Some (VDict session_body)).

Definition deleted : Response :=
  mkResponse 200 ("{" +:+ quoted "message" +:+ ": " +:+ quoted "Link deleted" +:+ "}")
             (Some (VDict {[ "message" := VStr "Link deleted" ]})).

Definition created : Response :=
  mkResponse 201
    ("{" +:+ quoted "slug" +:+ ": " +:+ quoted "abc123" +:+ ", " +:+ quoted "short_url"
       +:+ ": " +:+ quoted "https://go.shortedbro.xyz/abc123" +:+ "}")
    (Some (VDict {[ "slug" := VStr "abc123";
                    "short_url" := VStr "https://go.shortedbro.xyz/abc123" ]})).


(** A service that creates every other link and answers 500 in between. *)
Definition flaky (up : bool) (_ : Request) : answer * bool :=
  (if up then inl created else inl server_error, negb up).

Definition three_links : list (gmap string value) :=
  [ {[ "url" := VStr "https://example.com/page1" ]};
    {[ "url" := VStr "https://example.com/page2"; "custom_slug" := VStr "custom-1" ]};
    {[ "url" := VStr "https://example.com/page3" ]} ].

(** ** Vocabulary for the rest of the code *)

(** The run [r] made one call, the request [req]. *)
Definition sent_one {S A} (transport : S -> Request -> answer * S)
    (w : World S) (r : outcome A * World S) (req : Request) : Prop :=
  calls r.2 = calls w ++ [(req, (transport (net w) req).1)] ∧
  net r.2 = (transport (net w) req).2.

(** The run [r] made one call, which sends the headers that
    [_get_headers] resolves for the client to a URL under its base URL. *)
Definition sent_with_headers {S A} (transport : S -> Request -> answer * S)
    (hdr : Client -> gmap string string)
    (w : World S) (r : outcome A * World S) : Prop :=
  ∃ req path, sent_one transport w r req ∧
              url req = base_url (self w) +:+ path ∧
              headers req = Some (hdr (self w)) ∧
              self r.2 = self w.

(** The methods of [ApiClient] that leave the headers to [_request];
    [generate_api_key] passes its own. *)
Definition uses_client_headers (op : ApiClient.operation) : bool :=
  match op with
  | ApiClient.Generate_api_key _ _ => false
  | _ => true
  end.


(** The run [r] made one call, which the service answered with [resp]. *)
Definition answered {S A} (w : World S) (r : outcome A * World S)
    (resp : Response) : Prop :=
  ∃ req, calls r.2 = calls w ++ [(req, inl resp)].

(** How the success branch of a method uses the body of the response. *)
Inductive reading : Type :=
  | Ignores
  | Parses
  | Gets
  | Subscripts (k : string).

(** What the success branch of each method of [ApiClient] does with the
    body: it never parses it, or returns [response.json()] as it is, or
    parses it and calls [.get] on it, or parses it and reads [data[k]]
    first. *)
Definition reading_of (op : ApiClient.operation) : reading :=
  match op with
  | ApiClient.Revoke_api_key _ | ApiClient.Delete_link _
  | ApiClient.Delete_routing _ _ | ApiClient.Delete_domain _
  | ApiClient.Delete_webhook _ => Ignores
  | ApiClient.Get_link _ | ApiClient.Update_link _ _ _
  | ApiClient.Move_link_to_group _ _ | ApiClient.Update_group _ _ _ _
  | ApiClient.Get_routing _ | ApiClient.Set_device_routing _ _ _ _
  | ApiClient.Set_geo_routing _ _ | ApiClient.Set_referrer_routing _ _
  | ApiClient.Verify_domain _ => Parses
  | ApiClient.Export_analytics _ format _ =>
      if String.eqb format "json" then Parses else Ignores
  | ApiClient.Export_links format =>
      if String.eqb format "json" then Subscripts "total_links" else Ignores
  | ApiClient.Get_analytics _ _ => Gets
  | ApiClient.Get_profile => Subscripts "email"
  | ApiClient.Generate_api_key _ _ => Subscripts "api_key"
  | ApiClient.List_api_keys | ApiClient.List_links _ _ _ => Subscripts "total"
  | ApiClient.Get_group _ _ _ => Subscripts "group"
  | ApiClient.Shorten _ _ _ _ => Subscripts "short_url"
  | ApiClient.Bulk_move_to_group _ _ => Subscripts "moved"
  | ApiClient.List_groups => Subscripts "groups"
  | ApiClient.Create_group _ _ _ => Subscripts "group"
  | ApiClient.Delete_group _ => Subscripts "links_moved"
  | ApiClient.Add_links_to_group _ _ => Subscripts "added"
  | ApiClient.Remove_links_from_group _ _ => Subscripts "removed"
  | ApiClient.Get_stats _ | ApiClient.Get_group_analytics _ _
  | ApiClient.Get_overall_analytics _ => Subscripts "total_clicks"
  | ApiClient.List_domains => Subscripts "domains"
  | ApiClient.Add_domain _ => Subscripts "verification"
  | ApiClient.List_webhooks => Subscripts "webhooks"
  | ApiClient.Create_webhook _ _ _ => Subscripts "webhook"
  end.

(** What a method of [ApiClient] returns from its success branch, when it
    returns: [True] from the methods that delete, the text of the body
    from an export in another format than JSON, and the parsed body
    itself from all the others. *)
Definition success_result (op : ApiClient.operation) (resp : Response)
    (v : value) : Prop :=
  match op with
  | ApiClient.Revoke_api_key _ | ApiClient.Delete_link _ | ApiClient.Delete_group _
  | ApiClient.Delete_routing _ _ | ApiClient.Delete_domain _
  | ApiClient.Delete_webhook _ => v = VBool true
  | ApiClient.Export_links format | ApiClient.Export_analytics _ format _ =>
      if String.eqb format "json" then json resp = Some v else v = VStr (text resp)
  | _ => json resp = Some v
  end.

(** The outcome [o] of a method of [ApiClient] on a response [resp] with
    the status it expects. *)
Definition success_branch (op : ApiClient.operation) (resp : Response)
    (o : outcome value) : Prop :=
  (∀ v, o = Ok v → success_result op resp v) ∧
  match reading_of op with
  | Ignores => ∃ v, o = Ok v
  | Parses =>
      o = match json resp with
          | Some j => Ok j
          | None => Raise JSONDecodeError
          end
  | Gets =>
      o = match json resp with
          | Some (VDict d) => Ok (VDict d)
          | Some _ => Raise AttributeError
          | None => Raise JSONDecodeError
          end
  | Subscripts k =>
      match json resp with
      | Some (VDict d) => d !! k = None → o = Raise (KeyError k)
      | Some _ => o = Raise TypeError
      | None => o = Raise JSONDecodeError
      end
  end.



(** The JSON body [bulk_create_links] sends for the descriptor [link]:
    the descriptor itself, with [url] set to [None] when it has none and
    without a [custom_slug] or [group_id] that Python takes as false. *)
Definition bulk_payload (link : gmap string value) : gmap string value :=
  <[ "url" := default VNone (link !! "url") ]>
    (filter (fun kv : string * value =>
               kv.1 ∈ ["custom_slug"; "group_id"] → truthy kv.2 = true) link).

(** The calls [xs] are [POST]s to [/api/shorten] under [base] with the
    headers [hdr], one for each of the first descriptors of [links], in
    their order. *)
Definition bulk_calls (links : list (gmap string value)) (hdr : gmap string string)
    (base : string) (xs : list (Request * answer)) : Prop :=
  (length xs ≤ length links)%nat ∧
  ∀ i x, xs !! i = Some x →
         ∃ link, links !! i = Some link ∧
                 x.1 = mkRequest "POST" (base +:+ "/api/shorten") (Some hdr)
                         (JsonBody (VDict (bulk_payload link))).

(** A quick function of [edgelink_api_client.py] made one call: the
    request [meth] to [path] under the module's base URL, authorised by
    the module's API key. *)
Definition quick_call {S A} (transport : S -> Request -> answer * S)
    (w : World S) (r : outcome A * World S) (meth path : string) (b : body) : Prop :=
  sent_one transport w r
    (mkRequest meth (ApiClient.BASE_URL +:+ path)
       (Some {[ "Content-Type" := "application/json";
                "Authorization" := "Bearer " +:+ ApiClient.API_KEY ]}) b).

(** The two methods that open a session. *)
Inductive session_method : Type :=
  | Login (email_arg password_arg : option string)
  | Signup (em pw plan : string).

Definition open_session {S} (transport : S -> Request -> answer * S)
    (py_repr : value -> string) (s : session_method) : M S value :=
  match s with
  | Login email_arg password_arg => ApiClient.login transport py_repr email_arg password_arg
  | Signup em pw plan => ApiClient.signup transport py_repr em pw plan
  end.

Definition session_status (s : session_method) : Z :=
  match s with
  | Login _ _ => 200
  | Signup _ _ _ => 201
  end.

(** The request [req] is authorised by the credential [t]. *)
Definition carries (fmt : value -> string) (req : Request) (t : value) : Prop :=
  ∃ h, headers req = Some h ∧ h !! "Authorization" = Some ("Bearer " +:+ fmt t).

(** The credential a method of [ApiClient] sends for the client [c], when
    there is one: the API key before the session token, except for
    [generate_api_key], which sends the session token. *)
Definition credential_of (op : ApiClient.operation) (c : Client) : value :=
  if uses_client_headers op then py_or (of_opt (api_key c)) (jwt_token c)
  else jwt_token c.


(** What a method of [examples/python_api_client.py] leaves in the same
    case: it prints the status and then the parsed body, so that it
    returns [None] when the body is JSON and raises when it is not. *)
Definition failure_json {S} (resp : Response)
    (w : World S) (r : outcome value * World S) : Prop :=
  self r.2 = self w ∧
  ∃ msg, match json resp with
         | Some j =>
             r.1 = Ok VNone ∧
             stdout r.2 = stdout w ++ [[T msg; I (status_code resp)]; [V j]]
         | None =>
             r.1 = Raise JSONDecodeError ∧
             stdout r.2 = stdout w ++ [[T msg; I (status_code resp)]]
         end.


(** The run [re] of a method of [examples/python_api_client.py] and the
    run [rf] of its twin in [edgelink_full_features_client.py], from the
    same world [w]: they send the same request and leave the same client;
    they give the same result, except that the example raises where its
    twin returns [None] on a failure whose body is not JSON; and on the
    status the method expects the two runs are the same altogether, the
    console included. *)
Definition agrees {S} (w : World S) (expected : Z)
    (re rf : outcome value * World S) : Prop :=
  self re.2 = self rf.2 ∧ net re.2 = net rf.2 ∧ calls re.2 = calls rf.2 ∧
  (re.1 = rf.1 ∨ (re.1 = Raise JSONDecodeError ∧ rf.1 = Ok VNone)) ∧
  (∀ resp, answered w re resp → status_code resp = expected → re = rf).

(** The request the quick functions of
    [edgelink_full_features_client.py] send to create the test link [u]
    under the slug [slug], for the client [c]. *)
Definition test_link_request (fmt : value -> string) (c : Client) (u slug : string)
    : Request :=
  mkRequest "POST" (base_url c +:+ "/api/shorten")
    (Some (FullFeatures._get_headers fmt c))
    (JsonBody (VDict {[ "url" := VStr u; "custom_slug" := VStr slug ]})).

(** The [n]-th request of [quick_test_limits], counting from 0, and the
    [n]-th request of [quick_create_test_links]; [now] is the time read
    from the clock. *)
Definition limit_request (fmt : value -> string) (now : Z) (c : Client) (n : Z)
    : Request :=
  test_link_request fmt c ("https://example.com/limit-test-" +:+ pretty n)
    ("lim" +:+ FullFeatures.pad2 n +:+ "-" +:+ FullFeatures.short_id now).

Definition quick_request (fmt : value -> string) (now : Z) (c : Client) (n : Z)
    : Request :=
  test_link_request fmt c ("https://example.com/test-" +:+ pretty n)
    ("quick" +:+ pretty n +:+ "-" +:+ FullFeatures.short_id now).

(** The calls [xs] of a loop that sends [request n] at its [n]-th turn,
    counting from [first]. *)
Definition numbered_calls (request : Z -> Request) (first : Z)
    (xs : list (Request * answer)) : Prop :=
  ∀ i x, xs !! i = Some x → x.1 = request (first + Z.of_nat i).

(** Every call of [xs] but the last created a link. *)
Definition all_but_last_succeeded (xs : list (Request * answer)) : Prop :=
  ∀ i x, xs !! i = Some x → (S i < length xs)%nat → succeeded x.2 = true.

(** A computation that, run on the client [c], sends at most [n] requests,
    each of which satisfies [P], and leaves the client as it is. *)
Definition calls_within {S A} (c : Client) (n : nat) (P : Request -> Prop)
    (m : M S A) : Prop :=
  ∀ w, self w = c →
       ∃ xs, calls (m w).2 = calls w ++ xs ∧ (length xs ≤ n)%nat ∧
             Forall (fun x => P x.1) xs ∧ self (m w).2 = c.

(** The key written in the script of [examples/python_api_client.py]. *)
Definition script_key : string := "elk_98z7n3wCDv36mmyvuTpmqxRXaERJHulr".

(** A request of the script: to the base URL of the example, authorised
    by the key of the script. *)
Definition script_request (req : Request) : Prop :=
  (∃ path, url req = Example.BASE_URL +:+ path) ∧
  headers req = Some {[ "Content-Type" := "application/json";
                        "Authorization" := "Bearer " +:+ script_key ]}.

(** The slug of the link that an answer to [shorten] announces. *)
Definition created_slug (a : answer) : option value :=
  match a with
  | inl resp =>
      if status_code resp =? 201 then
        match json resp with
        | Some (VDict d) => d !! "slug"
        | _ => None
        end
      else None
  | inr _ => None
  end.

(** The request of a method of [ApiClient] that leaves the headers to
    [_request], for the client [c]. *)
Definition client_request (fmt : value -> string) (c : Client) (meth ep : string)
    (b : body) : Request :=
  mkRequest meth (base_url c +:+ ep) (Some (ApiClient._get_headers fmt c)) b.

(** A computation that, run on the client [c], sends the requests [L] in
    their order, all of them when it returns and the first of them up to
    the call at which it raises otherwise, and leaves the client as it
    is. *)
Definition sends_prefix {S A} (c : Client) (L : list Request) (m : M S A) : Prop :=
  ∀ w, self w = c →
       ∃ xs, calls (m w).2 = calls w ++ xs ∧ self (m w).2 = c ∧
             xs.*1 `prefix_of` L ∧ (∀ a, (m w).1 = Ok a → xs.*1 = L).

(** A demo that creates a link with the request [first] and goes on with
    the link it was given: when the answer announces the slug [sl], the
    later requests are those of [rest sl], in their order; when it
    announces none, nothing more is sent. *)
Definition follows_the_link {S} (first : Request) (rest : value -> list Request)
    (w : World S) (r : outcome unit * World S) : Prop :=
  ∃ a xs,
    calls r.2 = calls w ++ (first, a) :: xs ∧ self r.2 = self w ∧
    match created_slug a with
    | Some sl => xs.*1 `prefix_of` rest sl ∧ (r.1 = Ok tt → xs.*1 = rest sl)
    | None => xs = []
    end.

(** What [demo_basic_operations] asks for the link [sl]. *)
Definition basic_requests (fmt : value -> string) (c : Client) (sl : value)
    : list Request :=
  [ client_request fmt c "GET" ("/api/stats/" +:+ py_str fmt sl) NoBody;
    client_request fmt c "PUT" ("/api/links/" +:+ py_str fmt sl)
      (JsonBody (VDict {[ "destination" := VStr "https://example.com/updated" ]})) ].

(** What [demo_routing] asks for the link [sl]. *)
Definition routing_requests (fmt : value -> string) (c : Client) (sl : value)
    : list Request :=
  [ client_request fmt c "POST" ("/api/links/" +:+ py_str fmt sl +:+ "/routing/device")
      (JsonBody (VDict {[ "mobile" := VStr "https://m.example.com";
                          "desktop" := VStr "https://www.example.com";
                          "tablet" := VStr "https://tablet.example.com" ]}));
    client_request fmt c "POST" ("/api/links/" +:+ py_str fmt sl +:+ "/routing/geo")
      (JsonBody (VDict {[ "routes" := VDict
         {[ "US" := VStr "https://example.com/us"; "GB" := VStr "https://example.com/uk";
            "IN" := VStr "https://example.com/in";
            "default" := VStr "https://example.com" ]} ]}));
    client_request fmt c "POST" ("/api/links/" +:+ py_str fmt sl +:+ "/routing/referrer")
      (JsonBody (VDict {[ "routes" := VDict
         {[ "twitter.com" := VStr "https://example.com/from-twitter";
            "linkedin.com" := VStr "https://example.com/from-linkedin";
            "default" := VStr "https://example.com" ]} ]}));
    client_request fmt c "GET" ("/api/links/" +:+ py_str fmt sl +:+ "/routing") NoBody ].

(** The descriptors of [demo_bulk_operations]; [now] is the time read from
    the clock. *)
Definition demo_links (now : Z) : list (gmap string value) :=
  [ {[ "url" := VStr "https://example.com/page1" ]};
    {[ "url" := VStr "https://example.com/page2";
       "custom_slug" := VStr ("custom-" +:+ pretty now) ]};
    {[ "url" := VStr "https://example.com/page3" ]} ].

(** ** More sample values, for the examples *)



(** A client with an email and a password, which has not logged in. *)
Definition registered : Client :=
  ApiClient.new_client None (Some "ann@example.com") (Some "hunter2").





(** ** Theorems *)

(** *** Headers *)

Section Headers.
Variable py_repr : value -> string.

Lemma py_or_truthy a b : truthy (py_or a b) = truthy a || truthy b.
Proof. unfold py_or. destruct (truthy a) eqn:E; simpl; auto. Qed.

Lemma headers_contract_intro (c : Client) (h : gmap string string) :
  h = (if truthy (py_or (of_opt (api_key c)) (jwt_token c))
       then <[ "Authorization" :=
                 "Bearer " +:+ py_str py_repr (py_or (of_opt (api_key c)) (jwt_token c)) ]>
              {[ "Content-Type" := "application/json" ]}
       else {[ "Content-Type" := "application/json" ]}) →
  headers_contract (py_str py_repr) c h.
Proof.
  intros ->. unfold headers_contract, resolve_token, is_set.
  rewrite py_or_truthy. unfold py_or.
  destruct (truthy (of_opt (api_key c))) eqn:Ek;
    destruct (truthy (jwt_token c)) eqn:Ej; cbn [orb fmap option_fmap option_map].
  all: repeat split; intros; simplify_map_eq; eauto; try congruence.
  all: try match goal with
           | H : api_key _ = Some _ |- _ => rewrite H in *; cbn in *; try congruence
           end.
  all: try (eexists; done).
  all: try tauto.
  all: try match goal with H : _ ∨ _ |- _ => by destruct H end.
  all: try (exfalso; match goal with H : is_Some None |- _ => by destruct H end).
Qed.

(** C1.  For every client, whatever [api_key] and [jwt_token] hold, the
    mapping [_get_headers] builds has [Content-Type: application/json]; it
    has an [Authorization] entry exactly when one of the two fields is set;
    the entry is [Bearer] followed by the API key whenever the key is set,
    and by the session token only when the key is unset; and it has no
    other entry.  This holds for the [_get_headers] of the three clients. *)
Theorem C1_get_headers_contract (c : Client) :
  headers_contract (py_str py_repr) c (ApiClient._get_headers py_repr c) ∧
  headers_contract (py_str py_repr) c (FullFeatures._get_headers py_repr c) ∧
  headers_contract (py_str py_repr) c (Example._get_headers py_repr c).
Proof.
  split; [|split]; apply headers_contract_intro.
  - reflexivity.
  - unfold FullFeatures._get_headers.
    destruct (truthy _); cbn [negb]; [|done].
    apply map_eq. intros k.
    destruct (decide (k = "Authorization")) as [->|]; simplify_map_eq; done.
  - unfold Example._get_headers.
    destruct (truthy _); cbn [negb]; [|done].
    apply map_eq. intros k.
    destruct (decide (k = "Authorization")) as [->|]; simplify_map_eq; done.
Qed.

End Headers.

(** The empty string counts as unset: a client whose key is [""] sends the
    session token. *)
Example empty_key_is_unset :
  ApiClient._get_headers sample_repr
    (with_jwt_token (ApiClient.new_client (Some "") None None) (VStr "jwt-1"))
    !! "Authorization" = Some "Bearer jwt-1".
Proof. vm_compute. reflexivity. Qed.

(** *** Running a method *)

Section Execution.
Context {S : Type}.
Variable transport : S -> Request -> answer * S.
Variable py_repr : value -> string.

Lemma console_ret {A} (a : A) : console_only (S:=S) (ret a).
Proof. done. Qed.

Lemma console_raise {A} e : console_only (S:=S) (A:=A) (raise e).
Proof. done. Qed.

Lemma console_print l : console_only (S:=S) (print_ l).
Proof. done. Qed.

Lemma console_bind {A B} (m : M S A) (k : A -> M S B) :
  console_only m → (∀ a, console_only (k a)) → console_only (bind m k).
Proof.
  intros Hm Hk w. unfold bind. specialize (Hm w).
  destruct (m w) as [[a|e] w']; simpl in *; [|done].
  specialize (Hk a w'). destruct Hk as (-> & -> & ->). done.
Qed.

Lemma console_resp_json r : console_only (S:=S) (resp_json r).
Proof. unfold resp_json. destruct (json r); done. Qed.

Lemma console_getitem v k : console_only (S:=S) (getitem v k).
Proof. unfold getitem. destruct v; try done. destruct (_ !! _); done. Qed.

Lemma console_get_default v k d : console_only (S:=S) (get_default v k d).
Proof. destruct v; done. Qed.

Lemma console_check_len v : console_only (S:=S) (check_len v).
Proof. destruct v; done. Qed.

Lemma console_iter_items v : console_only (S:=S) (iter_items v).
Proof. destruct v; done. Qed.

Lemma console_for_each {A} (l : list A) (f : A -> M S unit) :
  (∀ a, console_only (f a)) → console_only (for_each l f).
Proof.
  intros Hf. induction l as [|x l IH]; simpl.
  - apply console_ret.
  - apply console_bind; auto.
Qed.

Ltac console :=
  cbv beta;
  repeat first
    [ apply console_ret | apply console_raise | apply console_print
    | apply console_resp_json | apply console_getitem | apply console_get_default
    | apply console_check_len | apply console_iter_items
    | apply console_for_each; intros ?
    | apply console_bind; [|intros ?]
    | match goal with
      | |- console_only (if ?b then _ else _) => destruct b
      end ].

(** The equations of [bind] at each primitive. *)
Lemma bind_get_self {A} (k : Client -> M S A) w :
  bind get_self k w = k (self w) w.
Proof. reflexivity. Qed.

Lemma bind_ret {A B} (a : A) (k : A -> M S B) w : bind (ret a) k w = k a w.
Proof. reflexivity. Qed.

Lemma bind_print {A} l (k : unit -> M S A) w :
  bind (print_ l) k w = k tt (mkWorld (self w) (net w) (calls w) (stdout w ++ [l])).
Proof. reflexivity. Qed.

Lemma bind_set_jwt_token {A} t (k : unit -> M S A) w :
  bind (set_jwt_token t) k w
  = k tt (mkWorld (with_jwt_token (self w) t) (net w) (calls w) (stdout w)).
Proof. reflexivity. Qed.

Lemma bind_set_email {A} e (k : unit -> M S A) w :
  bind (set_email e) k w
  = k tt (mkWorld (with_email (self w) e) (net w) (calls w) (stdout w)).
Proof. reflexivity. Qed.

Lemma bind_resp_json {A} r (k : value -> M S A) w :
  bind (resp_json r) k w
  = match json r with
    | Some v => k v w
    | None => (Raise JSONDecodeError, w)
    end.
Proof. unfold bind, resp_json. destruct (json r); reflexivity. Qed.

Lemma bind_getitem_dict {A} d key (k : value -> M S A) w :
  bind (getitem (VDict d) key) k w
  = match d !! key with
    | Some x => k x w
    | None => (Raise (KeyError key), w)
    end.
Proof. unfold bind, getitem. destruct (d !! key); reflexivity. Qed.

Lemma bind_request {A} meth u h b (k : Response -> M S A) w :
  bind (requests_request transport meth u h b) k w =
    match (transport (net w) (mkRequest meth u h b)).1 with
    | inl resp => k resp (deliver transport w (mkRequest meth u h b))
    | inr e => (Raise (RequestException e), deliver transport w (mkRequest meth u h b))
    end.
Proof.
  unfold bind, requests_request, deliver.
  destruct (transport _ _) as [[resp|e] s']; reflexivity.
Qed.

Lemma call_spec {A} meth ep h b (k : Response -> M S A) w :
  bind (ApiClient._request transport py_repr meth ep h b) k w =
    let req := mkRequest meth (base_url (self w) +:+ ep)
                 (Some (default (ApiClient._get_headers py_repr (self w)) h)) b in
    match (transport (net w) req).1 with
    | inl resp => k resp (deliver transport w req)
    | inr e => (Raise (RequestException e), deliver transport w req)
    end.
Proof.
  unfold bind, ApiClient._request, bind, get_self, requests_request, deliver.
  cbn [self net calls stdout].
  destruct (transport _ _) as [[resp|e] s']; reflexivity.
Qed.

(** *** One attempt per invocation *)








(** *** What a method leaves of the client *)

Lemma keeps_console {A X} (f : Client -> X) (m : M S A) :
  console_only m → keeps f m.
Proof. intros H w. by destruct (H w) as (-> & _). Qed.

Lemma keeps_bind {A B X} (f : Client -> X) (m : M S A) (k : A -> M S B) :
  keeps f m → (∀ a, keeps f (k a)) → keeps f (bind m k).
Proof.
  intros Hm Hk w. unfold bind. specialize (Hm w).
  destruct (m w) as [[a|e] w']; simpl in *; [|done].
  rewrite <- Hm. apply Hk.
Qed.

Lemma keeps_get_self {X} (f : Client -> X) : keeps (S:=S) f get_self.
Proof. done. Qed.

Lemma keeps_requests_request {X} (f : Client -> X) meth u h b :
  keeps f (requests_request transport meth u h b).
Proof.
  intros w. unfold requests_request.
  destruct (transport _ _) as [[resp|e] s']; done.
Qed.

Lemma keeps__request {X} (f : Client -> X) meth ep h b :
  keeps f (ApiClient._request transport py_repr meth ep h b).
Proof.
  unfold ApiClient._request. apply keeps_bind; [apply keeps_get_self|].
  intros c. apply keeps_requests_request.
Qed.

Lemma keeps_set_jwt_token {X} (f : Client -> X) t :
  (∀ c, f (with_jwt_token c t) = f c) → keeps (S:=S) f (set_jwt_token t).
Proof. intros H w. apply H. Qed.

Lemma keeps_set_email {X} (f : Client -> X) e :
  (∀ c, f (with_email c e) = f c) → keeps (S:=S) f (set_email e).
Proof. intros H w. apply H. Qed.

Lemma keeps_for_each {A X} (f : Client -> X) (l : list A) (g : A -> M S unit) :
  (∀ a, keeps f (g a)) → keeps f (for_each l g).
Proof.
  intros Hg. induction l as [|x l IH]; simpl.
  - done.
  - apply keeps_bind; auto.
Qed.

Ltac frame :=
  cbv beta zeta;
  repeat first
    [ apply keeps__request | apply keeps_requests_request | apply keeps_get_self
    | apply keeps_set_jwt_token; reflexivity
    | apply keeps_set_email; reflexivity
    | apply keeps_console;
        first [ apply console_ret | apply console_raise | apply console_print
              | apply console_resp_json | apply console_getitem
              | apply console_get_default | apply console_check_len
              | apply console_iter_items ]
    | apply keeps_for_each; intros ?
    | apply keeps_bind; [|intros ?]
    | match goal with
      | |- keeps _ (if ?b then _ else _) => destruct b
      | |- keeps _ (match ?x with _ => _ end) => destruct x
      end ].






(** *** The gate of [generate_api_key] *)

Lemma bearer_lookup (t : string) :
  ({[ "Content-Type" := "application/json"; "Authorization" := t ]}
     : gmap string string) !! "Authorization" = Some t.
Proof. by simplify_map_eq. Qed.

Lemma api_generate_api_key_gate name days w :
  session_token_gate (py_str py_repr) w
    (ApiClient.generate_api_key transport py_repr name days w).
Proof.
  unfold ApiClient.generate_api_key, session_token_gate, is_set.
  rewrite bind_get_self.
  destruct (truthy (jwt_token (self w))) eqn:Ej; cbn [negb]; split; try done.
  intros _. rewrite call_spec. cbv zeta. cbn [default].
  set (req := mkRequest _ _ _ _).
  assert (Hcalls : ∀ (k : Response -> M S value), (∀ r, console_only (k r)) →
            calls (match (transport (net w) req).1 with
                   | inl resp => k resp (deliver transport w req)
                   | inr e => (Raise (RequestException e), deliver transport w req)
                   end).2 = calls w ++ [(req, (transport (net w) req).1)]).
  { intros k Hk. destruct (transport (net w) req).1 as [resp|e] eqn:Ht.
    - destruct (Hk resp (deliver transport w req)) as (_ & _ & ->).
      unfold deliver. cbn [calls]. by rewrite Ht.
    - unfold deliver. cbn [snd calls]. by rewrite Ht. }
  eexists req, _, _. split; [apply Hcalls; intros r; console|].
  do 3 (split; [reflexivity|]). apply bearer_lookup.
Qed.

Lemma direct_generate_api_key_gate (k : Response -> M S value) name days w :
  (∀ r, console_only (k r)) →
  session_token_gate (py_str py_repr) w
    ((c <- get_self;
      if negb (truthy (jwt_token c)) then
        print_ [T "❌ JWT token required to generate API keys. Login first."];;
        ret VNone
      else
        response <- requests_request transport "POST" (base_url c +:+ "/api/keys")
          (Some {[ "Content-Type" := "application/json";
                   "Authorization" := "Bearer " +:+ py_str py_repr (jwt_token c) ]})
          (JsonBody (VDict {[ "name" := VStr name;
                              "expires_in_days" := VInt days ]}));
        k response) w).
Proof.
  intros Hk. unfold session_token_gate, is_set.
  rewrite bind_get_self.
  destruct (truthy (jwt_token (self w))) eqn:Ej; cbn [negb]; split; try done.
  intros _. rewrite bind_request.
  set (req := mkRequest _ _ _ _).
  eexists req, (transport (net w) req).1, _. split.
  - destruct (transport (net w) req).1 as [resp|e] eqn:Ht.
    + destruct (Hk resp (deliver transport w req)) as (_ & _ & ->).
      unfold deliver. cbn [calls]. by rewrite Ht.
    + unfold deliver. cbn [snd calls]. by rewrite Ht.
  - do 3 (split; [reflexivity|]). apply bearer_lookup.
Qed.

(** C9.  In the three clients, [generate_api_key] on a client whose
    [jwt_token] is unset returns [None] without handing anything to the
    transport, whether or not an [api_key] is present; on a client whose
    [jwt_token] is set, the one request it sends has the header
    [Authorization: Bearer <jwt_token>], the session token, whatever
    [api_key] holds. *)
Theorem C9_generate_api_key_needs_session_token (name : string) (days : Z) (w : World S) :
  session_token_gate (py_str py_repr) w
    (ApiClient.generate_api_key transport py_repr name days w) ∧
  session_token_gate (py_str py_repr) w
    (FullFeatures.generate_api_key transport py_repr name days w) ∧
  session_token_gate (py_str py_repr) w
    (Example.generate_api_key transport py_repr name days w).
Proof.
  split; [apply api_generate_api_key_gate|].
  split.
  - unfold FullFeatures.generate_api_key.
    apply direct_generate_api_key_gate. intros r. console.
  - unfold Example.generate_api_key.
    apply direct_generate_api_key_gate. intros r. console.
Qed.

(** *** [login] and [signup] *)

Lemma offline_console {A} (m : M S A) : console_only m → offline m.
Proof. intros H w. by destruct (H w) as (_ & -> & ->). Qed.

Lemma offline_bind {A B} (m : M S A) (k : A -> M S B) :
  offline m → (∀ a, offline (k a)) → offline (bind m k).
Proof.
  intros Hm Hk w. unfold bind. specialize (Hm w).
  destruct (m w) as [[a|e] w']; simpl in *; [|done].
  destruct Hm as [<- <-]. apply Hk.
Qed.

Lemma offline_set_jwt_token t : offline (S:=S) (set_jwt_token t).
Proof. done. Qed.

Lemma offline_set_email e : offline (S:=S) (set_email e).
Proof. done. Qed.

Ltac offline :=
  cbv beta zeta;
  repeat first
    [ apply offline_set_jwt_token | apply offline_set_email
    | apply offline_console;
        first [ apply console_ret | apply console_raise | apply console_print
              | apply console_resp_json | apply console_getitem
              | apply console_get_default ]
    | apply offline_bind; [|intros ?] ].

Lemma no_authorization_content_type (req : Request) :
  headers req = Some {[ "Content-Type" := "application/json" ]} → no_authorization req.
Proof. intros H h Hh. rewrite H in Hh. by simplify_map_eq. Qed.

Lemma no_authorization_none (req : Request) :
  headers req = None → no_authorization req.
Proof. intros H h Hh. congruence. Qed.

Lemma auth_contract_intro path b expected keys new_email msg jof
    (req : Request) (succ fail : Response -> M S value) w :
  method req = "POST" →
  url req = base_url (self w) +:+ path →
  payload req = b →
  no_authorization req →
  (∀ r, offline (succ r)) →
  (∀ r, offline (fail r)) →
  (∀ resp w1 d tok u,
     self w1 = self w →
     json resp = Some (VDict d) → d !! "token" = Some tok →
     d !! "user" = Some (VDict u) → Forall (fun k => is_Some (u !! k)) keys →
     (succ resp w1).1 = Ok (VDict d) ∧
     self (succ resp w1).2 = with_email (with_jwt_token (self w1) tok) new_email) →
  (∀ resp w1,
     self (fail resp w1).2 = self w1 ∧
     if (jof : bool) then
       match json resp with
       | Some j =>
           (fail resp w1).1 = Ok VNone ∧
           stdout (fail resp w1).2 = stdout w1 ++ [[T msg; I (status_code resp)]; [V j]]
       | None =>
           (fail resp w1).1 = Raise JSONDecodeError ∧
           stdout (fail resp w1).2 = stdout w1 ++ [[T msg; I (status_code resp)]]
       end
     else
       (fail resp w1).1 = Ok VNone ∧
       stdout (fail resp w1).2 = stdout w1 ++ [[T msg; I (status_code resp)];
                                                [T (text resp)]]) →
  auth_contract transport path b expected keys new_email msg jof w
    (match (transport (net w) req).1 with
     | inl resp => (if status_code resp =? expected then succ resp else fail resp)
                     (deliver transport w req)
     | inr e => (Raise (RequestException e), deliver transport w req)
     end).
Proof.
  intros Hm Hu Hp Hna Hos Hof Hs Hf. exists req.
  destruct (transport (net w) req).1 as [resp|e] eqn:Ht.
  - set (w1 := deliver transport w req).
    assert (Ho : offline (if status_code resp =? expected then succ resp else fail resp)).
    { destruct (_ =? _); auto. }
    destruct (Ho w1) as [-> ->]. subst w1. unfold deliver at 1 2. cbn [net calls].
    rewrite Ht. do 6 (split; [done|]). split.
    + intros He. apply Z.eqb_eq in He. rewrite He. intros d tok u H1 H2 H3 H4.
      destruct (Hs resp (deliver transport w req) d tok u eq_refl H1 H2 H3 H4)
        as [-> ->].
      done.
    + intros Hne. apply Z.eqb_neq in Hne. rewrite Hne.
      apply (Hf resp (deliver transport w req)).
  - unfold deliver. cbn [fst snd self net calls stdout]. rewrite Ht. done.
Qed.

Ltac step :=
  first [ rewrite bind_resp_json | rewrite bind_getitem_dict
        | rewrite bind_set_jwt_token | rewrite bind_set_email
        | rewrite bind_print | rewrite bind_ret ];
  repeat match goal with
         | H : json _ = _ |- _ => rewrite H
         | H : _ !! _ = Some _ |- _ => rewrite H
         end.

Ltac auth_success :=
  intros resp w1 d tok u Hself Hj Ht Hu Hk;
  repeat match goal with
         | H : Forall _ (_ :: _) |- _ => apply Forall_cons in H; destruct H as [[? ?] H]
         end;
  repeat step; unfold ret; cbn [fst snd self]; rewrite <- ?Hself; done.

Ltac auth_failure :=
  intros resp w1; cbv beta iota;
  destruct (json resp) as [j|] eqn:Hj;
  repeat step; unfold ret; cbn [fst snd self stdout];
  rewrite <- ?app_assoc; done.

Lemma api_login_contract email_arg password_arg w :
  auth_contract transport "/auth/login"
    (login_body (opt_or email_arg (email (self w))) (opt_or password_arg (password (self w))))
    200 ["email"; "plan"] (opt_or email_arg (email (self w))) "❌ Login failed: " true w
    (ApiClient.login transport py_repr email_arg password_arg w).
Proof.
  unfold ApiClient.login.
  rewrite bind_get_self, call_spec. cbv zeta. cbn [default].
  apply auth_contract_intro; try reflexivity.
  - by apply no_authorization_content_type.
  - intros r. offline.
  - intros r. offline.
  - auth_success.
  - auth_failure.
Qed.

Lemma full_login_contract w :
  auth_contract transport "/auth/login"
    (login_body (email (self w)) (password (self w)))
    200 ["email"; "plan"] (email (self w)) "❌ Login failed: " false w
    (FullFeatures.login transport w).
Proof.
  unfold FullFeatures.login.
  rewrite bind_get_self, bind_request.
  apply auth_contract_intro; try reflexivity.
  - by apply no_authorization_none.
  - intros r. offline.
  - intros r. offline.
  - auth_success.
  - auth_failure.
Qed.

Lemma example_login_contract w :
  auth_contract transport "/auth/login"
    (login_body (email (self w)) (password (self w)))
    200 ["email"; "plan"] (email (self w)) "❌ Login failed: " true w
    (Example.login transport w).
Proof.
  unfold Example.login.
  rewrite bind_get_self, bind_request.
  apply auth_contract_intro; try reflexivity.
  - by apply no_authorization_none.
  - intros r. offline.
  - intros r. offline.
  - auth_success.
  - auth_failure.
Qed.

Lemma api_signup_contract em pw plan w :
  auth_contract transport "/auth/signup" (signup_body em pw plan)
    201 ["user_id"] (Some em) "❌ Signup failed: " true w
    (ApiClient.signup transport py_repr em pw plan w).
Proof.
  unfold ApiClient.signup.
  rewrite call_spec. cbv zeta. cbn [default].
  apply auth_contract_intro; try reflexivity.
  - by apply no_authorization_content_type.
  - intros r. offline.
  - intros r. offline.
  - auth_success.
  - auth_failure.
Qed.

Lemma full_signup_contract em pw plan w :
  auth_contract transport "/auth/signup" (signup_body em pw plan)
    201 ["user_id"] (Some em) "❌ Signup failed: " false w
    (FullFeatures.signup transport em pw plan w).
Proof.
  unfold FullFeatures.signup.
  rewrite bind_get_self, bind_request.
  apply auth_contract_intro; try reflexivity.
  - by apply no_authorization_none.
  - intros r. offline.
  - intros r. offline.
  - auth_success.
  - auth_failure.
Qed.

Lemma example_signup_contract em pw plan w :
  auth_contract transport "/auth/signup" (signup_body em pw plan)
    201 ["user_id"] (Some em) "❌ Signup failed: " true w
    (Example.signup transport em pw plan w).
Proof.
  unfold Example.signup.
  rewrite bind_get_self, bind_request.
  apply auth_contract_intro; try reflexivity.
  - by apply no_authorization_none.
  - intros r. offline.
  - intros r. offline.
  - auth_success.
  - auth_failure.
Qed.

(** C2, as the code has it.  [login] sends one [POST] to
    [<base_url>/auth/login] with the JSON body [{email, password}] and no
    [Authorization] header.  When the status is 200 and the body is a JSON
    object with a [token] and a [user] object holding [email] and [plan],
    the token is stored in [jwt_token] and the parsed body is returned.
    With any other status the whole client is left unchanged, the status
    code and then the body are printed, and [None] is returned: the
    returned value carries neither the status code nor the body.  The
    client of [edgelink_api_client.py] prints [response.json()] there and
    so raises when the body is not JSON; the client of
    [edgelink_full_features_client.py] prints [response.text]. *)
Theorem C2_login_contract (email_arg password_arg : option string) (w : World S) :
  auth_contract transport "/auth/login"
    (login_body (opt_or email_arg (email (self w)))
                (opt_or password_arg (password (self w))))
    200 ["email"; "plan"] (opt_or email_arg (email (self w))) "❌ Login failed: " true w
    (ApiClient.login transport py_repr email_arg password_arg w) ∧
  auth_contract transport "/auth/login"
    (login_body (email (self w)) (password (self w)))
    200 ["email"; "plan"] (email (self w)) "❌ Login failed: " false w
    (FullFeatures.login transport w).
Proof. split; [apply api_login_contract | apply full_login_contract]. Qed.

(** C6, as the code has it.  [signup] sends one [POST] to
    [<base_url>/auth/signup] with the JSON body [{email, password, plan}].
    When the status is 201 and the body is a JSON object with a [token]
    and a [user] object holding [user_id], the token is stored in
    [jwt_token], as [login] does, and the parsed body is returned.  With
    any other status no token is stored and the client is unchanged; the
    status is printed, and then [response.json()]: [None] is returned when
    the body is JSON, and the method raises when it is not. *)
Theorem C6_signup_contract (em pw plan : string) (w : World S) :
  auth_contract transport "/auth/signup" (signup_body em pw plan)
    201 ["user_id"] (Some em) "❌ Signup failed: " true w
    (ApiClient.signup transport py_repr em pw plan w) ∧
  auth_contract transport "/auth/signup" (signup_body em pw plan)
    201 ["user_id"] (Some em) "❌ Signup failed: " true w
    (Example.signup transport em pw plan w).
Proof. split; [apply api_signup_contract | apply example_signup_contract]. Qed.

(** *** [delete_link], twice *)

Lemma api_delete_attempt slug w :
  delete_attempt transport slug true w (ApiClient.delete_link transport py_repr slug w).
Proof.
  unfold ApiClient.delete_link, delete_attempt.
  rewrite call_spec. cbv zeta.
  set (req := mkRequest _ _ _ _). exists req.
  destruct (transport (net w) req).1 as [resp|e] eqn:Ht.
  - destruct (status_code resp =? 200); rewrite bind_print; unfold ret, deliver;
      cbn [fst snd self net calls stdout]; rewrite Ht; done.
  - unfold deliver. cbn [fst snd self net calls stdout]. rewrite Ht. done.
Qed.

Lemma example_delete_attempt slug w :
  delete_attempt transport slug false w (Example.delete_link transport py_repr slug w).
Proof.
  unfold Example.delete_link, delete_attempt.
  rewrite bind_get_self, bind_request.
  set (req := mkRequest _ _ _ _). exists req.
  destruct (transport (net w) req).1 as [resp|e] eqn:Ht.
  - destruct (status_code resp =? 200); rewrite bind_print; [|rewrite bind_resp_json];
      unfold resp_json, ret, raise, deliver;
      destruct (json resp) as [j|]; try rewrite bind_print;
      cbn [fst snd self net calls stdout]; rewrite Ht; rewrite <- ?app_assoc; done.
  - unfold deliver. cbn [fst snd self net calls stdout]. rewrite Ht. done.
Qed.

(** C7, as the code has it.  Two calls of [delete_link] in succession on
    the same slug each send one [DELETE] to [<base_url>/api/links/<slug>].
    In [edgelink_api_client.py] a call answered with 200 returns [True]
    and a call answered with a not-found status, or any other, returns
    [False] after printing the status: the method never reads the body and
    returns for every response.  In [examples/python_api_client.py] the
    first call returns [response.json()] and the second prints it and
    returns [None]; both raise when the body is not JSON. *)
Theorem C7_delete_link_twice (slug : string) (w : World S) :
  delete_attempt transport slug true w
    (ApiClient.delete_link transport py_repr slug w) ∧
  delete_attempt transport slug true
    (ApiClient.delete_link transport py_repr slug w).2
    (ApiClient.delete_link transport py_repr slug
       (ApiClient.delete_link transport py_repr slug w).2) ∧
  delete_attempt transport slug false w
    (Example.delete_link transport py_repr slug w) ∧
  delete_attempt transport slug false
    (Example.delete_link transport py_repr slug w).2
    (Example.delete_link transport py_repr slug
       (Example.delete_link transport py_repr slug w).2).
Proof.
  repeat split; first [apply api_delete_attempt | apply example_delete_attempt].
Qed.

(** *** [__init__] *)










(** *** [bulk_create_links] *)

Lemma bind_eq {A B} (m : M S A) (k : A -> M S B) w a w' :
  m w = (Ok a, w') → bind m k w = k a w'.
Proof. intros H. unfold bind. by rewrite H. Qed.

Lemma truthy_dict_lookup (d : gmap string value) k v :
  d !! k = Some v → truthy (VDict d) = true.
Proof.
  intros H. cbn. destruct (map_to_list d) as [|x l] eqn:E; [|done].
  apply map_to_list_empty_iff in E. subst d. by rewrite lookup_empty in H.
Qed.



Lemma bind_assoc {A B C} (m : M S A) (f : A -> M S B) (g : B -> M S C) w :
  bind (bind m f) g w = bind m (fun x => bind (f x) g) w.
Proof. unfold bind. by destruct (m w) as [[a|e] w']. Qed.

Lemma count_calls_cons (p : answer -> bool) (x : Request * answer) xs :
  count_calls p (x :: xs) = (if p x.2 then 1 else 0) + count_calls p xs.
Proof.
  unfold count_calls. rewrite filter_cons.
  destruct (decide (p x.2 = true)) as [->|Hn].
  - cbn [length]. lia.
  - destruct (p x.2); [done|]. lia.
Qed.





(** *** The rest of the code

    The theorems below are on the methods the contract above leaves out,
    and on the two other clients as a whole.  They hold for every
    behaviour of the interpreter and of the libraries the methods call. *)

(** [json.dumps], [str.capitalize] and [str.join] *)
Variable json_dumps : value -> string.
Variable py_capitalize : string -> string.
Variable py_join : string -> value -> outcome string.

(** The exception of a slice of a dict, the CSV writer and
    [response.content] *)
Variable dict_slice_exn : exn.
Variable csv_of_dicts : list (gmap string value) -> outcome string.
Variable content_of : Response -> list Byte.byte.

(** The time read from the clock *)
Variable unix_time : Z.

Lemma console_py_contains needle v : console_only (S:=S) (py_contains needle v).
Proof. destruct v; done. Qed.

Lemma console_items_of v : console_only (S:=S) (items_of v).
Proof. destruct v; done. Qed.

Lemma console_lift_outcome {A} (o : outcome A) : console_only (S:=S) (lift_outcome o).
Proof. destruct o; done. Qed.

Lemma console_slice_items n v : console_only (S:=S) (ApiClient.slice_items dict_slice_exn n v).
Proof. destruct v; done. Qed.

Ltac console2 :=
  cbv beta;
  repeat first
    [ apply console_ret | apply console_raise | apply console_print
    | apply console_resp_json | apply console_getitem | apply console_get_default
    | apply console_check_len | apply console_iter_items
    | apply console_py_contains | apply console_items_of | apply console_lift_outcome
    | apply console_slice_items
    | apply console_for_each; intros ?
    | apply console_bind; [|intros ?]
    | match goal with
      | |- console_only (if ?b then _ else _) => destruct b
      end ].

Lemma console_print_breakdown_full data kind title :
  console_only (S:=S) (FullFeatures.print_breakdown data kind title).
Proof. unfold FullFeatures.print_breakdown. console2. Qed.

Lemma console_print_breakdown_example data kind title :
  console_only (S:=S) (Example.print_breakdown data kind title).
Proof. unfold Example.print_breakdown. console2. Qed.

Ltac console3 :=
  cbv beta;
  repeat first
    [ apply console_print_breakdown_full | apply console_print_breakdown_example
    | apply console_ret | apply console_raise | apply console_print
    | apply console_resp_json | apply console_getitem | apply console_get_default
    | apply console_check_len | apply console_iter_items
    | apply console_py_contains | apply console_items_of | apply console_lift_outcome
    | apply console_slice_items
    | apply console_for_each; intros ?
    | apply console_bind; [|intros ?]
    | match goal with
      | |- console_only (if ?b then _ else _) => destruct b
      end ].

(** One call through [_request], then a continuation on the console. *)
Lemma after_request {A} meth ep h b (k : Response -> M S A) w :
  (∀ r, console_only (k r)) →
  ∃ req,
    req = mkRequest meth (base_url (self w) +:+ ep)
            (Some (default (ApiClient._get_headers py_repr (self w)) h)) b ∧
    sent_one transport w (bind (ApiClient._request transport py_repr meth ep h b) k w) req ∧
    self (bind (ApiClient._request transport py_repr meth ep h b) k w).2 = self w ∧
    bind (ApiClient._request transport py_repr meth ep h b) k w
    = match (transport (net w) req).1 with
      | inl resp => k resp (deliver transport w req)
      | inr e => (Raise (RequestException e), deliver transport w req)
      end.
Proof.
  intros Hk. eexists. split; [reflexivity|].
  rewrite call_spec. cbv zeta. set (req := mkRequest _ _ _ _).
  unfold sent_one.
  destruct (transport (net w) req).1 as [resp|e] eqn:Ht.
  - destruct (Hk resp (deliver transport w req)) as (-> & -> & ->).
    unfold deliver. cbn [self net calls]. rewrite Ht. done.
  - unfold deliver. cbn [fst snd self net calls]. rewrite Ht. done.
Qed.

(** One call through [requests] itself, as the two other clients make it. *)
Lemma after_direct {A} (hdr : Client -> option (gmap string string)) meth path b
    (k : Response -> M S A) w :
  (∀ r, console_only (k r)) →
  ∃ req,
    req = mkRequest meth (base_url (self w) +:+ path) (hdr (self w)) b ∧
    sent_one transport w
      ((c <- get_self;
        response <- requests_request transport meth (base_url c +:+ path) (hdr c) b;
        k response) w) req ∧
    self ((c <- get_self;
           response <- requests_request transport meth (base_url c +:+ path) (hdr c) b;
           k response) w).2 = self w ∧
    (c <- get_self;
     response <- requests_request transport meth (base_url c +:+ path) (hdr c) b;
     k response) w
    = match (transport (net w) req).1 with
      | inl resp => k resp (deliver transport w req)
      | inr e => (Raise (RequestException e), deliver transport w req)
      end.
Proof.
  intros Hk. eexists. split; [reflexivity|].
  rewrite bind_get_self, bind_request. set (req := mkRequest _ _ _ _).
  unfold sent_one.
  destruct (transport (net w) req).1 as [resp|e] eqn:Ht.
  - destruct (Hk resp (deliver transport w req)) as (-> & -> & ->).
    unfold deliver. cbn [self net calls]. rewrite Ht. done.
  - unfold deliver. cbn [fst snd self net calls]. rewrite Ht. done.
Qed.

Lemma api_run_form op :
  (∀ n d, op ≠ ApiClient.Generate_api_key n d) →
  ∃ meth ep b (k : Response -> M S value),
    (∀ r, console_only (k r)) ∧
    ApiClient.run transport py_repr op
    = bind (ApiClient._request transport py_repr meth ep None b) k.
Proof.
  intros Hop. destruct op; try (by exfalso; eapply Hop).
  all: eexists _, _, _, _; split; [|reflexivity]; intros r; console.
Qed.

Lemma api_sent_with_headers op w :
  (∀ n d, op ≠ ApiClient.Generate_api_key n d) →
  sent_with_headers transport (ApiClient._get_headers py_repr) w
    (ApiClient.run transport py_repr op w).
Proof.
  intros Hop. destruct (api_run_form op Hop) as (meth & ep & b & k & Hk & ->).
  destruct (after_request meth ep None b k w Hk) as (req & -> & Hs & Hself & _).
  eexists _, ep. done.
Qed.


Lemma example_run_form op :
  (∀ n d, op ≠ Example.Generate_api_key n d) →
  ∃ meth path b (k : Response -> M S value),
    (∀ r, console_only (k r)) ∧
    Example.run transport py_repr json_dumps op
    = (c <- get_self;
       response <- requests_request transport meth (base_url c +:+ path)
                     (Some (Example._get_headers py_repr c)) b;
       k response).
Proof.
  intros Hop. destruct op; try (by exfalso; eapply Hop).
  all: eexists _, _, _, _; split; [|reflexivity]; intros r; console3.
Qed.


(** *** What every endpoint method sends *)


(** *** The success branch *)

Lemma answered_request {A} meth ep h b (k : Response -> M S A) w resp :
  (∀ r, console_only (k r)) →
  answered w (bind (ApiClient._request transport py_repr meth ep h b) k w) resp →
  ∃ req, (transport (net w) req).1 = inl resp ∧
         bind (ApiClient._request transport py_repr meth ep h b) k w
         = k resp (deliver transport w req).
Proof.
  intros Hk [req Hc].
  destruct (after_request meth ep h b k w Hk) as (req0 & _ & [Hs _] & _ & Heq).
  rewrite Hs in Hc. apply app_inv_head in Hc. injection Hc as _ Ht.
  rewrite Ht in Heq. eauto.
Qed.

Lemma success_intro op meth ep h b (succ fail : Response -> M S value) :
  ApiClient.run transport py_repr op =
    bind (ApiClient._request transport py_repr meth ep h b)
         (fun r => if status_code r =? ApiClient.expected_status op
                   then succ r else fail r) →
  (∀ r, console_only (succ r)) →
  (∀ r, console_only (fail r)) →
  (∀ resp w1, success_branch op resp (succ resp w1).1) →
  ∀ w resp, answered w (ApiClient.run transport py_repr op w) resp →
            status_code resp = ApiClient.expected_status op →
            success_branch op resp (ApiClient.run transport py_repr op w).1.
Proof.
  intros -> Hs Hf Hsb w resp Ha Hst.
  apply answered_request in Ha as (req1 & _ & ->).
  - apply Z.eqb_eq in Hst. rewrite Hst. apply Hsb.
  - intros r. destruct (_ =? _); auto.
Qed.

Ltac solve_success_branch :=
  unfold success_branch;
  unfold bind, resp_json, getitem, get_default, check_len, print_, ret, raise;
  cbn [reading_of success_result];
  repeat match goal with
         | |- context [String.eqb ?f "json"] => destruct (String.eqb f "json")
         end;
  match goal with resp : Response |- _ => destruct (json resp) as [[]|] end;
  cbn [fst snd];
  (split;
   [ intros v Hv;
     repeat match type of Hv with
            | context [match ?d !! ?k with _ => _ end] => destruct (d !! k)
            | context [match ?x with _ => _ end] => destruct x
            end;
     cbn [fst snd] in Hv; simplify_eq; done
   | try done; eauto;
     try (intros Hk; rewrite Hk; done) ]).

(** X2: what a method of [ApiClient] gives when its one call is answered
    with the status it expects.  A method that returns gives back the
    parsed body itself, except that the methods that delete give [True]
    and an export in another format than JSON the text of the body.  The
    methods that delete (but [delete_group]) and the exports in another
    format never parse the body and always return.  The methods that
    return [response.json()] as it is raise [JSONDecodeError] on a body
    that is not JSON and nothing else.  [get_analytics], which reads the
    body through [.get], takes every JSON object and raises
    [AttributeError] on other JSON.  Every other method subscripts the
    body: it raises [KeyError] when the object lacks the first key it
    reads, [TypeError] when the body is JSON but no object, and
    [JSONDecodeError] when it is not JSON. *)
Theorem success_branch_of_endpoint_methods
    (op : ApiClient.operation) (w : World S) (resp : Response) :
  answered w (ApiClient.run transport py_repr op w) resp →
  status_code resp = ApiClient.expected_status op →
  success_branch op resp (ApiClient.run transport py_repr op w).1.
Proof.
  destruct op.
  2:{ intros Ha Hst. cbn [ApiClient.run] in *.
      unfold ApiClient.generate_api_key in *. rewrite bind_get_self in *.
      destruct (truthy (jwt_token (self w))); cbn [negb] in *.
      - apply answered_request in Ha as (req1 & _ & ->); [|intros r; console].
        cbn [ApiClient.expected_status] in Hst.
        apply Z.eqb_eq in Hst. rewrite Hst. solve_success_branch.
      - destruct Ha as [req Ha]. unfold bind, print_, ret in Ha.
        cbn [fst snd calls] in Ha.
        apply (f_equal length) in Ha. rewrite length_app in Ha.
        cbn [length] in Ha. lia. }
  all: eapply success_intro; [reflexivity | intros r; console | intros r; console | ].
  all: intros resp1 w1.
  all: solve_success_branch.
Qed.

(** *** CSV import and QR codes *)

Ltac one_request req Hreq Hs Hself Heq :=
  match goal with
  | |- context [bind (ApiClient._request _ _ ?m ?ep ?h ?b) ?k ?w] =>
      destruct (after_request m ep h b k w) as (req & Hreq & Hs & Hself & Heq);
      [intros ?; console3|]
  end.

(** X3: [generate_qr] sends one [GET] with the client's headers and never
    reads the body as JSON: on a 200 it returns the bytes of the body, on
    any other status [None], and it raises only when the call itself
    fails. *)
Theorem generate_qr_never_parses_the_body (slug format : string) (w : World S) :
  ∃ req,
    sent_one transport w
      (ApiClient.generate_qr transport py_repr content_of slug format w) req ∧
    req = mkRequest "GET"
            (base_url (self w) +:+ "/api/links/" +:+ slug +:+ "/qr?format=" +:+ format)
            (Some (ApiClient._get_headers py_repr (self w))) NoBody ∧
    (ApiClient.generate_qr transport py_repr content_of slug format w).1
    = match (transport (net w) req).1 with
      | inl resp => Ok (if status_code resp =? 200 then Some (content_of resp) else None)
      | inr e => Raise (RequestException e)
      end.
Proof.
  unfold ApiClient.generate_qr.
  one_request req Hreq Hs Hself Heq.
  exists req. split; [exact Hs|]. split; [exact Hreq|]. rewrite Heq.
  destruct (transport (net w) req).1 as [resp|e]; [|done].
  destruct (status_code resp =? 200); reflexivity.
Qed.




(** X6: [bulk_import_from_list] sends nothing for an empty list, which
    gives [None], and nothing when the CSV writer rejects the rows, whose
    exception it raises; otherwise it sends one request, whose raw body is
    the CSV text the writer made of the rows. *)
Theorem bulk_import_from_list_sends_the_csv
    (links : list (gmap string value)) (w : World S) :
  match links, csv_of_dicts links with
  | [], _ =>
      (ApiClient.bulk_import_from_list transport py_repr dict_slice_exn csv_of_dicts
         links w).1 = Ok VNone ∧
      calls (ApiClient.bulk_import_from_list transport py_repr dict_slice_exn
               csv_of_dicts links w).2 = calls w
  | _ :: _, Raise e =>
      (ApiClient.bulk_import_from_list transport py_repr dict_slice_exn csv_of_dicts
         links w).1 = Raise e ∧
      calls (ApiClient.bulk_import_from_list transport py_repr dict_slice_exn
               csv_of_dicts links w).2 = calls w
  | _ :: _, Ok csv_data =>
      ∃ req,
        sent_one transport w
          (ApiClient.bulk_import_from_list transport py_repr dict_slice_exn
             csv_of_dicts links w) req ∧
        method req = "POST" ∧
        url req = base_url (self w) +:+ "/api/import/links" ∧
        payload req = DataBody csv_data
  end.
Proof.
  unfold ApiClient.bulk_import_from_list.
  destruct links as [|l links]; [done|].
  destruct (csv_of_dicts (l :: links)) as [csv_data|e]; [|done].
  unfold ApiClient.bulk_import_csv. rewrite bind_get_self. cbv zeta.
  one_request req Hreq Hs Hself Heq.
  exists req. split; [exact Hs|]. by subst req.
Qed.

(** *** [bulk_create_links], whatever the service answers *)

Lemma bulk_payload_spec (link : gmap string value) :
  filter (fun kv : string * value => kv.1 ∉ ["url"; "custom_slug"; "group_id"]) link
  ∪ (if truthy (default VNone (link !! "group_id"))
     then <[ "group_id" := default VNone (link !! "group_id") ]>
            (if truthy (default VNone (link !! "custom_slug"))
             then <[ "custom_slug" := default VNone (link !! "custom_slug") ]>
                    ({[ "url" := default VNone (link !! "url") ]} : gmap string value)
             else {[ "url" := default VNone (link !! "url") ]})
     else (if truthy (default VNone (link !! "custom_slug"))
           then <[ "custom_slug" := default VNone (link !! "custom_slug") ]>
                  ({[ "url" := default VNone (link !! "url") ]} : gmap string value)
           else {[ "url" := default VNone (link !! "url") ]}))
  = bulk_payload link.
Proof.
  apply map_eq. intros k. unfold bulk_payload.
  destruct (decide (k ∈ ["url"; "custom_slug"; "group_id"])) as [Hin|Hout].
  - rewrite lookup_union_r
      by (apply map_lookup_filter_None; right; intros v _ Hn; by apply Hn).
    destruct (decide (k = "url")) as [->|Hu].
    + rewrite lookup_insert.
      destruct (truthy (default VNone (link !! "group_id"))),
               (truthy (default VNone (link !! "custom_slug"))); by simplify_map_eq.
    + rewrite lookup_insert_ne by done.
      destruct (decide (k = "custom_slug")) as [->|Hc].
      * destruct (link !! "custom_slug") as [cs|] eqn:Ecs; cbn [default from_option id].
        -- destruct (truthy cs) eqn:Et.
           ++ rewrite (map_lookup_filter_Some_2 _ _ _ cs) by done.
              destruct (truthy (default VNone (link !! "group_id"))); by simplify_map_eq.
           ++ rewrite (proj2 (map_lookup_filter_None _ _ _)).
              ** destruct (truthy (default VNone (link !! "group_id")));
                   by simplify_map_eq.
              ** right. intros v Hv Hn. simplify_eq.
                 cbn in Hn. rewrite Hn in Et; [done|].
                 rewrite !elem_of_cons. tauto.
        -- rewrite (proj2 (map_lookup_filter_None _ _ _)) by (by left).
           cbn [truthy].
           destruct (truthy (default VNone (link !! "group_id"))); by simplify_map_eq.
      * assert (k = "group_id") as ->
          by (rewrite !elem_of_cons, elem_of_nil in Hin; tauto).
        destruct (link !! "group_id") as [g|] eqn:Eg; cbn [default from_option id].
        -- destruct (truthy g) eqn:Et.
           ++ rewrite (map_lookup_filter_Some_2 _ _ _ g) by done.
              by simplify_map_eq.
           ++ rewrite (proj2 (map_lookup_filter_None _ _ _)).
              ** destruct (truthy (default VNone (link !! "custom_slug")));
                   by simplify_map_eq.
              ** right. intros v Hv Hn. simplify_eq.
                 cbn in Hn. rewrite Hn in Et; [done|].
                 rewrite !elem_of_cons. tauto.
        -- rewrite (proj2 (map_lookup_filter_None _ _ _)) by (by left).
           cbn [truthy].
           destruct (truthy (default VNone (link !! "custom_slug"))); by simplify_map_eq.
  - assert (k ≠ "url" ∧ k ≠ "custom_slug" ∧ k ≠ "group_id") as (Hu & Hc & Hg)
      by (rewrite !elem_of_cons, elem_of_nil in Hout; tauto).
    rewrite lookup_insert_ne by done.
    rewrite lookup_union_l.
    2:{ destruct (truthy (default VNone (link !! "group_id"))),
                 (truthy (default VNone (link !! "custom_slug"))); by simplify_map_eq. }
    destruct (link !! k) as [v|] eqn:Ev.
    + rewrite (map_lookup_filter_Some_2 _ _ _ v) by done.
      rewrite (map_lookup_filter_Some_2 _ _ _ v); [done..|].
      cbn. rewrite !elem_of_cons, elem_of_nil. tauto.
    + rewrite !(proj2 (map_lookup_filter_None _ _ _)) by (by left). done.
Qed.

Lemma bulk_step_call total i link st w :
  self (ApiClient.bulk_step transport py_repr total i link st w).2 = self w ∧
  ((calls (ApiClient.bulk_step transport py_repr total i link st w).2 = calls w ∧
    ∃ e, (ApiClient.bulk_step transport py_repr total i link st w).1 = Raise e)
   ∨ ∃ a, calls (ApiClient.bulk_step transport py_repr total i link st w).2
          = calls w ++ [(mkRequest "POST" (base_url (self w) +:+ "/api/shorten")
                           (Some (ApiClient._get_headers py_repr (self w)))
                           (JsonBody (VDict (bulk_payload link))), a)]).
Proof.
  unfold ApiClient.bulk_step. destruct st as [[results successful] failed]. cbv zeta.
  destruct (decide _) as [Hin|_].
  - split; [done|]. left. split; [done|]. by eexists.
  - unfold ApiClient.shorten. cbv zeta. rewrite bulk_payload_spec.
    match goal with
    | |- context [bind (bind (ApiClient._request _ _ ?m ?ep ?h ?b) ?k) ?k2 w] =>
        destruct (after_request m ep h b (fun r => bind (k r) k2) w)
          as (req & Hreq & [Hs _] & Hself & _);
        [intros ?; console3|];
        assert (Hassoc : bind (bind (ApiClient._request transport py_repr m ep h b) k) k2 w
                         = bind (ApiClient._request transport py_repr m ep h b)
                                (fun r => bind (k r) k2) w)
          by apply bind_assoc
    end.
    rewrite Hassoc. split; [exact Hself|]. right. subst req.
    eexists. exact Hs.
Qed.

Lemma bulk_loop_calls total links : ∀ i st w,
  ∃ xs,
    calls (ApiClient.bulk_loop transport py_repr total i links st w).2 = calls w ++ xs ∧
    self (ApiClient.bulk_loop transport py_repr total i links st w).2 = self w ∧
    bulk_calls links (ApiClient._get_headers py_repr (self w)) (base_url (self w)) xs ∧
    (∀ v, (ApiClient.bulk_loop transport py_repr total i links st w).1 = Ok v →
          length xs = length links).
Proof.
  induction links as [|link links IH]; intros i st w.
  - exists []. cbn [ApiClient.bulk_loop]. unfold ret. cbn [fst snd].
    rewrite app_nil_r. repeat split; [done|]. intros j x Hx. done.
  - cbn [ApiClient.bulk_loop]. unfold bind.
    destruct (bulk_step_call total i link st w) as (Hself & Hcall).
    destruct (ApiClient.bulk_step transport py_repr total i link st w)
      as [[st'|e] w'] eqn:E; cbn [fst snd] in *.
    + destruct Hcall as [(_ & e & He)|[a Ha]]; [done|].
      destruct (IH (i + 1) st' w') as (xs & Hxs & Hs & [Hlen Hnth] & Hok).
      eexists (_ :: xs). rewrite Hxs, Ha, <- app_assoc. split; [reflexivity|].
      split; [congruence|]. split; [split|].
      * cbn [length]. lia.
      * intros [|j] x Hx.
        -- cbn in Hx. simplify_eq. by exists link.
        -- cbn in Hx. destruct (Hnth j x Hx) as (l & Hl & Hreq).
           exists l. split; [done|]. by rewrite <- Hself.
      * intros v Hv. cbn [length]. by rewrite (Hok v Hv).
    + destruct Hcall as [(Hc & _)|[a Ha]].
      * exists []. rewrite app_nil_r. split; [done|]. split; [done|].
        split; [split; [cbn; lia|done]|done].
      * eexists [_]. split; [exact Ha|]. split; [done|]. split; [split|done].
        -- cbn [length]. lia.
        -- intros [|j] x Hx; [|done]. cbn in Hx. simplify_eq. by exists link.
Qed.

Lemma bulk_create_links_calls (links : list (gmap string value)) (w : World S) :
  ∃ xs,
    calls (ApiClient.bulk_create_links transport py_repr links w).2 = calls w ++ xs ∧
    self (ApiClient.bulk_create_links transport py_repr links w).2 = self w ∧
    bulk_calls links (ApiClient._get_headers py_repr (self w)) (base_url (self w)) xs ∧
    (∀ v, (ApiClient.bulk_create_links transport py_repr links w).1 = Ok v →
          length xs = length links) ∧
    (links = [] →
       (ApiClient.bulk_create_links transport py_repr links w).1 = Ok (VList [])).
Proof.
  unfold ApiClient.bulk_create_links. cbv zeta. rewrite bind_print.
  set (w0 := mkWorld _ _ _ _).
  destruct (bulk_loop_calls (Z.of_nat (length links)) links 1 ([], 0, 0) w0)
    as (xs & Hxs & Hs & Hcalls & Hok).
  exists xs. unfold bind.
  destruct (ApiClient.bulk_loop _ _ _ _ _ _ _) as [[[[results s] f]|e] w'] eqn:E;
    cbn [fst snd] in *.
  - unfold print_, ret. cbn [fst snd self calls].
    do 3 (split; [done|]). split; [intros v _; by apply (Hok _ eq_refl)|].
    intros ->. cbn in E. unfold ret in E. by simplify_eq.
  - do 3 (split; [done|]). split; [done|].
    intros ->. cbn in E. unfold ret in E. by simplify_eq.
Qed.

(** X7: whatever the service answers, [bulk_create_links] sends the
    descriptors in their order, one [POST] to [/api/shorten] each with the
    headers of the client, and stops at the first call after which an
    exception is raised.  The body of each request is the descriptor
    itself, where [url] is [None] when the descriptor has none and a
    [custom_slug] or [group_id] that Python takes as false is left out.
    When the method returns, every descriptor has been sent; for the
    empty list it returns the empty list and sends nothing. *)
Theorem bulk_create_links_sends_the_descriptors_in_order
    (links : list (gmap string value)) (w : World S) :
  ∃ xs,
    calls (ApiClient.bulk_create_links transport py_repr links w).2 = calls w ++ xs ∧
    self (ApiClient.bulk_create_links transport py_repr links w).2 = self w ∧
    bulk_calls links (ApiClient._get_headers py_repr (self w)) (base_url (self w)) xs ∧
    (∀ v, (ApiClient.bulk_create_links transport py_repr links w).1 = Ok v →
          length xs = length links) ∧
    (links = [] →
       (ApiClient.bulk_create_links transport py_repr links w).1 = Ok (VList [])).
Proof. apply bulk_create_links_calls. Qed.

(** *** The quick functions of [edgelink_api_client.py] *)

Lemma quick_client_then {A} (m : M S A) w :
  bind (ApiClient.quick_client transport py_repr) (fun _ => m) w
  = m (mkWorld (ApiClient.new_client (Some ApiClient.API_KEY) None None)
               (net w) (calls w) (stdout w)).
Proof. reflexivity. Qed.

Lemma quick_headers :
  ApiClient._get_headers py_repr (ApiClient.new_client (Some ApiClient.API_KEY) None None)
  = {[ "Content-Type" := "application/json";
       "Authorization" := "Bearer " +:+ ApiClient.API_KEY ]}.
Proof. apply map_eq. intros k. unfold ApiClient._get_headers. cbn. 
  destruct (decide (k = "Authorization")) as [->|?]; [by simplify_map_eq|].
  destruct (decide (k = "Content-Type")) as [->|?]; by simplify_map_eq.
Qed.

Ltac solve_quick_call :=
  rewrite quick_client_then; cbv zeta;
  match goal with
  | |- context [bind (ApiClient._request _ _ ?m ?ep ?h ?b) ?k ?w] =>
      let req := fresh "req" in
      let Hreq := fresh "Hreq" in
      let Hs := fresh "Hs" in
      destruct (after_request m ep h b k w) as (req & Hreq & Hs & _ & _);
      [ intros ?; console3
      | cbn [default from_option id self base_url ApiClient.new_client] in Hreq;
        rewrite quick_headers in Hreq; subst req; exact Hs ]
  end.

(** X8: the quick functions of the module never use a client of the
    program and never log in.  Each builds a client of its own with the
    API key of the module, so that whatever client the program holds,
    [quick_create], [quick_groups], [quick_links] and [quick_analytics]
    send exactly one request, to the module's base URL and authorised by
    the module's key, and every request of [quick_bulk_create] goes there
    with that key, one per URL in their order. *)
Theorem quick_functions_use_the_module_key (w : World S) :
  (∀ u slug group, ∃ p,
     quick_call transport w (ApiClient.quick_create transport py_repr u slug group w)
       "POST" "/api/shorten" (JsonBody (VDict p)) ∧
     p !! "url" = Some (VStr u)) ∧
  quick_call transport w (ApiClient.quick_groups transport py_repr w)
    "GET" "/api/groups" NoBody ∧
  (∀ limit,
     quick_call transport w (ApiClient.quick_links transport py_repr limit w)
       "GET" ("/api/links?page=1&limit=" +:+ pretty limit) NoBody) ∧
  (∀ slug,
     quick_call transport w (ApiClient.quick_analytics transport py_repr slug w)
       "GET" ("/api/analytics/" +:+ slug +:+ "?range=7d") NoBody) ∧
  (∀ urls, ∃ xs,
     calls (ApiClient.quick_bulk_create transport py_repr urls w).2 = calls w ++ xs ∧
     bulk_calls ((fun u : string => {[ "url" := VStr u ]}) <$> urls)
       {[ "Content-Type" := "application/json";
          "Authorization" := "Bearer " +:+ ApiClient.API_KEY ]}
       ApiClient.BASE_URL xs).
Proof.
  unfold quick_call, ApiClient.quick_create, ApiClient.quick_groups,
    ApiClient.quick_links, ApiClient.quick_analytics, ApiClient.quick_bulk_create.
  split; [|split; [|split; [|split]]].
  - intros u slug group. unfold ApiClient.shorten. eexists. split; [solve_quick_call|].
    rewrite lookup_union_r by apply lookup_empty.
    destruct (truthy (of_opt group)), (truthy (of_opt slug)); by simplify_map_eq.
  - unfold ApiClient.list_groups. solve_quick_call.
  - intros limit. unfold ApiClient.list_links. solve_quick_call.
  - intros slug. unfold ApiClient.get_analytics. solve_quick_call.
  - intros urls. rewrite quick_client_then. cbv zeta.
    set (w0 := mkWorld _ _ _ _).
    destruct (bulk_create_links_calls
                ((fun u : string => ({[ "url" := VStr u ]} : gmap string value)) <$> urls) w0)
      as (xs & Hxs & _ & Hcalls & _).
    exists xs. split; [exact Hxs|].
    subst w0. cbn [self base_url ApiClient.new_client] in Hcalls.
    by rewrite quick_headers in Hcalls.
Qed.

(** *** A session, once opened *)

Lemma after_request_offline {A} meth ep h b (k : Response -> M S A) w :
  (∀ r, offline (k r)) →
  ∃ req,
    sent_one transport w (bind (ApiClient._request transport py_repr meth ep h b) k w) req ∧
    bind (ApiClient._request transport py_repr meth ep h b) k w
    = match (transport (net w) req).1 with
      | inl resp => k resp (deliver transport w req)
      | inr e => (Raise (RequestException e), deliver transport w req)
      end.
Proof.
  intros Hk.
  exists (mkRequest meth (base_url (self w) +:+ ep)
            (Some (default (ApiClient._get_headers py_repr (self w)) h)) b).
  rewrite call_spec. cbv zeta. set (req := mkRequest _ _ _ _).
  split; [|reflexivity]. unfold sent_one.
  destruct (transport (net w) req).1 as [resp|e] eqn:Ht.
  - destruct (Hk resp (deliver transport w req)) as (-> & ->).
    unfold deliver. cbn [self net calls]. rewrite Ht. done.
  - unfold deliver. cbn [fst snd self net calls]. rewrite Ht. done.
Qed.

Lemma stores_token meth ep h b expected (rest : value -> M S value)
    (fail : Response -> M S value) w resp d tok :
  (∀ v, keeps jwt_token (rest v)) →
  (∀ v, keeps api_key (rest v)) →
  (∀ v, offline (rest v)) →
  (∀ r, offline (fail r)) →
  answered w
    (bind (ApiClient._request transport py_repr meth ep h b)
       (fun r => if status_code r =? expected
                 then data <- resp_json r; tok <- getitem data "token";
                      set_jwt_token tok;; rest data
                 else fail r) w) resp →
  status_code resp = expected →
  json resp = Some (VDict d) →
  d !! "token" = Some tok →
  jwt_token (self (bind (ApiClient._request transport py_repr meth ep h b)
       (fun r => if status_code r =? expected
                 then data <- resp_json r; tok <- getitem data "token";
                      set_jwt_token tok;; rest data
                 else fail r) w).2) = tok ∧
  api_key (self (bind (ApiClient._request transport py_repr meth ep h b)
       (fun r => if status_code r =? expected
                 then data <- resp_json r; tok <- getitem data "token";
                      set_jwt_token tok;; rest data
                 else fail r) w).2) = api_key (self w).
Proof.
  intros Hj Hk Ho Hf [req0 Ha] Hst Hjs Hd.
  match goal with
  | |- context [bind (ApiClient._request _ _ ?m ?e ?hh ?bb) ?k w] =>
      destruct (after_request_offline m e hh bb k w) as (req & [Hs _] & Heq)
  end.
  { intros r. destruct (_ =? _); [offline; apply Ho|apply Hf]. }
  rewrite Heq. clear Heq. rewrite Hs in Ha. apply app_inv_head in Ha. injection Ha as _ Ht. rewrite Ht.
  apply Z.eqb_eq in Hst. rewrite Hst.
  rewrite bind_resp_json, Hjs, bind_getitem_dict, Hd, bind_set_jwt_token.
  rewrite Hj, Hk. done.
Qed.

Lemma get_headers_authorization (c : Client) :
  truthy (py_or (of_opt (api_key c)) (jwt_token c)) = true →
  ApiClient._get_headers py_repr c !! "Authorization"
  = Some ("Bearer " +:+ py_str py_repr (py_or (of_opt (api_key c)) (jwt_token c))).
Proof.
  intros H. unfold ApiClient._get_headers. cbv zeta. rewrite H. by simplify_map_eq.
Qed.

Lemma run_carries op w :
  is_set (jwt_token (self w)) →
  ∃ req a,
    calls (ApiClient.run transport py_repr op w).2 = calls w ++ [(req, a)] ∧
    carries (py_str py_repr) req (credential_of op (self w)).
Proof.
  intros Hset. unfold credential_of.
  destruct (uses_client_headers op) eqn:E.
  - destruct (api_sent_with_headers op w) as (req & path & [Hc _] & _ & Hh & _).
    { intros n d ->. done. }
    eexists req, _. split; [exact Hc|]. eexists. split; [exact Hh|].
    apply get_headers_authorization. rewrite py_or_truthy.
    unfold is_set in Hset. rewrite Hset. apply orb_true_r.
  - destruct op; try done. cbn [ApiClient.run].
    destruct (api_generate_api_key_gate name expires_in_days w) as [_ Hg].
    destruct (Hg Hset) as (req & a & h & Hc & _ & _ & Hh & Ha).
    eexists req, a. split; [exact Hc|]. by exists h.
Qed.

(** X9: once [login] or [signup] has been answered with the status it
    expects and a JSON object that holds a [token] Python takes as true,
    every later endpoint method sends one request that is authorised: by
    the API key when the client has one, else by the new session token;
    and [generate_api_key] by the session token in both cases.  This holds
    also when [login] or [signup] raises after it has stored the token,
    for want of a [user] in the body. *)
Theorem later_calls_carry_the_session_token
    (s : session_method) (op : ApiClient.operation) (w : World S)
    (resp : Response) (d : gmap string value) (tok : value) :
  answered w (open_session transport py_repr s w) resp →
  status_code resp = session_status s →
  json resp = Some (VDict d) →
  d !! "token" = Some tok →
  is_set tok →
  ∃ req a,
    calls (ApiClient.run transport py_repr op (open_session transport py_repr s w).2).2
    = calls (open_session transport py_repr s w).2 ++ [(req, a)] ∧
    carries (py_str py_repr) req
      (if uses_client_headers op then py_or (of_opt (api_key (self w))) tok else tok).
Proof.
  intros Ha Hst Hj Hd Hset.
  assert (Hstored : jwt_token (self (open_session transport py_repr s w).2) = tok ∧
                    api_key (self (open_session transport py_repr s w).2)
                    = api_key (self w)).
  { destruct s as [em pw|em pw plan]; cbn [open_session session_status] in *.
    - unfold ApiClient.login in *. rewrite bind_get_self in *. cbv zeta in *.
      eapply stores_token; [| | | |exact Ha|done..]; intros v; [frame|frame|offline|offline].
    - unfold ApiClient.signup in *.
      eapply stores_token; [| | | |exact Ha|done..]; intros v; [frame|frame|offline|offline]. }
  destruct Hstored as [Htok Hkey].
  destruct (run_carries op (open_session transport py_repr s w).2) as (req & a & Hc & Hcar).
  { by rewrite Htok. }
  exists req, a. split; [exact Hc|].
  unfold credential_of in Hcar. by rewrite Htok, Hkey in Hcar.
Qed.

(** *** The two clients that call [requests] themselves *)

Lemma answered_requests {A} meth u h b (k : Response -> M S A) w resp :
  (∀ r, console_only (k r)) →
  answered w (bind (requests_request transport meth u h b) k w) resp →
  bind (requests_request transport meth u h b) k w
  = k resp (deliver transport w (mkRequest meth u h b)).
Proof.
  intros Hk [req Hc]. rewrite bind_request in *.
  set (req0 := mkRequest _ _ _ _) in *.
  destruct (transport (net w) req0).1 as [resp0|e] eqn:Ht.
  - destruct (Hk resp0 (deliver transport w req0)) as (_ & _ & Hcalls).
    rewrite Hcalls in Hc. unfold deliver in Hc. cbn [calls] in Hc.
    apply app_inv_head in Hc. rewrite Ht in Hc. by simplify_eq.
  - unfold deliver in Hc. cbn [snd calls] in Hc.
    apply app_inv_head in Hc. rewrite Ht in Hc. by simplify_eq.
Qed.

Lemma not_answered_offline {A} (m : M S A) w resp :
  console_only m → ¬ answered w (m w) resp.
Proof.
  intros Hm [req Hc]. destruct (Hm w) as (_ & _ & Hcalls). rewrite Hcalls in Hc.
  apply (f_equal length) in Hc. rewrite length_app in Hc. cbn [length] in Hc. lia.
Qed.

Ltac full_methods :=
  unfold FullFeatures.generate_api_key, FullFeatures.list_api_keys,
    FullFeatures.shorten, FullFeatures.list_links, FullFeatures.get_stats,
    FullFeatures.get_analytics, FullFeatures.update_link, FullFeatures.delete_link,
    FullFeatures.set_device_routing, FullFeatures.set_geo_routing,
    FullFeatures.set_referrer_routing, FullFeatures.set_time_routing,
    FullFeatures.get_routing, FullFeatures.delete_routing, FullFeatures.create_ab_test,
    FullFeatures.get_ab_results, FullFeatures.delete_ab_test, FullFeatures.bulk_import,
    FullFeatures.create_webhook, FullFeatures.list_webhooks,
    FullFeatures.delete_webhook, FullFeatures.get_usage in *.

Ltac example_methods :=
  unfold Example.generate_api_key, Example.list_api_keys,
    Example.shorten, Example.list_links, Example.get_stats,
    Example.get_analytics, Example.update_link, Example.delete_link,
    Example.set_device_routing, Example.set_geo_routing,
    Example.set_referrer_routing, Example.get_routing in *.

(** Brings a method that was [answered] to its continuation on the
    response. *)
Ltac to_response Ha :=
  cbv zeta in *; rewrite bind_get_self in *;
  try match type of Ha with
      | context [negb (truthy ?t)] =>
          destruct (truthy t); cbn [negb] in *;
          [|exfalso; revert Ha; apply not_answered_offline; console3]
      end;
  apply answered_requests in Ha; [rewrite Ha; clear Ha | intros ?; console3].



(** X13: in [examples/python_api_client.py] a call answered with another
    status than the method expects prints the status and then
    [response.json()]: the method returns [None] when the body is JSON and
    raises [JSONDecodeError], after the first line, when it is not; the
    client is left as it was. *)
Theorem example_failure_reads_the_body
    (op : Example.operation) (w : World S) (resp : Response) :
  answered w (Example.run transport py_repr json_dumps op w) resp →
  status_code resp ≠ Example.expected_status op →
  failure_json resp w (Example.run transport py_repr json_dumps op w).
Proof.
  intros Ha Hst. apply Z.eqb_neq in Hst.
  destruct op; cbn [Example.run Example.expected_status] in *; example_methods;
    to_response Ha; rewrite Hst;
    unfold failure_json, bind, print_, resp_json, ret, raise;
    destruct (json resp); cbn [fst snd self stdout deliver];
    (split; [done|]; eexists; split; [done|]; rewrite <- ?app_assoc; reflexivity).
Qed.



Lemma agrees_intro meth u h b expected (succ faile failf : Response -> M S value) w :
  (∀ r, console_only (succ r)) →
  (∀ r w1, self (faile r w1).2 = self w1 ∧ net (faile r w1).2 = net w1 ∧
           calls (faile r w1).2 = calls w1 ∧
           self (failf r w1).2 = self w1 ∧ net (failf r w1).2 = net w1 ∧
           calls (failf r w1).2 = calls w1 ∧
           ((faile r w1).1 = (failf r w1).1 ∨
            ((faile r w1).1 = Raise JSONDecodeError ∧ (failf r w1).1 = Ok VNone))) →
  agrees w expected
    (bind (requests_request transport meth u h b)
       (fun r => if status_code r =? expected then succ r else faile r) w)
    (bind (requests_request transport meth u h b)
       (fun r => if status_code r =? expected then succ r else failf r) w).
Proof.
  intros Hs Hf. unfold agrees. rewrite !bind_request.
  set (req := mkRequest _ _ _ _).
  destruct (transport (net w) req).1 as [resp|e] eqn:Ht.
  - destruct (status_code resp =? expected) eqn:E.
    + do 3 (split; [done|]). split; [by left|done].
    + destruct (Hf resp (deliver transport w req)) as (H1 & H2 & H3 & H4 & H5 & H6 & H7).
      rewrite H1, H2, H3, H4, H5, H6. do 3 (split; [done|]). split; [exact H7|].
      intros resp' [req' Hc] Hst. rewrite H3 in Hc. unfold deliver in Hc.
      cbn [calls] in Hc. apply app_inv_head in Hc. rewrite Ht in Hc. simplify_eq.
      apply Z.eqb_neq in E. done.
  - do 3 (split; [done|]). split; [by left|done].
Qed.

(** X14: a method of [examples/python_api_client.py] and the method of
    the same name of [edgelink_full_features_client.py], run from the same
    world, send the same request and leave the same client.  They give the
    same result, except that on a failure whose body is not JSON the
    example raises [JSONDecodeError] where its twin returns [None]; and
    when the call is answered with the status the method expects, the two
    runs are the same altogether, the console included. *)
Theorem example_agrees_with_full_features (op : Example.operation) (w : World S) :
  agrees w (Example.expected_status op)
    (Example.run transport py_repr json_dumps op w)
    (FullFeatures.run transport py_repr json_dumps py_capitalize py_join (Example.twin op) w).
Proof.
  destruct op; cbn [Example.run FullFeatures.run Example.twin Example.expected_status];
    example_methods; full_methods; cbv zeta; rewrite !bind_get_self.
  1:{ destruct (truthy (jwt_token (self w))); cbn [negb].
      - apply agrees_intro; [intros r; console3|].
        intros r w1; unfold bind, print_, resp_json, ret, raise.
        destruct (json r); cbn [fst snd self net calls]; repeat split; eauto.
      - unfold agrees. do 3 (split; [done|]). split; [by left|done]. }
  all: apply agrees_intro; [intros r; console3|];
    intros r w1; unfold bind, print_, resp_json, ret, raise;
    destruct (json r); cbn [fst snd self net calls]; repeat split; eauto.
Qed.

(** *** The quick functions of [edgelink_full_features_client.py] *)

Lemma bind_eq_raise {A B} (m : M S A) (k : A -> M S B) w e w' :
  m w = (Raise e, w') → bind m k w = (Raise e, w').
Proof. intros H. unfold bind. by rewrite H. Qed.

Lemma full_shorten_call u slug w :
  truthy (VStr slug) = true →
  calls (FullFeatures.shorten transport py_repr (VStr u) (VStr slug) ∅ w).2
  = calls w ++ [(test_link_request py_repr (self w) u slug,
                 (transport (net w) (test_link_request py_repr (self w) u slug)).1)] ∧
  self (FullFeatures.shorten transport py_repr (VStr u) (VStr slug) ∅ w).2 = self w ∧
  (∀ v, (FullFeatures.shorten transport py_repr (VStr u) (VStr slug) ∅ w).1 = Ok v →
        truthy v
        = succeeded (transport (net w) (test_link_request py_repr (self w) u slug)).1).
Proof.
  intros Hslug. unfold FullFeatures.shorten. rewrite bind_get_self. cbv zeta.
  rewrite Hslug.
  assert (Hp : (∅ ∪ <[ "custom_slug" := VStr slug ]> {[ "url" := VStr u ]}
                : gmap string value)
               = {[ "url" := VStr u; "custom_slug" := VStr slug ]}).
  { rewrite (left_id ∅ (∪)). rewrite <- !insert_empty. by apply insert_insert_ne. }
  rewrite Hp. clear Hp. rewrite bind_request.
  fold (test_link_request py_repr (self w) u slug).
  set (req := test_link_request _ _ _ _).
  unfold succeeded.
  destruct (transport (net w) req).1 as [resp|e] eqn:Ht.
  - destruct (status_code resp =? 201).
    + destruct (json resp) as [[| | | | | |d]|] eqn:Hj;
        rewrite bind_resp_json, Hj; try rewrite bind_print;
        try (unfold bind, getitem, raise, deliver; cbn [fst snd self calls];
             rewrite Ht; done).
      rewrite bind_getitem_dict.
      destruct (d !! "short_url") as [su|] eqn:Hsu;
        [|unfold deliver; cbn [fst snd self calls]; rewrite Ht; done].
      rewrite bind_print, bind_getitem_dict.
      destruct (d !! "slug") as [sl|] eqn:Hsl;
        [|unfold deliver; cbn [fst snd self calls]; rewrite Ht; done].
      rewrite bind_print. unfold ret, deliver. cbn [fst snd self calls]. rewrite Ht.
      do 2 (split; [done|]). intros v Hv. simplify_eq.
      by apply (truthy_dict_lookup d "slug" sl).
    + rewrite !bind_print. unfold ret, deliver. cbn [fst snd self calls]. rewrite Ht.
      do 2 (split; [done|]). intros v Hv. by simplify_eq.
  - unfold deliver. cbn [fst snd self calls]. rewrite Ht. done.
Qed.

Lemma lim_slug_truthy n id : truthy (VStr ("lim" +:+ FullFeatures.pad2 n +:+ "-" +:+ id)) = true.
Proof. reflexivity. Qed.

Lemma quick_slug_truthy (n : Z) id : truthy (VStr ("quick" +:+ pretty n +:+ "-" +:+ id)) = true.
Proof. reflexivity. Qed.

Lemma limit_loop_calls fuel : ∀ created w,
  0 ≤ created → 60 - created ≤ Z.of_nat fuel →
  ∃ xs,
    calls (FullFeatures.limit_loop transport py_repr unix_time fuel created w).2
    = calls w ++ xs ∧
    Z.of_nat (length xs) ≤ Z.max 0 (60 - created) ∧
    numbered_calls (limit_request py_repr unix_time (self w)) created xs ∧
    all_but_last_succeeded xs ∧
    (∀ c, (FullFeatures.limit_loop transport py_repr unix_time fuel created w).1 = Ok c →
          c = created + count_calls succeeded xs ∧ c ≤ Z.max created 60 ∧
          (c < 60 → Z.of_nat (length xs) = c - created + 1)).
Proof.
  induction fuel as [|fuel IH]; intros created w Hc Hf.
  - assert (Hge : (created <? 60) = false) by (apply Z.ltb_ge; lia).
    cbn [FullFeatures.limit_loop]. rewrite Hge. exists []. unfold ret. cbn [fst snd].
    rewrite app_nil_r. split; [done|]. split; [cbn; lia|].
    split; [by intros i x Hx|]. split; [by intros i x Hx|].
    intros c Hv. simplify_eq. unfold count_calls. cbn.
    split; [lia|]. split; lia.
  - cbn [FullFeatures.limit_loop].
    destruct (created <? 60) eqn:Hlt.
    2:{ apply Z.ltb_ge in Hlt. exists []. unfold ret. cbn [fst snd].
        rewrite app_nil_r. split; [done|]. split; [cbn; lia|].
        split; [by intros i x Hx|]. split; [by intros i x Hx|].
        intros c Hv. simplify_eq. unfold count_calls. cbn.
        split; [lia|]. split; lia. }
    apply Z.ltb_lt in Hlt.
    destruct (full_shorten_call ("https://example.com/limit-test-" +:+ pretty created)
                ("lim" +:+ FullFeatures.pad2 created +:+ "-"
                   +:+ FullFeatures.short_id unix_time) w (lim_slug_truthy _ _))
      as (Hcalls & Hself & Htruthy).
    fold (limit_request py_repr unix_time (self w) created) in Hcalls, Htruthy.
    set (req := limit_request py_repr unix_time (self w) created) in *.
    destruct (FullFeatures.shorten _ _ _ _ _ w) as [[v|e] w1] eqn:Esh; cbn [fst snd] in *.
    + rewrite (bind_eq _ _ _ _ _ Esh). specialize (Htruthy v eq_refl).
      destruct (truthy v) eqn:Ev; cbn [negb].
      * rewrite bind_print. set (w2 := mkWorld _ _ _ _).
        destruct (IH (created + 1) w2) as (xs & Hxs & Hlen & Hnum & Hall & Hok);
          [lia|lia|].
        exists ((req, (transport (net w) req).1) :: xs).
        subst w2. cbn [calls self] in *.
        split; [by rewrite Hxs, Hcalls, <- app_assoc|]. split; [cbn [length]; lia|].
        split; [|split].
        -- intros [|i] x Hx; cbn in Hx.
           ++ simplify_eq. cbn [fst]. cbn [Z.of_nat]. by rewrite Z.add_0_r.
           ++ rewrite (Hnum i x Hx), Hself. f_equal. lia.
        -- intros [|i] x Hx Hi; cbn in Hx.
           ++ simplify_eq. done.
           ++ apply (Hall i x Hx). cbn [length] in Hi. lia.
        -- intros c Hv. destruct (Hok c Hv) as (Hcount & Hmax & Hlast).
           rewrite count_calls_cons. cbn [snd]. rewrite <- Htruthy.
           split; [lia|]. split; [lia|]. cbn [length]. lia.
      * rewrite bind_print. unfold ret. cbn [fst snd calls stdout].
        exists [(req, (transport (net w) req).1)]. split; [done|].
        split; [cbn [length]; lia|]. split; [|split].
        -- intros [|i] x Hx; cbn in Hx; [|done]. simplify_eq. cbn [fst].
           cbn [Z.of_nat]. by rewrite Z.add_0_r.
        -- intros [|i] x Hx Hi; cbn in Hx, Hi; [lia|done].
        -- intros c Hv. simplify_eq. rewrite count_calls_cons. cbn [snd].
           rewrite <- Htruthy. unfold count_calls. cbn.
           split; [lia|]. split; lia.
    + rewrite (bind_eq_raise _ _ _ _ _ Esh). cbn [fst snd].
      exists [(req, (transport (net w) req).1)]. split; [done|].
      split; [cbn [length]; lia|]. split; [|split; [|done]].
      * intros [|i] x Hx; cbn in Hx; [|done]. simplify_eq. cbn [fst].
        cbn [Z.of_nat]. by rewrite Z.add_0_r.
      * intros [|i] x Hx Hi; cbn in Hx, Hi; [lia|done].
Qed.

Lemma limit_loop_fuel fuel : ∀ created w,
  60 - created ≤ Z.of_nat fuel →
  FullFeatures.limit_loop transport py_repr unix_time (Datatypes.S fuel) created w
  = FullFeatures.limit_loop transport py_repr unix_time fuel created w.
Proof.
  induction fuel as [|fuel IH]; intros created w Hf.
  - assert (Hge : (created <? 60) = false) by (apply Z.ltb_ge; lia).
    cbn [FullFeatures.limit_loop]. by rewrite Hge.
  - change (FullFeatures.limit_loop transport py_repr unix_time
              (Datatypes.S (Datatypes.S fuel)) created w)
      with ((if created <? 60 then
               result <- FullFeatures.shorten transport py_repr
                 (VStr ("https://example.com/limit-test-" +:+ pretty created))
                 (VStr ("lim" +:+ FullFeatures.pad2 created +:+ "-"
                          +:+ FullFeatures.short_id unix_time)) ∅;
               if negb (truthy result) then
                 print_ [T "
❌ Link limit reached at "; I created; T " links"];;
                 ret created
               else
                 print_ [T "✅ Created link "; I (created + 1)];;
                 FullFeatures.limit_loop transport py_repr unix_time
                   (Datatypes.S fuel) (created + 1)
             else ret created) w).
    cbn [FullFeatures.limit_loop].
    destruct (created <? 60) eqn:Hlt; [|done]. apply Z.ltb_lt in Hlt.
    unfold bind. destruct (FullFeatures.shorten _ _ _ _ _ w) as [[v|e] w1]; [|done].
    destruct (truthy v); cbn [negb]; [|done].
    unfold print_. cbn [fst snd]. apply IH. lia.
Qed.

Lemma limit_loop_enough_fuel n : ∀ created w,
  60 - created ≤ 60 →
  FullFeatures.limit_loop transport py_repr unix_time (60 + n) created w
  = FullFeatures.limit_loop transport py_repr unix_time 60 created w.
Proof.
  induction n as [|n IH]; intros created w H; [done|].
  rewrite Nat.add_succ_r, limit_loop_fuel by lia. by apply IH.
Qed.

Lemma full_init_with_key {A} key (m : M S A) w :
  bind (FullFeatures.__init__ transport key None None) (fun _ => m) w
  = m (mkWorld (FullFeatures.new_client key None None) (net w) (calls w) (stdout w)).
Proof. reflexivity. Qed.

Lemma get_usage_call w :
  (∃ a, calls (FullFeatures.get_usage transport py_repr w).2
        = calls w ++ [(mkRequest "GET" (base_url (self w) +:+ "/api/usage")
                         (Some (FullFeatures._get_headers py_repr (self w))) NoBody, a)]) ∧
  self (FullFeatures.get_usage transport py_repr w).2 = self w.
Proof.
  unfold FullFeatures.get_usage.
  match goal with
  | |- context [bind (requests_request _ _ _ _ _) ?k] =>
      destruct (after_direct (fun c => Some (FullFeatures._get_headers py_repr c))
                  "GET" "/api/usage" NoBody k w) as (req & Hreq & [Hs _] & Hself & _);
      [intros r; console3|]
  end.
  split; [|exact Hself]. subst req. eexists. exact Hs.
Qed.

(** X15: [quick_test_limits] builds a client of its own with the key it
    is given and does not log in.  It asks for the usage once and then
    creates test links in their order, at most 60 of them: it goes on only
    after a call that created a link, so that every call but the last was
    answered with a 201, and it stops at the first call that was not.
    When it returns, the count it prints last is the number of calls
    answered with a 201, and short of 60 exactly one more call was made,
    the one that failed.  The 60 turns of the model are all the loop can
    take: more fuel changes nothing. *)
Theorem quick_test_limits_stops_at_sixty (key : option string) (w : World S) :
  (∀ n w', FullFeatures.limit_loop transport py_repr unix_time (60 + n) 0 w'
           = FullFeatures.limit_loop transport py_repr unix_time 60 0 w') ∧
  ∃ x xs,
    calls (FullFeatures.quick_test_limits transport py_repr unix_time key w).2
    = calls w ++ x :: xs ∧
    x.1 = mkRequest "GET" (FullFeatures.BASE_URL +:+ "/api/usage")
            (Some (FullFeatures._get_headers py_repr
                     (FullFeatures.new_client key None None))) NoBody ∧
    (length xs ≤ 60)%nat ∧
    numbered_calls (limit_request py_repr unix_time
                      (FullFeatures.new_client key None None)) 0 xs ∧
    all_but_last_succeeded xs ∧
    ((FullFeatures.quick_test_limits transport py_repr unix_time key w).1 = Ok tt →
     last (stdout (FullFeatures.quick_test_limits transport py_repr unix_time key w).2)
     = Some [T "
📊 Final count: "; I (count_calls succeeded xs); T " links created"] ∧
     (count_calls succeeded xs < 60 →
      Z.of_nat (length xs) = count_calls succeeded xs + 1)).
Proof.
  split; [intros n w'; by apply limit_loop_enough_fuel|].
  unfold FullFeatures.quick_test_limits. rewrite full_init_with_key, !bind_print.
  set (w0 := mkWorld _ _ _ _).
  destruct (get_usage_call w0) as ([a Hcalls] & Hself).
  destruct (FullFeatures.get_usage transport py_repr w0) as [[u|e] w1] eqn:Eu;
    cbn [fst snd] in *.
  - rewrite (bind_eq _ _ _ _ _ Eu), bind_print. set (w2 := mkWorld _ _ _ _).
    destruct (limit_loop_calls 60 0 w2) as (xs & Hxs & Hlen & Hnum & Hall & Hok);
      [lia|cbn; lia|].
    eexists _, xs.
    destruct (FullFeatures.limit_loop transport py_repr unix_time 60 0 w2)
      as [[c|e] w3] eqn:El; cbn [fst snd] in *.
    + rewrite (bind_eq _ _ _ _ _ El). unfold print_. cbn [fst snd calls stdout].
      split; [by rewrite Hxs; subst w2; cbn [calls]; rewrite Hcalls, <- app_assoc|].
      split; [done|]. split; [lia|].
      split; [by subst w2; cbn [self] in Hnum; rewrite Hself in Hnum|].
      split; [done|]. intros _.
      destruct (Hok c eq_refl) as (Hc & _ & Hlast). rewrite Z.add_0_l in Hc.
      rewrite last_snoc, <- Hc. split; [done|]. intros Hlt.
      rewrite (Hlast Hlt). lia.
    + rewrite (bind_eq_raise _ _ _ _ _ El). cbn [fst snd].
      split; [by rewrite Hxs; subst w2; cbn [calls]; rewrite Hcalls, <- app_assoc|].
      split; [done|]. split; [lia|].
      split; [by subst w2; cbn [self] in Hnum; rewrite Hself in Hnum|].
      split; [done|]. done.
  - rewrite (bind_eq_raise _ _ _ _ _ Eu). cbn [fst snd].
    eexists _, []. split; [exact Hcalls|]. split; [done|]. split; [cbn; lia|].
    split; [by intros i x Hx|]. split; [by intros i x Hx|]. done.
Qed.

Lemma test_links_calls (l : list Z) : ∀ w,
  ∃ xs,
    calls (for_each l (fun i =>
             FullFeatures.shorten transport py_repr
               (VStr ("https://example.com/test-" +:+ pretty i))
               (VStr ("quick" +:+ pretty i +:+ "-" +:+ FullFeatures.short_id unix_time)) ∅;;
             ret tt) w).2 = calls w ++ xs ∧
    (length xs ≤ length l)%nat ∧
    (∀ i x, xs !! i = Some x →
            ∃ n, l !! i = Some n ∧ x.1 = quick_request py_repr unix_time (self w) n) ∧
    ((for_each l (fun i =>
        FullFeatures.shorten transport py_repr
          (VStr ("https://example.com/test-" +:+ pretty i))
          (VStr ("quick" +:+ pretty i +:+ "-" +:+ FullFeatures.short_id unix_time)) ∅;;
        ret tt) w).1 = Ok tt → length xs = length l).
Proof.
  induction l as [|n l IH]; intros w.
  - exists []. cbn [for_each]. unfold ret. cbn [fst snd]. rewrite app_nil_r.
    split; [done|]. split; [done|]. split; [by intros i x Hx|done].
  - cbn [for_each].
    destruct (full_shorten_call ("https://example.com/test-" +:+ pretty n)
                ("quick" +:+ pretty n +:+ "-" +:+ FullFeatures.short_id unix_time) w
                (quick_slug_truthy _ _)) as (Hcalls & Hself & _).
    fold (quick_request py_repr unix_time (self w) n) in Hcalls.
    set (req := quick_request py_repr unix_time (self w) n) in *.
    rewrite bind_assoc.
    destruct (FullFeatures.shorten _ _ _ _ _ w) as [[v|e] w1] eqn:Esh; cbn [fst snd] in *.
    + rewrite (bind_eq _ _ _ _ _ Esh), bind_ret.
      destruct (IH w1) as (xs & Hxs & Hlen & Hnum & Hok).
      exists ((req, (transport (net w) req).1) :: xs).
      split; [by rewrite Hxs, Hcalls, <- app_assoc|].
      split; [cbn [length]; lia|]. split.
      * intros [|i] x Hx; cbn in Hx.
        -- simplify_eq. by exists n.
        -- destruct (Hnum i x Hx) as (k & Hk & Hreq). exists k.
           split; [done|]. by rewrite <- Hself.
      * intros Hv. cbn [length]. by rewrite (Hok Hv).
    + rewrite (bind_eq_raise _ _ _ _ _ Esh). cbn [fst snd].
      exists [(req, (transport (net w) req).1)]. split; [done|].
      split; [cbn [length]; lia|]. split; [|done].
      intros [|i] x Hx; cbn in Hx; [|done]. simplify_eq. by exists n.
Qed.

(** X16: [quick_create_test_links] builds a client of its own with the
    key it is given, does not log in, and sends the test links in their
    order, [count] of them when no call raises and none when [count] is
    not positive; it stops at the first call that raises. *)
Theorem quick_create_test_links_sends_count_links
    (key : option string) (count : Z) (w : World S) :
  ∃ xs,
    calls (FullFeatures.quick_create_test_links transport py_repr unix_time key count w).2
    = calls w ++ xs ∧
    (length xs ≤ Z.to_nat count)%nat ∧
    numbered_calls (quick_request py_repr unix_time
                      (FullFeatures.new_client key None None)) 0 xs ∧
    ((FullFeatures.quick_create_test_links transport py_repr unix_time key count w).1
     = Ok tt → length xs = Z.to_nat count).
Proof.
  unfold FullFeatures.quick_create_test_links.
  rewrite full_init_with_key, bind_print. set (w0 := mkWorld _ _ _ _).
  destruct (test_links_calls (seqZ 0 count) w0) as (xs & Hxs & Hlen & Hnum & Hok).
  rewrite length_seqZ in Hlen, Hok.
  exists xs. split; [exact Hxs|]. split; [exact Hlen|]. split; [|exact Hok].
  intros i x Hx. destruct (Hnum i x Hx) as (n & Hn & Hreq).
  apply lookup_seqZ in Hn as [-> _]. exact Hreq.
Qed.

(** *** The script of [examples/python_api_client.py] *)

Lemma calls_within_console {A} c P (m : M S A) :
  console_only m → calls_within c 0 P m.
Proof.
  intros Hm w Hw. destruct (Hm w) as (Hs & _ & Hc). exists [].
  rewrite app_nil_r. split; [done|]. split; [done|]. split; [done|]. congruence.
Qed.

Lemma calls_within_bind {A B} c n1 n2 P (m : M S A) (k : A -> M S B) :
  calls_within c n1 P m → (∀ a, calls_within c n2 P (k a)) →
  calls_within c (n1 + n2) P (bind m k).
Proof.
  intros Hm Hk w Hw. destruct (Hm w Hw) as (xs & Hxs & Hlen & HP & Hs).
  unfold bind. destruct (m w) as [[a|e] w1]; cbn [fst snd] in *.
  - destruct (Hk a w1 Hs) as (ys & Hys & Hlen' & HP' & Hs').
    exists (xs ++ ys). rewrite Hys, Hxs, <- app_assoc. split; [done|].
    split; [rewrite length_app; lia|]. split; [by apply Forall_app|done].
  - exists xs. split; [done|]. split; [lia|]. done.
Qed.

Lemma calls_within_run c P op :
  (∀ path b meth, P (mkRequest meth (base_url c +:+ path)
                       (Some (Example._get_headers py_repr c)) b)) →
  (∀ n d, op ≠ Example.Generate_api_key n d) →
  calls_within c 1 P (Example.run transport py_repr json_dumps op).
Proof.
  intros HP Hop w Hw.
  destruct (example_run_form op Hop) as (meth & path & b & k & Hk & ->).
  destruct (after_direct (fun c => Some (Example._get_headers py_repr c))
              meth path b k w Hk) as (req & Hreq & [Hs _] & Hself & _).
  eexists [_]. split; [exact Hs|]. split; [done|]. split; [|congruence].
  constructor; [|done]. cbn [fst]. subst req. rewrite Hw. apply HP.
Qed.

Lemma script_headers :
  Example._get_headers py_repr (Example.new_client (Some script_key) None None)
  = {[ "Content-Type" := "application/json";
       "Authorization" := "Bearer " +:+ script_key ]}.
Proof. reflexivity. Qed.

Lemma calls_within_weaken {A} c n n' P (m : M S A) :
  calls_within c n P m → (n ≤ n')%nat → calls_within c n' P m.
Proof.
  intros Hm Hn w Hw. destruct (Hm w Hw) as (xs & Hxs & Hlen & HP & Hs).
  exists xs. split; [done|]. split; [lia|]. done.
Qed.

Lemma calls_within_if {A} c n1 n2 P (b : bool) (m1 m2 : M S A) :
  calls_within c n1 P m1 → calls_within c n2 P m2 →
  calls_within c (n1 `max` n2) P (if b then m1 else m2).
Proof.
  intros H1 H2. destruct b; eapply calls_within_weaken; eauto; lia.
Qed.

Lemma example_init_with_key {A} key (m : M S A) w :
  bind (Example.__init__ transport key None None) (fun _ => m) w
  = m (mkWorld (Example.new_client key None None) (net w) (calls w) (stdout w)).
Proof. reflexivity. Qed.

Ltac within Hrun :=
  repeat match goal with
         | |- calls_within _ _ _ (Example.list_links _ _ _ _ _) =>
             apply (Hrun (Example.List_links _ _ _)); done
         | |- calls_within _ _ _ (Example.shorten _ _ _ _ _) =>
             apply (Hrun (Example.Shorten _ _ _)); done
         | |- calls_within _ _ _ (Example.get_stats _ _ _) =>
             apply (Hrun (Example.Get_stats _)); done
         | |- calls_within _ _ _ (bind _ _) => eapply calls_within_bind; [|intros ?]
         | |- calls_within _ _ _ (if _ then _ else _) => apply calls_within_if
         | |- calls_within _ _ _ _ => solve [apply calls_within_console; console3]
         end.

(** X17: the script at the end of [examples/python_api_client.py] never
    logs in: whatever the service answers, it sends at most four requests
    ([list_links], [shorten], [get_stats] when [shorten] returned a link,
    and [list_links] again), each to the base URL of the example and
    authorised by the key written in the script. *)
Theorem example_script_uses_its_key (w : World S) :
  ∃ xs,
    calls (Example.main transport py_repr w).2 = calls w ++ xs ∧
    (length xs ≤ 4)%nat ∧
    Forall (fun x => script_request x.1) xs.
Proof.
  unfold Example.main. rewrite !bind_print.
  change (Example.__init__ transport (Some "elk_98z7n3wCDv36mmyvuTpmqxRXaERJHulr")
            None None)
    with (Example.__init__ transport (Some script_key) None None).
  rewrite example_init_with_key.
  set (c := Example.new_client (Some script_key) None None).
  assert (Hrun : ∀ op, (∀ n d, op ≠ Example.Generate_api_key n d) →
            calls_within c 1 script_request (Example.run transport py_repr json_dumps op)).
  { intros op Hop. apply calls_within_run; [|done].
    intros path b meth. split; [by exists path|]. cbn [headers]. subst c.
    by rewrite script_headers. }
  set (w0 := mkWorld _ _ _ _).
  match goal with
  | |- context [calls (?m w0).2] =>
      assert (Hm : calls_within c 4 script_request m)
  end.
  { eapply calls_within_weaken; [within Hrun|]. cbn [Nat.add Nat.max]. lia. }
  destruct (Hm w0 eq_refl) as (xs & Hxs & Hlen & HP & _).
  exists xs. done.
Qed.

(** *** The demos of [edgelink_api_client.py] *)

(** The time [demo_bulk_operations] reads from the clock *)
Variable timestamp : Z.

Lemma sends_prefix_console {A} c (m : M S A) :
  console_only m → sends_prefix c [] m.
Proof.
  intros Hm w Hw. destruct (Hm w) as (Hs & _ & Hc). exists [].
  rewrite app_nil_r. split; [done|]. split; [congruence|]. done.
Qed.

Lemma sends_prefix_bind {A B} c L1 L2 (m : M S A) (k : A -> M S B) :
  sends_prefix c L1 m → (∀ a, sends_prefix c L2 (k a)) →
  sends_prefix c (L1 ++ L2) (bind m k).
Proof.
  intros Hm Hk w Hw. destruct (Hm w Hw) as (xs & Hxs & Hs & Hpre & Hok).
  unfold bind. destruct (m w) as [[a|e] w1]; cbn [fst snd] in *.
  - destruct (Hk a w1 Hs) as (ys & Hys & Hs' & Hpre' & Hok').
    exists (xs ++ ys). rewrite Hys, Hxs, <- app_assoc. split; [done|]. split; [done|].
    rewrite fmap_app, (Hok a eq_refl).
    split; [by apply prefix_app|]. intros b Hb. by rewrite (Hok' b Hb).
  - exists xs. split; [done|]. split; [done|].
    split; [by apply prefix_app_r|done].
Qed.

Lemma sends_prefix_request {A} c meth ep b (k : Response -> M S A) :
  (∀ r, console_only (k r)) →
  sends_prefix c [client_request py_repr c meth ep b]
    (bind (ApiClient._request transport py_repr meth ep None b) k).
Proof.
  intros Hk w Hw.
  destruct (after_request meth ep None b k w Hk) as (req & Hreq & [Hs _] & Hself & _).
  eexists [_]. split; [exact Hs|]. split; [congruence|].
  cbn [fmap list_fmap fst default from_option id] in *. subst req. rewrite Hw.
  split; done.
Qed.

Lemma shorten_link u w :
  ∃ a,
    calls (ApiClient.shorten transport py_repr u VNone VNone ∅ w).2
    = calls w ++ [(client_request py_repr (self w) "POST" "/api/shorten"
                     (JsonBody (VDict {[ "url" := u ]})), a)] ∧
    self (ApiClient.shorten transport py_repr u VNone VNone ∅ w).2 = self w ∧
    ∀ v, (ApiClient.shorten transport py_repr u VNone VNone ∅ w).1 = Ok v →
         if truthy v then ∃ d, v = VDict d ∧ created_slug a = d !! "slug"
         else created_slug a = None.
Proof.
  unfold ApiClient.shorten. cbv zeta. cbn [truthy].
  assert (Hp : (∅ ∪ {[ "url" := u ]} : gmap string value) = {[ "url" := u ]})
    by apply (left_id ∅ (∪)).
  rewrite Hp. clear Hp. rewrite call_spec. cbv zeta. cbn [default from_option id].
  fold (client_request py_repr (self w) "POST" "/api/shorten"
          (JsonBody (VDict {[ "url" := u ]}))).
  set (req := client_request _ _ _ _ _).
  exists (transport (net w) req).1. unfold created_slug.
  destruct (transport (net w) req).1 as [resp|e] eqn:Ht.
  - destruct (status_code resp =? 201).
    + destruct (json resp) as [[| | | | | |d]|] eqn:Hj;
        rewrite bind_resp_json, Hj;
        try (unfold bind, getitem, raise, deliver; cbn [fst snd self calls];
             rewrite Ht; done).
      rewrite bind_getitem_dict.
      destruct (d !! "short_url") as [su|] eqn:Hsu;
        [|unfold deliver; cbn [fst snd self calls]; rewrite Ht; done].
      rewrite bind_print. unfold ret, deliver. cbn [fst snd self calls]. rewrite Ht.
      do 2 (split; [done|]). intros v Hv. simplify_eq.
      rewrite (truthy_dict_lookup d "short_url" su Hsu). by exists d.
    + destruct (json resp) as [j|] eqn:Hj; rewrite bind_resp_json, Hj;
        [|unfold deliver; cbn [fst snd self calls]; rewrite Ht; done].
      rewrite bind_print. unfold ret, deliver. cbn [fst snd self calls]. rewrite Ht.
      do 2 (split; [done|]). intros v Hv. by simplify_eq.
  - unfold deliver. cbn [fst snd self calls]. rewrite Ht. done.
Qed.

Lemma follows_the_link_intro u (rest : value -> list Request)
    (k : value -> M S unit) (stay : M S unit) (K : value -> M S unit) w0 w :
  self w0 = self w → calls w0 = calls w →
  (∀ link w', K link w'
              = (if truthy link then slug <- getitem link "slug"; k slug else stay) w') →
  console_only stay →
  (∀ sl, sends_prefix (self w) (rest sl) (k sl)) →
  follows_the_link
    (client_request py_repr (self w) "POST" "/api/shorten" (JsonBody (VDict {[ "url" := u ]})))
    rest w
    (bind (ApiClient.shorten transport py_repr u VNone VNone ∅) K w0).
Proof.
  intros Hself Hcalls HK Hstay Hk.
  destruct (shorten_link u w0) as (a & Hc & Hs & Hres).
  rewrite Hself in Hc. rewrite Hcalls in Hc.
  exists a.
  destruct (ApiClient.shorten transport py_repr u VNone VNone ∅ w0) as [[v|e] w1] eqn:Esh;
    cbn [fst snd] in *.
  - rewrite (bind_eq _ _ _ _ _ Esh), HK. specialize (Hres v eq_refl).
    destruct (truthy v).
    + destruct Hres as (d & -> & Hslug). rewrite bind_getitem_dict, Hslug.
      destruct (d !! "slug") as [sl|].
      * destruct (Hk sl w1) as (xs & Hxs & Hs' & Hpre & Hok); [congruence|].
        exists xs. rewrite Hxs, Hc, <- app_assoc. split; [done|].
        split; [congruence|]. split; [done|]. intros Hv. by apply (Hok tt).
      * exists []. cbn [fst snd]. rewrite Hc. split; [done|]. split; [congruence|done].
    + rewrite Hres. exists []. destruct (Hstay w1) as (Hs1 & _ & Hc1).
      rewrite Hc1, Hs1, Hc. split; [done|]. split; [congruence|]. done.
  - rewrite (bind_eq_raise _ _ _ _ _ Esh). cbn [fst snd]. exists [].
    rewrite Hc. split; [done|]. split; [congruence|].
    destruct (created_slug a); [|done]. split; [apply prefix_nil|done].
Qed.

Lemma banner_then {A} title (m : M S A) w :
  bind (ApiClient.banner title) (fun _ => m) w
  = m (mkWorld (self w) (net w) (calls w)
         (stdout w ++ [[T ("
" +:+ ApiClient.rule70)]; [T title]; [T ApiClient.rule70]])).
Proof.
  unfold ApiClient.banner.
  rewrite bind_assoc, bind_print, bind_assoc, bind_print, bind_print.
  cbn [self net calls stdout]. by rewrite <- !app_assoc.
Qed.

Ltac sends_prefix :=
  repeat match goal with
         | |- sends_prefix _ _ (bind (ApiClient._request _ _ _ _ _ _) _) =>
             apply sends_prefix_request; intros ?; console3
         | |- sends_prefix _ (?x :: ?l) (bind _ _) =>
             apply (sends_prefix_bind _ [x] l); [|intros ?]
         | |- sends_prefix _ [] _ => apply sends_prefix_console; console3
         end.

(** X18: the demos of the module go on with the link the service gave
    them.  [demo_basic_operations] and [demo_routing] first create a link;
    when the answer is a 201 whose body announces a slug, their later
    requests ask for that slug, in the order of the code and up to the
    first call that raises, and when the answer announces no slug, because
    the call failed or the body has none, they send nothing more.
    [demo_bulk_operations] sends its three descriptors through
    [bulk_create_links], in their order.  All requests carry the headers
    of the client the demo was given, which it leaves as it is. *)
Theorem demos_follow_the_created_link (w : World S) :
  follows_the_link
    (client_request py_repr (self w) "POST" "/api/shorten"
       (JsonBody (VDict {[ "url" := VStr "https://example.com/test-page" ]})))
    (basic_requests py_repr (self w)) w
    (ApiClient.demo_basic_operations transport py_repr w) ∧
  follows_the_link
    (client_request py_repr (self w) "POST" "/api/shorten"
       (JsonBody (VDict {[ "url" := VStr "https://example.com/default" ]})))
    (routing_requests py_repr (self w)) w
    (ApiClient.demo_routing transport py_repr w) ∧
  ∃ xs,
    calls (ApiClient.demo_bulk_operations transport py_repr timestamp w).2
    = calls w ++ xs ∧
    bulk_calls (demo_links timestamp) (ApiClient._get_headers py_repr (self w))
      (base_url (self w)) xs.
Proof.
  split; [|split].
  - unfold ApiClient.demo_basic_operations. rewrite banner_then.
    apply (follows_the_link_intro _ _
             (fun slug => ApiClient.get_stats transport py_repr (py_str py_repr slug);;
                          ApiClient.update_link transport py_repr (py_str py_repr slug)
                            (Some "https://example.com/updated") None;;
                          ret tt)
             (ret tt)); [done|done|done|console3|].
    intros sl. unfold basic_requests, ApiClient.get_stats, ApiClient.update_link.
    cbv zeta. sends_prefix.
  - unfold ApiClient.demo_routing. rewrite banner_then.
    apply (follows_the_link_intro _ _
             (fun slug =>
                ApiClient.set_device_routing transport py_repr (py_str py_repr slug)
                  "https://m.example.com" "https://www.example.com"
                  (Some "https://tablet.example.com");;
                ApiClient.set_geo_routing transport py_repr (py_str py_repr slug)
                  {[ "US" := "https://example.com/us"; "GB" := "https://example.com/uk";
                     "IN" := "https://example.com/in";
                     "default" := "https://example.com" ]};;
                ApiClient.set_referrer_routing transport py_repr (py_str py_repr slug)
                  {[ "twitter.com" := "https://example.com/from-twitter";
                     "linkedin.com" := "https://example.com/from-linkedin";
                     "default" := "https://example.com" ]};;
                ApiClient.get_routing transport py_repr (py_str py_repr slug);;
                ret tt)
             (ret tt)).
    + done.
    + done.
    + intros link w'. by destruct (truthy link).
    + console3.
    + intros sl. unfold routing_requests, ApiClient.set_device_routing,
        ApiClient.set_geo_routing, ApiClient.set_referrer_routing, ApiClient.get_routing.
      cbv zeta. sends_prefix.
  - unfold ApiClient.demo_bulk_operations. cbv zeta.
    rewrite banner_then. set (w0 := mkWorld _ _ _ _).
    fold (demo_links timestamp).
    destruct (bulk_create_links_calls (demo_links timestamp) w0)
      as (xs & Hxs & _ & Hcalls & _).
    exists xs. split; [|exact Hcalls].
    unfold bind. destruct (ApiClient.bulk_create_links _ _ _ w0) as [[v|e] w1]; exact Hxs.
Qed.

End Execution.

(** *** The theorems at work, and where the claims as stated fail *)

(** What [bulk_create_links] returns against the flaky service. *)
Example bulk_create_links_flaky :
  (ApiClient.bulk_create_links flaky sample_repr three_links (world0 with_key true)).1
  = Ok (VList
      [ VDict {[ "success" := VBool true; "slug" := VStr "abc123";
                 "short_url" := VStr "https://go.shortedbro.xyz/abc123";
                 "destination" := VStr "https://example.com/page1" ]};
        VDict {[ "success" := VBool false;
                 "destination" := VStr "https://example.com/page2";
                 "error" := VStr "Failed to create" ]};
        VDict {[ "success" := VBool true; "slug" := VStr "abc123";
                 "short_url" := VStr "https://go.shortedbro.xyz/abc123";
                 "destination" := VStr "https://example.com/page3" ]} ]).
Proof. vm_compute. reflexivity. Qed.

Example login_then_generate_api_key :
  let w1 := (ApiClient.__init__ (always (inl (session_granted 200))) sample_repr
               None (Some "ann@example.com") (Some "hunter2") (world0 anonymous tt)).2 in
  jwt_token (self w1) = VStr "jwt-2" ∧
  (headers <$> sent (ApiClient.generate_api_key (always (inl forbidden)) sample_repr
                       "Python Script" 365 w1).2) !! 1%nat
  = Some (Some {[ "Content-Type" := "application/json";
                  "Authorization" := "Bearer jwt-2" ]}).
Proof. vm_compute. split; reflexivity. Qed.


(** C2 as stated fails.  [login] answered with 401 and [login] answered
    with 403 return the same [None], from which neither the status code
    nor the body can be read; answered with a 502 whose body is not JSON,
    [login] of [edgelink_api_client.py] raises; and answered with a 200
    whose body has a token and no user, it stores the token and then
    raises instead of returning the parsed body. *)
Lemma C2_login_failure_carries_nothing :
  status_code unauthorized ≠ status_code forbidden ∧
  text unauthorized ≠ text forbidden ∧
  (ApiClient.login (always (inl unauthorized)) sample_repr None None
     (world0 logged_in tt)).1 = Ok VNone ∧
  (ApiClient.login (always (inl forbidden)) sample_repr None None
     (world0 logged_in tt)).1 = Ok VNone ∧
  (FullFeatures.login (always (inl unauthorized)) (world0 logged_in tt)).1 = Ok VNone ∧
  (FullFeatures.login (always (inl forbidden)) (world0 logged_in tt)).1 = Ok VNone ∧
  (ApiClient.login (always (inl bad_gateway)) sample_repr None None
     (world0 logged_in tt)).1 = Raise JSONDecodeError ∧
  (ApiClient.login (always (inl (token_only 200))) sample_repr None None
     (world0 logged_in tt)).1 = Raise (KeyError "user").
Proof. vm_compute. repeat split; discriminate. Qed.




(** C6 as stated fails.  Answered with a 502 whose body is not JSON,
    [signup] raises instead of yielding a failure; answered with a 201
    whose body has a token and no user, it stores the token and raises
    instead of returning the parsed body. *)
Lemma C6_signup_raises :
  (ApiClient.signup (always (inl bad_gateway)) sample_repr
     "ann@example.com" "hunter2" "free" (world0 anonymous tt)).1
  = Raise JSONDecodeError ∧
  (Example.signup (always (inl bad_gateway))
     "ann@example.com" "hunter2" "free" (world0 anonymous tt)).1
  = Raise JSONDecodeError ∧
  (ApiClient.signup (always (inl (token_only 201))) sample_repr
     "ann@example.com" "hunter2" "free" (world0 anonymous tt)).1
  = Raise (KeyError "user") ∧
  jwt_token (self (ApiClient.signup (always (inl (token_only 201))) sample_repr
                     "ann@example.com" "hunter2" "free" (world0 anonymous tt)).2)
  = VStr "jwt-2".
Proof. vm_compute. repeat split. Qed.

(** C7 as stated fails.  In [examples/python_api_client.py], the second
    [delete_link], answered with a 404 whose body is not JSON, raises. *)
Lemma C7_second_delete_raises :
  status_code deleted = 200 ∧
  status_code not_found_page = 404 ∧
  (Example.delete_link scripted sample_repr "promo"
     (world0 with_key [inl deleted; inl not_found_page])).1
  = Ok (VDict {[ "message" := VStr "Link deleted" ]}) ∧
  (Example.delete_link scripted sample_repr "promo"
     (Example.delete_link scripted sample_repr "promo"
        (world0 with_key [inl deleted; inl not_found_page])).2).1
  = Raise JSONDecodeError.
Proof. vm_compute. repeat split. Qed.

(** In [edgelink_api_client.py] the same two calls return [True] and then
    [False]. *)
Example delete_link_twice_bools :
  (ApiClient.delete_link scripted sample_repr "promo"
     (world0 with_key [inl deleted; inl not_found_page])).1 = Ok (VBool true) ∧
  (ApiClient.delete_link scripted sample_repr "promo"
     (ApiClient.delete_link scripted sample_repr "promo"
        (world0 with_key [inl deleted; inl not_found_page])).2).1 = Ok (VBool false).
Proof. vm_compute. split; reflexivity. Qed.



(** *** The theorems on the rest of the code, at work *)


(** [get_stats] answered with a 200 whose body has no [total_clicks]. *)
Lemma success_branch_of_endpoint_methods_witness :
  success_branch (ApiClient.Get_stats "promo") deleted
    (ApiClient.run (always (inl deleted)) sample_repr (ApiClient.Get_stats "promo")
       (world0 with_key tt)).1 ∧
  (ApiClient.run (always (inl deleted)) sample_repr (ApiClient.Get_stats "promo")
     (world0 with_key tt)).1 = Raise (KeyError "total_clicks").
Proof.
  split; [|vm_compute; reflexivity].
  apply (success_branch_of_endpoint_methods (always (inl deleted)) sample_repr
           (ApiClient.Get_stats "promo") (world0 with_key tt) deleted).
  - exists (mkRequest "GET" "https://go.shortedbro.xyz/api/stats/promo"
              (Some (ApiClient._get_headers sample_repr with_key)) NoBody).
    vm_compute. reflexivity.
  - reflexivity.
Defined.


(** [get_profile] after a login. *)
Lemma later_calls_carry_the_session_token_witness :
  ∃ req a,
    calls (ApiClient.run (always (inl (session_granted 200))) sample_repr
             ApiClient.Get_profile
             (open_session (always (inl (session_granted 200))) sample_repr
                (Login None None) (world0 registered tt)).2).2
    = calls (open_session (always (inl (session_granted 200))) sample_repr
               (Login None None) (world0 registered tt)).2 ++ [(req, a)] ∧
    carries (py_str sample_repr) req (VStr "jwt-2").
Proof.
  apply (later_calls_carry_the_session_token (always (inl (session_granted 200)))
           sample_repr (Login None None) ApiClient.Get_profile (world0 registered tt)
           (session_granted 200) session_body (VStr "jwt-2")).
  - exists (mkRequest "POST" "https://go.shortedbro.xyz/auth/login"
              (Some {[ "Content-Type" := "application/json" ]})
              (login_body (Some "ann@example.com") (Some "hunter2"))).
    vm_compute. reflexivity.
  - reflexivity.
  - reflexivity.
  - vm_compute. reflexivity.
  - reflexivity.
Defined.




(** [get_stats] answered with a 404 whose body is not JSON. *)
Lemma example_failure_reads_the_body_witness :
  failure_json not_found_page (world0 with_key tt)
    (Example.run (always (inl not_found_page)) sample_repr sample_repr
       (Example.Get_stats "promo") (world0 with_key tt)) ∧
  (Example.run (always (inl not_found_page)) sample_repr sample_repr
     (Example.Get_stats "promo") (world0 with_key tt)).1 = Raise JSONDecodeError.
Proof.
  split; [|vm_compute; reflexivity].
  apply (example_failure_reads_the_body (always (inl not_found_page))
           sample_repr sample_repr (Example.Get_stats "promo") (world0 with_key tt)
           not_found_page).
  - exists (mkRequest "GET" "https://go.shortedbro.xyz/api/stats/promo"
              (Some (Example._get_headers sample_repr with_key)) NoBody).
    vm_compute. reflexivity.
  - vm_compute. discriminate.
Defined.

(** The calls of [quick_test_limits] against the flaky service: the usage,
    a link that is created and one that is not. *)
Example quick_test_limits_flaky :
  (method <$> sent (FullFeatures.quick_test_limits flaky sample_repr 1700000000
                      (Some "elk_4qnSlEEu8B4fLtEXtCpgpHrssvt2jVhb")
                      (world0 anonymous false)).2)
  = ["GET"; "POST"; "POST"].
Proof. vm_compute. reflexivity. Qed.
